(** * PC Power Monitor: a shallow embedding of the estimation and
      aggregation core

    The development follows the Python sources:
    - [config.py]            -> module [config]
    - [data_storage.py]      -> module [DataStorage]
    - [hardware_monitor.py]  -> module [HardwareMonitor]
    - the glue of [ui.py] ([_save_settings], [_on_power_reading]) -> module [UI]
    - the [components] table of [data_storage.py] -> module [Components]

    Numbers.  Python [int] and [float] values are embedded as exact
    rationals [Q]; [/] is true division.  Rounding of IEEE doubles is not
    modelled, so every numeric statement below is a statement about the
    exact value of the expression the code evaluates.

    Effects.  Exceptions are values of [result]; code that mutates the
    database or a dictionary while it may raise is written in a state and
    exception monad, so that what was written before the exception stays
    written, as in Python. *)

From Stdlib Require Import QArith ZArith List String Bool Lia Lqa Permutation
  Sorted.
Import ListNotations.

Local Open Scope string_scope.
Local Open Scope list_scope.
Local Open Scope Q_scope.

(** ** Python values and exceptions *)

Inductive exn : Type :=
| sqlite3_Error (msg : string)
| TypeError (msg : string)
| KeyError (key : string)
| ValueError (msg : string)
| Exception_ (msg : string).

Definition is_sqlite3_Error (e : exn) : bool :=
  match e with sqlite3_Error _ => true | _ => false end.

Inductive result (A : Type) : Type :=
| Ok (a : A)
| Raise (e : exn).
Arguments Ok {A} a.
Arguments Raise {A} e.

(** A state and exception monad: the state survives a raise. *)
Definition M (S A : Type) : Type := S -> result A * S.

Definition ret {S A} (a : A) : M S A := fun s => (Ok a, s).
Definition raise {S A} (e : exn) : M S A := fun s => (Raise e, s).
Definition bind {S A B} (c : M S A) (k : A -> M S B) : M S B :=
  fun s => match c s with
           | (Ok a, s') => k a s'
           | (Raise e, s') => (Raise e, s')
           end.
Definition get_state {S} : M S S := fun s => (Ok s, s).
Definition put_state {S} (s : S) : M S unit := fun _ => (Ok tt, s).

(** [try: body except <filter> as e: handler e]; an exception the filter
    does not select propagates. *)
Definition try_except {S A} (body : M S A) (sel : exn -> bool)
                      (handler : exn -> M S A) : M S A :=
  fun s => match body s with
           | (Ok a, s') => (Ok a, s')
           | (Raise e, s') => if sel e then handler e s' else (Raise e, s')
           end.

Definition any_Exception (e : exn) : bool := true.

Declare Scope py_scope.
Delimit Scope py_scope with py.
Notation "x <- c ;; k" := (bind c (fun x => k))
  (at level 61, c at next level, right associativity) : py_scope.
Notation "c ;;; k" := (bind c (fun _ => k))
  (at level 61, right associativity) : py_scope.

Definition modify {S} (f : S -> S) : M S unit := fun s => (Ok tt, f s).

Definition lift {S A} (r : result A) : M S A :=
  match r with
  | Ok a => ret a
  | Raise e => raise e
  end.

(** [try: body except Exception: print(...)] *)
Definition swallow {S} (body : M S unit) : M S unit :=
  try_except body any_Exception (fun _ => ret tt).

(** [for x in xs: f(x)] *)
Fixpoint for_each {S A} (f : A -> M S unit) (xs : list A) : M S unit :=
  match xs with
  | [] => ret tt
  | x :: xs' => bind (f x) (fun _ => for_each f xs')
  end.

(** Sequencing of expressions that may raise and touch no state. *)
Definition rbind {A B} (r : result A) (k : A -> result B) : result B :=
  match r with
  | Ok a => k a
  | Raise e => Raise e
  end.

(** Python's [sum(xs)]: a left fold that starts from [0]. *)
Definition py_sum (xs : list Q) : Q := fold_left Qplus xs 0.

(** Python's [max(xs)]: the first element is the candidate, a later element
    replaces it only when strictly greater; [ValueError] on an empty
    sequence. *)
Definition py_max_from (cur : Q) (xs : list Q) : Q :=
  fold_left (fun m x => if Qlt_le_dec m x then x else m) xs cur.

Definition py_max (xs : list Q) : result Q :=
  match xs with
  | [] => Raise (ValueError "max() arg is an empty sequence")
  | x :: xs' => Ok (py_max_from x xs')
  end.

Definition py_len {A} (xs : list A) : Q := inject_Z (Z.of_nat (List.length xs)).

(** ** config.py *)

Module config.
Definition DEFAULT_KWH_COST : Q := 15 # 100.
Definition DEFAULT_POLLING_INTERVAL : Z := 5.
Definition DB_VERSION : Z := 1.
Definition DEFAULT_CPU_TDP : Q := 65.
Definition DEFAULT_GPU_TDP : Q := 150.
Definition DEFAULT_MOTHERBOARD_POWER : Q := 30.
Definition DEFAULT_RAM_PER_STICK : Q := 5.
Definition DEFAULT_SSD_POWER : Q := 3.
Definition DEFAULT_HDD_POWER : Q := 7.
Definition DEFAULT_IDLE_POWER : Q := 20.
Definition CPU_UTILIZATION_SCALING : Q := 7 # 10.
Definition GPU_UTILIZATION_SCALING : Q := 8 # 10.
End config.

(** ** Power samples

    [component_data] is a Python dict from component name to a dict with
    the key ["power"] and, for CPU and GPU, ["utilization"] and
    ["temperature"].  A sensor value read through pythonnet is a number or
    [None]. *)

Inductive pyval : Type :=
| PyNone
| PyNum (q : Q).

Record entry : Type := mk_entry {
  power : pyval;
  utilization : option pyval;
  temperature : option pyval
}.

(** A dict keeps its keys in insertion order; assignment to an existing key
    overwrites in place. *)
Definition dict (V : Type) : Type := list (string * V).

Fixpoint dict_get {V} (d : dict V) (k : string) : option V :=
  match d with
  | [] => None
  | (k', v) :: d' => if String.eqb k' k then Some v else dict_get d' k
  end.

Fixpoint dict_set {V} (d : dict V) (k : string) (v : V) : dict V :=
  match d with
  | [] => [(k, v)]
  | (k', v') :: d' =>
      if String.eqb k' k then (k, v) :: d' else (k', v') :: dict_set d' k v
  end.

Definition component_data : Type := dict entry.

Definition power_only (q : Q) : entry :=
  mk_entry (PyNum q) None None.

(** ** data_storage.py *)

Module DataStorage.

(** The [value TEXT] column of [settings] holds [str(x)].  A text is
    represented by what it was printed from; [str_raw] stands for any text
    that is not a numeral.  Python guarantees [float(str(x)) == x] for a
    float [x] and [int(str(n)) == n] for an int [n]. *)
Inductive text : Type :=
| str_int (z : Z)
| str_float (q : Q)
| str_raw (s : string).

Definition float_of_text (t : text) : result Q :=
  match t with
  | str_int z => Ok (inject_Z z)
  | str_float q => Ok q
  | str_raw _ => Raise (ValueError "could not convert string to float")
  end.

Definition int_of_text (t : text) : result Z :=
  match t with
  | str_int z => Ok z
  | _ => Raise (ValueError "invalid literal for int()")
  end.

(** Seconds since the epoch, UTC.  SQLite's [CURRENT_TIMESTAMP] is the UTC
    time of the insertion and [date(timestamp)] its day;
    [datetime.date.today()] is the day in the local time zone, [tz]
    seconds east of UTC. *)
Definition date : Type := Z.
Definition date_of (seconds : Z) : date := (seconds / 86400)%Z.
Definition today (now tz : Z) : date := date_of (now + tz).

(** A row of [power_readings] (the [AUTOINCREMENT] id is the position in
    the table). *)
Record reading : Type := mk_reading {
  timestamp : Z;
  total_power : Q;
  r_component_data : component_data;
  cost : Q
}.

(** A row of [daily_power]; [date] is the primary key. *)
Record daily : Type := mk_daily {
  d_date : date;
  avg_power : Q;
  max_power : Q;
  total_energy : Q;
  d_cost : Q;
  usage_hours : Q
}.

(** The database file: a table that was never created is [None], and a
    statement on it raises [sqlite3.OperationalError].  The [components]
    table plays no part in what follows and is left out. *)
Record db : Type := mk_db {
  settings : option (list (string * text));
  power_readings : option (list reading);
  daily_power : option (list daily)
}.

Definition empty_file : db := mk_db None None None.

Definition no_such_table {A} (t : string) : M db A :=
  raise (sqlite3_Error ("no such table: " ++ t)).

Definition table_exists {A} (t : string) : M db A :=
  raise (sqlite3_Error ("table already exists: " ++ t)).

(** *** SQL statements used by the module *)

Definition has_key (k : string) (rows : list (string * text)) : bool :=
  existsb (fun r => String.eqb (fst r) k) rows.

(** [SELECT value FROM settings WHERE key = k] followed by [fetchone()]. *)
Definition select_setting (k : string) : M db (option text) :=
  fun s => match settings s with
           | None => no_such_table "settings" s
           | Some rows =>
               (Ok (option_map snd
                      (find (fun r => String.eqb (fst r) k) rows)), s)
           end.

(** [UPDATE settings SET value = v WHERE key = k]: no row, no change. *)
Definition update_setting (k : string) (v : text) : M db unit :=
  fun s => match settings s with
           | None => no_such_table "settings" s
           | Some rows =>
               (Ok tt,
                mk_db (Some (map (fun r => if String.eqb (fst r) k
                                           then (fst r, v) else r) rows))
                      (power_readings s) (daily_power s))
           end.

(** [INSERT INTO settings (key, value) VALUES (k, v)]. *)
Definition insert_setting (k : string) (v : text) : M db unit :=
  fun s => match settings s with
           | None => no_such_table "settings" s
           | Some rows =>
               if has_key k rows
               then (Raise (sqlite3_Error "UNIQUE constraint failed"), s)
               else (Ok tt, mk_db (Some (rows ++ [(k, v)]))
                                  (power_readings s) (daily_power s))
           end.

(** [INSERT OR REPLACE INTO settings (key, value) VALUES (k, v)]. *)
Definition insert_or_replace_setting (k : string) (v : text) : M db unit :=
  fun s => match settings s with
           | None => no_such_table "settings" s
           | Some rows =>
               (Ok tt,
                mk_db (Some (filter (fun r => negb (String.eqb (fst r) k))
                                    rows ++ [(k, v)]))
                      (power_readings s) (daily_power s))
           end.

(** [INSERT INTO power_readings (total_power, component_data, cost)];
    the timestamp column takes its default, the current UTC time. *)
Definition insert_reading (now : Z) (p : Q) (cd : component_data) (c : Q)
  : M db unit :=
  fun s => match power_readings s with
           | None => no_such_table "power_readings" s
           | Some rows =>
               (Ok tt, mk_db (settings s)
                             (Some (rows ++ [mk_reading now p cd c]))
                             (daily_power s))
           end.

(** [SELECT * FROM power_readings WHERE date(timestamp) = date(d)]
    followed by [fetchall()]. *)
Definition on_date (d : date) (rows : list reading) : list reading :=
  filter (fun r => Z.eqb (date_of (timestamp r)) d) rows.

Definition select_readings (d : date) : M db (list reading) :=
  fun s => match power_readings s with
           | None => no_such_table "power_readings" s
           | Some rows => (Ok (on_date d rows), s)
           end.

(** [INSERT OR REPLACE INTO daily_power ...]: the row holding the same
    primary key is deleted, then the new row is inserted. *)
Definition replace_daily (row : daily) (rows : list daily) : list daily :=
  filter (fun r => negb (Z.eqb (d_date r) (d_date row))) rows ++ [row].

Definition insert_or_replace_daily (row : daily) : M db unit :=
  fun s => match daily_power s with
           | None => no_such_table "daily_power" s
           | Some rows =>
               (Ok tt, mk_db (settings s) (power_readings s)
                             (Some (replace_daily row rows)))
           end.

(** [CREATE TABLE settings], [CREATE TABLE power_readings] and
    [CREATE TABLE daily_power]. *)
Definition create_settings : M db unit :=
  fun s => match settings s with
           | None => (Ok tt, mk_db (Some []) (power_readings s) (daily_power s))
           | Some _ => table_exists "settings" s
           end.

Definition create_power_readings : M db unit :=
  fun s => match power_readings s with
           | None => (Ok tt, mk_db (settings s) (Some []) (daily_power s))
           | Some _ => table_exists "power_readings" s
           end.

Definition create_daily_power : M db unit :=
  fun s => match daily_power s with
           | None => (Ok tt, mk_db (settings s) (power_readings s) (Some []))
           | Some _ => table_exists "daily_power" s
           end.

Local Open Scope py_scope.

(** *** [DataStorage._create_tables] *)
Definition _create_tables : M db unit :=
  create_settings ;;;
  insert_setting "db_version" (str_int config.DB_VERSION) ;;;
  insert_setting "kwh_cost" (str_float config.DEFAULT_KWH_COST) ;;;
  create_power_readings ;;;
  create_daily_power.

(** *** [DataStorage._check_db_version] *)
Definition _check_db_version : M db unit :=
  try_except
    (row <- select_setting "db_version" ;;
     match row with
     | None => raise (TypeError "'NoneType' object is not subscriptable")
     | Some t =>
         match int_of_text t with
         | Raise e => raise e
         | Ok db_version =>
             if (db_version <? config.DB_VERSION)%Z
             then update_setting "db_version" (str_int config.DB_VERSION)
             else ret tt
         end
     end)
    (fun e => match e with
              | sqlite3_Error _ | TypeError _ | ValueError _ => true
              | _ => false
              end)
    (fun _ => ret tt).

(** *** [DataStorage._initialize_db]: [file] is what [db_path] holds,
    [None] when [os.path.exists] is false. *)
Definition _initialize_db (file : option db) : result unit * db :=
  match file with
  | None => (_create_tables ;;; _check_db_version) empty_file
  | Some s => _check_db_version s
  end.

(** *** [DataStorage.set_kwh_cost] *)
Definition set_kwh_cost (cost : Q) : M db unit :=
  try_except
    (update_setting "kwh_cost" (str_float cost))
    is_sqlite3_Error
    (fun _ =>
       try_except
         (insert_or_replace_setting "kwh_cost" (str_float cost))
         is_sqlite3_Error
         (fun _ => ret tt)).

(** *** [DataStorage.get_kwh_cost] *)
Definition get_kwh_cost : M db Q :=
  try_except
    (row <- select_setting "kwh_cost" ;;
     match row with
     | Some t =>
         match float_of_text t with
         | Ok q => ret q
         | Raise e => raise e
         end
     | None =>
         set_kwh_cost config.DEFAULT_KWH_COST ;;;
         ret config.DEFAULT_KWH_COST
     end)
    is_sqlite3_Error
    (fun _ => ret config.DEFAULT_KWH_COST).

(** *** [DataStorage._update_daily_aggregation]

    [polling_interval] is the value of [config.DEFAULT_POLLING_INTERVAL]
    read by the body; the method itself is the instance below. *)
Definition aggregate (polling_interval : Q) (d : date)
                     (readings : list reading) : result daily :=
  let total := py_sum (map total_power readings) in
  let avg := total / py_len readings in
  match py_max (map total_power readings) with
  | Raise e => Raise e
  | Ok mx =>
      let hours_per_reading := polling_interval / 3600 in
      let energy :=
        py_sum (map (fun r => (total_power r / 1000) * hours_per_reading)
                    readings) in
      let total_cost := py_sum (map cost readings) in
      let hours := py_len readings * hours_per_reading in
      Ok (mk_daily d avg mx energy total_cost hours)
  end.

Definition _update_daily_aggregation_at (polling_interval : Q)
                                        (now tz : Z) : M db unit :=
  let d := today now tz in
  readings <- select_readings d ;;
  match readings with
  | [] => ret tt
  | _ :: _ =>
      match aggregate polling_interval d readings with
      | Raise e => raise e
      | Ok row => insert_or_replace_daily row
      end
  end.

Definition _update_daily_aggregation (now tz : Z) : M db unit :=
  _update_daily_aggregation_at (inject_Z config.DEFAULT_POLLING_INTERVAL)
                               now tz.

(** *** [DataStorage.save_power_reading] *)
Definition reading_cost (p kwh_cost : Q) : Q := (p / 1000) * kwh_cost.

Definition save_power_reading (now tz : Z) (p : Q) (cd : component_data)
                              (kwh_cost : option Q) : M db unit :=
  k <- match kwh_cost with
       | Some k => ret k
       | None =>
           row <- select_setting "kwh_cost" ;;
           match row with
           | None => raise (TypeError "'NoneType' object is not subscriptable")
           | Some t => match float_of_text t with
                       | Ok q => ret q
                       | Raise e => raise e
                       end
           end
       end ;;
  insert_reading now p cd (reading_cost p k) ;;;
  _update_daily_aggregation now tz.

(** [SELECT * FROM daily_power WHERE date = d]. *)
Definition daily_on (d : date) (s : db) : list daily :=
  match daily_power s with
  | None => []
  | Some rows => filter (fun r => Z.eqb (d_date r) d) rows
  end.

Definition readings_on (d : date) (s : db) : list reading :=
  match power_readings s with
  | None => []
  | Some rows => on_date d rows
  end.

(** *** [DataStorage.get_daily_power_data]

    ISO dates compare as strings the way the days compare.  [ORDER BY date]
    is an insertion sort on the date. *)
Fixpoint insert_by_date (r : daily) (rows : list daily) : list daily :=
  match rows with
  | [] => [r]
  | r' :: rows' =>
      if (d_date r <=? d_date r')%Z then r :: rows
      else r' :: insert_by_date r rows'
  end.

Definition order_by_date (rows : list daily) : list daily :=
  fold_right insert_by_date [] rows.

Definition in_range (start_date end_date : date) (r : daily) : bool :=
  (start_date <=? d_date r)%Z && (d_date r <=? end_date)%Z.

Definition get_daily_power_data (now tz : Z) (days : Z) : M db (list daily) :=
  fun s =>
    let end_date := today now tz in
    let start_date := (end_date - (days - 1))%Z in
    match daily_power s with
    | None => no_such_table "daily_power" s
    | Some rows =>
        (Ok (order_by_date (filter (in_range start_date end_date) rows)), s)
    end.

End DataStorage.

(** ** hardware_monitor.py *)

Module HardwareMonitor.

Local Open Scope py_scope.

(** [needle in hay] on strings. *)
Fixpoint contains (needle hay : string) : bool :=
  if String.prefix needle hay then true
  else match hay with
       | EmptyString => false
       | String _ hay' => contains needle hay'
       end.

(** *** LibreHardwareMonitor objects seen through pythonnet

    [Update] is the outcome of calling [hardware.Update()]; [Value] is a
    nullable float. *)
Record sensor : Type := mk_sensor {
  SensorType : Z;
  sensor_Name : string;
  Value : pyval
}.

Record hardware : Type := mk_hardware {
  HardwareType : Z;
  Name : string;
  Update : result unit;
  Sensors : list sensor
}.

(** *** Component records built by the detectors *)
Inductive dval : Type :=
| DNone
| DInt (z : Z)
| DNum (q : Q)
| DStr (s : string).

Record device_info : Type := mk_device_info {
  device : string;
  mountpoint : string;
  is_ssd : bool;
  device_power : Q
}.

Record component : Type := mk_component {
  c_type : string;
  c_name : option string;
  c_max_power : pyval;
  c_details : dict dval;
  c_extra : dict dval;
  c_devices : list device_info
}.

Definition set_name (n : string) (c : component) : component :=
  mk_component (c_type c) (Some n) (c_max_power c) (c_details c)
               (c_extra c) (c_devices c).

Definition set_max_power (v : pyval) (c : component) : component :=
  mk_component (c_type c) (c_name c) v (c_details c)
               (c_extra c) (c_devices c).

Definition set_detail (k : string) (v : dval) (c : component) : component :=
  mk_component (c_type c) (c_name c) (c_max_power c)
               (dict_set (c_details c) k v) (c_extra c) (c_devices c).

Definition add_device (d : device_info) (c : component) : component :=
  mk_component (c_type c) (c_name c) (c_max_power c) (c_details c)
               (c_extra c) (c_devices c ++ [d]).

(** Python arithmetic on a value that may be [None]. *)
Definition py_num (v : pyval) : result Q :=
  match v with
  | PyNum q => Ok q
  | PyNone => Raise (TypeError "unsupported operand type(s): 'NoneType'")
  end.

Definition py_eq0 (v : pyval) : bool :=
  match v with
  | PyNum q => Qeq_bool q 0
  | PyNone => false
  end.

Definition py_gt0 (v : pyval) : result bool :=
  match v with
  | PyNum q => Ok (negb (Qle_bool q 0))
  | PyNone => Raise (TypeError "'>' not supported for 'NoneType' and 'int'")
  end.

(** The loop shared by [_detect_cpu] and [_detect_gpu]: the first piece of
    hardware of type [ty] gives the name, is updated, and its first power
    sensor named TDP or Package gives [max_power]. *)
Fixpoint first_tdp_sensor (ss : list sensor) : option pyval :=
  match ss with
  | [] => None
  | s :: ss' =>
      if (SensorType s =? 1)%Z
         && (contains "TDP" (sensor_Name s)
             || contains "Package" (sensor_Name s))
      then Some (Value s)
      else first_tdp_sensor ss'
  end.

Fixpoint lhm_name_and_tdp (ty : Z) (hs : list hardware) : M component unit :=
  match hs with
  | [] => ret tt
  | h :: hs' =>
      if (HardwareType h =? ty)%Z
      then modify (set_name (Name h)) ;;;
           lift (Update h) ;;;
           match first_tdp_sensor (Sensors h) with
           | Some v => modify (set_max_power v)
           | None => ret tt
           end
      else lhm_name_and_tdp ty hs'
  end.

(** The outcome of one [subprocess.run]: [None] stands for an empty
    [stdout.strip()]. *)
Record completed : Type := mk_completed {
  returncode : Z;
  stdout : option string;
  stdout_float : result Q
}.

(** *** What each sub-detector reads from the machine.  Every access to
    [self.computer.Hardware] is an event of its own. *)
Record cpu_probe : Type := mk_cpu_probe {
  cpu_count_physical : dval;
  cpu_count_logical : dval;
  cpu_freq : result (option (Q * Q));
  winreg_ProcessorNameString : result string;
  proc_cpuinfo_model_name : result (option string);
  cpu_Hardware : result (list hardware)
}.

Record gpu_probe : Type := mk_gpu_probe {
  nvidia_smi_name : result completed;
  nvidia_smi_power_limit : result completed;
  wmi_VideoController : result (option (string * dval * dval));
  lspci : result (Z * option string);
  nvidia_smi_name_again : result completed;
  amd_cards : result (list string);
  gpu_Hardware : result (list hardware)
}.

Record mb_probe : Type := mk_mb_probe {
  wmi_BaseBoard : result (option (string * string));
  dmi_board : result (string * string);
  mb_Hardware : result (list hardware)
}.

Record mem_probe : Type := mk_mem_probe {
  virtual_memory : result (Z * Z);
  wmi_PhysicalMemory : result (Z * Z);
  dmidecode : result (Z * Z);
  proc_meminfo_total_kb : result (option Z)
}.

Record partition : Type := mk_partition {
  p_device : string;
  p_mountpoint : string;
  p_disk_usage : result unit;
  p_is_ssd : bool
}.

Record storage_probe : Type := mk_storage_probe {
  disk_partitions : result (list partition);
  storage_Hardware : result (list hardware)
}.

Record machine : Type := mk_machine {
  os_is_nt : bool;
  lhm_initialized : bool;
  cpu : cpu_probe;
  gpu : gpu_probe;
  motherboard : mb_probe;
  memory : mem_probe;
  storage : storage_probe
}.

(** A detector returns the record it initialised, as its [try] block left
    it. *)
Definition detector (init : component) (body : M component unit)
  : result component :=
  match swallow body init with
  | (Ok _, c) => Ok c
  | (Raise e, _) => Raise e
  end.

(** *** [HardwareMonitor._detect_cpu] *)
Definition cpu_default (w : machine) : component :=
  mk_component "cpu" (Some "Unknown CPU") (PyNum config.DEFAULT_CPU_TDP) []
               [("cores", cpu_count_physical (cpu w));
                ("threads", cpu_count_logical (cpu w))] [].

Definition cpu_body (w : machine) : M component unit :=
  f <- lift (cpu_freq (cpu w)) ;;
  match f with
  | Some (current, fmax) =>
      modify (set_detail "base_frequency" (DNum current)) ;;;
      modify (set_detail "max_frequency" (DNum fmax))
  | None => ret tt
  end ;;;
  (if os_is_nt w
   then swallow (n <- lift (winreg_ProcessorNameString (cpu w)) ;;
                 modify (set_name n))
   else swallow (n <- lift (proc_cpuinfo_model_name (cpu w)) ;;
                 match n with
                 | Some s => modify (set_name s)
                 | None => ret tt
                 end)) ;;;
  if lhm_initialized w
  then hs <- lift (cpu_Hardware (cpu w)) ;; lhm_name_and_tdp 0 hs
  else ret tt.

Definition _detect_cpu (w : machine) : result component :=
  detector (cpu_default w) (cpu_body w).

(** *** [HardwareMonitor._detect_gpu] *)
Definition gpu_default : component :=
  mk_component "gpu" (Some "Unknown GPU") (PyNum config.DEFAULT_GPU_TDP)
               [] [] [].

Definition succeeded (r : completed) : option string :=
  if (returncode r =? 0)%Z then stdout r else None.

Definition name_is_unknown (c : component) : bool :=
  match c_name c with
  | Some n => String.eqb n "Unknown GPU"
  | None => false
  end.

Definition gpu_body (w : machine) : M component unit :=
  swallow
    (r <- lift (nvidia_smi_name (gpu w)) ;;
     match succeeded r with
     | Some n =>
         modify (set_name n) ;;;
         pr <- lift (nvidia_smi_power_limit (gpu w)) ;;
         match succeeded pr with
         | Some _ =>
             try_except
               (q <- lift (stdout_float pr) ;; modify (set_max_power (PyNum q)))
               (fun e => match e with ValueError _ => true | _ => false end)
               (fun _ => ret tt)
         | None => ret tt
         end
     | None => ret tt
     end) ;;;
  c <- get_state ;;
  (if name_is_unknown c
   then if os_is_nt w
        then swallow
               (v <- lift (wmi_VideoController (gpu w)) ;;
                match v with
                | Some (n, ram, driver) =>
                    modify (set_name n) ;;;
                    modify (set_detail "adapter_ram" ram) ;;;
                    modify (set_detail "driver_version" driver)
                | None => ret tt
                end)
        else ret tt
   else swallow
          (l <- lift (lspci (gpu w)) ;;
           (let (rc, found) := l in
            if (rc =? 0)%Z
            then match found with
                 | Some n => modify (set_name n)
                 | None => ret tt
                 end
            else ret tt) ;;;
           swallow
             (r <- lift (nvidia_smi_name_again (gpu w)) ;;
              match succeeded r with
              | Some n => modify (set_name n)
              | None => ret tt
              end) ;;;
           c' <- get_state ;;
           if name_is_unknown c'
           then cards <- lift (amd_cards (gpu w)) ;;
                match cards with
                | card :: _ => modify (set_name card)
                | [] => ret tt
                end
           else ret tt)) ;;;
  if lhm_initialized w
  then hs <- lift (gpu_Hardware (gpu w)) ;; lhm_name_and_tdp 1 hs
  else ret tt.

Definition _detect_gpu (w : machine) : result component :=
  detector gpu_default (gpu_body w).

(** *** [HardwareMonitor._detect_motherboard] *)
Definition mb_default : component :=
  mk_component "motherboard" (Some "Unknown Motherboard")
               (PyNum config.DEFAULT_MOTHERBOARD_POWER) [] [] [].

Definition set_board (manufacturer product : string) : M component unit :=
  modify (set_name (manufacturer ++ " " ++ product)) ;;;
  modify (set_detail "manufacturer" (DStr manufacturer)) ;;;
  modify (set_detail "model" (DStr product)).

Fixpoint lhm_name (ty : Z) (hs : list hardware) : M component unit :=
  match hs with
  | [] => ret tt
  | h :: hs' =>
      if (HardwareType h =? ty)%Z
      then modify (set_name (Name h))
      else lhm_name ty hs'
  end.

Definition mb_body (w : machine) : M component unit :=
  (if os_is_nt w
   then swallow (b <- lift (wmi_BaseBoard (motherboard w)) ;;
                 match b with
                 | Some (man, prod) => set_board man prod
                 | None => ret tt
                 end)
   else swallow (b <- lift (dmi_board (motherboard w)) ;;
                 let (man, prod) := b in set_board man prod)) ;;;
  if lhm_initialized w
  then hs <- lift (mb_Hardware (motherboard w)) ;; lhm_name 3 hs
  else ret tt.

Definition _detect_motherboard (w : machine) : result component :=
  detector mb_default (mb_body w).

(** *** [HardwareMonitor._detect_memory]

    [wmi_PhysicalMemory] is the pair (stick count, summed capacity);
    [dmidecode] is (return code, number of "Memory Device" lines). *)
Definition mem_default : component :=
  mk_component "memory" (Some "System Memory")
               (PyNum (config.DEFAULT_RAM_PER_STICK * 2)) [] [] [].

Definition set_sticks (n : Z) : M component unit :=
  modify (set_max_power (PyNum (config.DEFAULT_RAM_PER_STICK * inject_Z n))) ;;;
  modify (set_detail "sticks" (DInt n)).

Definition mem_body (w : machine) : M component unit :=
  vm <- lift (virtual_memory (memory w)) ;;
  modify (set_detail "total" (DInt (fst vm))) ;;;
  modify (set_detail "available" (DInt (snd vm))) ;;;
  if os_is_nt w
  then swallow (pm <- lift (wmi_PhysicalMemory (memory w)) ;;
                let (sticks, capacity) := pm in
                if (0 <? sticks)%Z
                then set_sticks sticks ;;;
                     modify (set_detail "total_capacity" (DInt capacity))
                else ret tt)
  else swallow
         (swallow (r <- lift (dmidecode (memory w)) ;;
                   let (rc, sticks) := r in
                   if (rc =? 0)%Z && (0 <? sticks)%Z
                   then set_sticks sticks
                   else ret tt) ;;;
          kb <- lift (proc_meminfo_total_kb (memory w)) ;;
          match kb with
          | Some total_kb =>
              modify (set_detail "total_capacity" (DInt (total_kb * 1024)))
          | None => ret tt
          end).

Definition _detect_memory (w : machine) : result component :=
  detector mem_default (mem_body w).

(** *** [HardwareMonitor._detect_storage] *)
Definition storage_default : component :=
  mk_component "storage" None (PyNum 0) [] [] [].

Definition add_power (q : Q) : M component unit :=
  c <- get_state ;;
  p <- lift (py_num (c_max_power c)) ;;
  modify (set_max_power (PyNum (p + q))).

Definition detect_partition (d : partition) : M component unit :=
  if String.eqb (p_device d) ""
  then ret tt
  else swallow
         (lift (p_disk_usage d) ;;;
          let pw := if p_is_ssd d then config.DEFAULT_SSD_POWER
                    else config.DEFAULT_HDD_POWER in
          add_power pw ;;;
          modify (add_device (mk_device_info (p_device d) (p_mountpoint d)
                                             (p_is_ssd d) pw))).

Definition update_if (ty : Z) (h : hardware) : M component unit :=
  if (HardwareType h =? ty)%Z then lift (Update h) else ret tt.

Definition storage_body (w : machine) : M component unit :=
  ds <- lift (disk_partitions (storage w)) ;;
  for_each detect_partition ds ;;;
  if lhm_initialized w
  then hs <- lift (storage_Hardware (storage w)) ;; for_each (update_if 4) hs
  else ret tt.

Definition _detect_storage (w : machine) : result component :=
  detector storage_default (storage_body w).

(** *** [HardwareMonitor.detect_hardware] *)
Definition detect_hardware (w : machine) : result (dict component) :=
  rbind (_detect_cpu w) (fun c =>
  rbind (_detect_gpu w) (fun g =>
  rbind (_detect_motherboard w) (fun m =>
  rbind (_detect_memory w) (fun r =>
  rbind (_detect_storage w) (fun s =>
  Ok [("cpu", c); ("gpu", g); ("motherboard", m);
      ("memory", r); ("storage", s)]))))).

(** *** Sampling

    [self] as far as sampling reads it, and what one call of
    [get_power_readings] observes.  Each call site of an external query
    is an event of its own. *)
Record monitor : Type := mk_monitor {
  self_lhm_initialized : bool;
  components : dict component
}.

Record env : Type := mk_env {
  Hardware_update : result (list hardware);
  Hardware_cpu : result (list hardware);
  Hardware_gpu : result (list hardware);
  cpu_percent_lhm : result Q;
  cpu_percent_lhm_except : result Q;
  nvidia_smi_lhm : result completed;
  cpu_percent_estimate : result Q;
  nvidia_smi_estimate : result completed
}.

(** [self.components[k]["max_power"]] *)
Definition max_power_of (m : monitor) (k : string) : result pyval :=
  match dict_get (components m) k with
  | Some c => Ok (c_max_power c)
  | None => Raise (KeyError k)
  end.

(** [tdp * (util / 100) * scaling] *)
Definition scaled (tdp : pyval) (util : pyval) (scaling : Q) : result Q :=
  rbind (py_num tdp) (fun t =>
  rbind (py_num util) (fun u => Ok (t * (u / 100) * scaling))).

Definition set_power (v : pyval) (d : entry) : entry :=
  mk_entry v (utilization d) (temperature d).
Definition set_utilization (v : pyval) (d : entry) : entry :=
  mk_entry (power d) (Some v) (temperature d).
Definition set_temperature (v : pyval) (d : entry) : entry :=
  mk_entry (power d) (utilization d) (Some v).

Definition get_utilization (d : entry) : result pyval :=
  match utilization d with
  | Some v => Ok v
  | None => Raise (KeyError "utilization")
  end.

(** The sensor loops of [_get_cpu_power_lhm] and [_get_gpu_power_lhm]:
    every sensor of every piece of hardware of type [ty] is visited, a
    later match overwrites an earlier one. *)
Definition read_sensor (temp_tag load_tag : string) (d : entry) (s : sensor)
  : entry :=
  if (SensorType s =? 1)%Z
  then if contains "Package" (sensor_Name s)
       then set_power (Value s) d else d
  else if (SensorType s =? 2)%Z
  then if contains temp_tag (sensor_Name s)
       then set_temperature (Value s) d else d
  else if (SensorType s =? 3)%Z
  then if contains load_tag (sensor_Name s)
       then set_utilization (Value s) d else d
  else d.

Definition read_sensors (ty : Z) (temp_tag load_tag : string)
                        (hs : list hardware) (d : entry) : entry :=
  fold_left (fun d h => if (HardwareType h =? ty)%Z
                        then fold_left (read_sensor temp_tag load_tag)
                                       (Sensors h) d
                        else d) hs d.

Definition zero_entry : entry :=
  mk_entry (PyNum 0) (Some (PyNum 0)) (Some (PyNum 0)).

Definition returning {S} (body : M S unit) (init : S) : result S :=
  match body init with
  | (Ok _, s) => Ok s
  | (Raise e, _) => Raise e
  end.

(** *** [HardwareMonitor._get_cpu_power_lhm] *)
Definition cpu_lhm_body (m : monitor) (e : env) : M entry unit :=
  hs <- lift (Hardware_cpu e) ;;
  modify (read_sensors 0 "Package" "Total" hs) ;;;
  cpu_data <- get_state ;;
  if py_eq0 (power cpu_data)
  then cpu_tdp <- lift (max_power_of m "cpu") ;;
       u <- lift (get_utilization cpu_data) ;;
       positive <- lift (py_gt0 u) ;;
       cpu_util <- (if positive : bool then ret u
                    else q <- lift (cpu_percent_lhm e) ;; ret (PyNum q)) ;;
       p <- lift (scaled cpu_tdp cpu_util config.CPU_UTILIZATION_SCALING) ;;
       modify (set_power (PyNum p))
  else ret tt.

Definition cpu_lhm_except (m : monitor) (e : env) : M entry unit :=
  cpu_tdp <- lift (max_power_of m "cpu") ;;
  cpu_util <- lift (cpu_percent_lhm_except e) ;;
  p <- lift (scaled cpu_tdp (PyNum cpu_util) config.CPU_UTILIZATION_SCALING) ;;
  modify (set_power (PyNum p)) ;;;
  modify (set_utilization (PyNum cpu_util)).

Definition _get_cpu_power_lhm (m : monitor) (e : env) : result entry :=
  returning (try_except (cpu_lhm_body m e) any_Exception
                        (fun _ => cpu_lhm_except m e))
            zero_entry.

(** *** [HardwareMonitor._get_gpu_power_lhm] *)
Definition query_utilization (r : result completed) : M entry unit :=
  swallow (c <- lift r ;;
           if (returncode c =? 0)%Z
           then gpu_util <- lift (stdout_float c) ;;
                modify (set_utilization (PyNum gpu_util))
           else ret tt).

Definition gpu_lhm_body (m : monitor) (e : env) : M entry unit :=
  hs <- lift (Hardware_gpu e) ;;
  modify (read_sensors 1 "Core" "Core" hs) ;;;
  gpu_data <- get_state ;;
  if py_eq0 (power gpu_data)
  then query_utilization (nvidia_smi_lhm e) ;;;
       u <- (d <- get_state ;; lift (get_utilization d)) ;;
       (if py_eq0 u then modify (set_utilization (PyNum 30)) else ret tt) ;;;
       gpu_tdp <- lift (max_power_of m "gpu") ;;
       u' <- (d <- get_state ;; lift (get_utilization d)) ;;
       p <- lift (scaled gpu_tdp u' config.GPU_UTILIZATION_SCALING) ;;
       modify (set_power (PyNum p))
  else ret tt.

Definition gpu_lhm_except (m : monitor) : M entry unit :=
  gpu_tdp <- lift (max_power_of m "gpu") ;;
  t <- lift (py_num gpu_tdp) ;;
  modify (set_power (PyNum (t * (3 # 10) * config.GPU_UTILIZATION_SCALING))) ;;;
  modify (set_utilization (PyNum 30)).

Definition _get_gpu_power_lhm (m : monitor) (e : env) : result entry :=
  returning (try_except (gpu_lhm_body m e) any_Exception
                        (fun _ => gpu_lhm_except m))
            zero_entry.

(** *** The locals [total_power] and [component_data] *)
Definition sample : Type := (Q * component_data)%type.

Definition empty_sample : sample := (0, []).

(** [component_data[k] = d] *)
Definition put (k : string) (d : entry) : M sample unit :=
  modify (fun s : sample => (fst s, dict_set (snd s) k d)).

(** [total_power += v] *)
Definition add (v : pyval) : M sample unit :=
  s <- get_state ;;
  q <- lift (py_num v) ;;
  put_state (fst s + q, snd s).

(** The three static contributions, identical in both paths. *)
Definition add_static (m : monitor) (k : string) : M sample unit :=
  p <- lift (max_power_of m k) ;;
  put k (mk_entry p None None) ;;;
  add p.

(** *** [HardwareMonitor._estimate_power_consumption] *)
(** [gpu_util = 30], replaced by the answer of nvidia-smi when the query
    and the conversion of its output succeed; the [try] around the query
    swallows every exception. *)
Definition estimate_gpu_util (e : env) : Q :=
  match nvidia_smi_estimate e with
  | Ok c => if (returncode c =? 0)%Z
            then match stdout_float c with
                 | Ok q => q
                 | Raise _ => 30
                 end
            else 30
  | Raise _ => 30
  end.

Definition estimate_body (m : monitor) (e : env) : M sample unit :=
  cpu_util <- lift (cpu_percent_estimate e) ;;
  cpu_tdp <- lift (max_power_of m "cpu") ;;
  cpu_power <- lift (scaled cpu_tdp (PyNum cpu_util)
                            config.CPU_UTILIZATION_SCALING) ;;
  put "cpu" (mk_entry (PyNum cpu_power) (Some (PyNum cpu_util))
                      (Some (PyNum 0))) ;;;
  add (PyNum cpu_power) ;;;
  let gpu_util := estimate_gpu_util e in
  gpu_tdp <- lift (max_power_of m "gpu") ;;
  gpu_power <- lift (scaled gpu_tdp (PyNum gpu_util)
                            config.GPU_UTILIZATION_SCALING) ;;
  put "gpu" (mk_entry (PyNum gpu_power) (Some (PyNum gpu_util))
                      (Some (PyNum 0))) ;;;
  add (PyNum gpu_power) ;;;
  add_static m "motherboard" ;;;
  add_static m "memory" ;;;
  add_static m "storage" ;;;
  add (PyNum config.DEFAULT_IDLE_POWER) ;;;
  put "idle" (power_only config.DEFAULT_IDLE_POWER).

Definition default_sample : sample :=
  (100, [("cpu", power_only 50); ("gpu", power_only 30);
         ("other", power_only 20)]).

Definition _estimate_power_consumption (m : monitor) (e : env)
  : result sample :=
  match estimate_body m e empty_sample with
  | (Ok _, s) => Ok s
  | (Raise _, _) => Ok default_sample
  end.

(** *** [HardwareMonitor.get_power_readings] *)
Definition update_all (hs : list hardware) : M sample unit :=
  for_each (fun h => lift (Update h)) hs.

Definition lhm_body (m : monitor) (e : env) : M sample unit :=
  hs <- lift (Hardware_update e) ;;
  update_all hs ;;;
  cpu_power <- lift (_get_cpu_power_lhm m e) ;;
  put "cpu" cpu_power ;;;
  add (power cpu_power) ;;;
  gpu_power <- lift (_get_gpu_power_lhm m e) ;;
  put "gpu" gpu_power ;;;
  add (power gpu_power) ;;;
  add_static m "motherboard" ;;;
  add_static m "memory" ;;;
  add_static m "storage".

Definition get_power_readings (m : monitor) (e : env) : result sample :=
  if self_lhm_initialized m
  then match lhm_body m e empty_sample with
       | (Ok _, s) => Ok s
       | (Raise _, _) => _estimate_power_consumption m e
       end
  else _estimate_power_consumption m e.

(** *** The polling loop

    [clock] is the current time in seconds; [app] is the state the
    callback works on.  [ticks] holds what each iteration observes, for
    as long as [self.running] stays true. *)
Record world (A : Type) : Type := mk_world {
  clock : Z;
  app : A
}.
Arguments mk_world {A} clock app.
Arguments clock {A} w.
Arguments app {A} w.

(** [time.sleep(seconds)] *)
Definition sleep {A} (seconds : Z) : M (world A) unit :=
  if (seconds <? 0)%Z
  then raise (ValueError "sleep length must be non-negative")
  else modify (fun w => mk_world (clock w + seconds)%Z (app w)).

Definition _monitor_tick {A} (m : monitor)
    (callback : option (sample -> M (world A) unit))
    (interval : Z) (e : env) : M (world A) unit :=
  try_except
    (s <- lift (get_power_readings m e) ;;
     match callback with
     | Some cb => cb s
     | None => ret tt
     end ;;;
     sleep interval)
    any_Exception
    (fun _ => sleep 1).

Definition _monitor_loop {A} (m : monitor)
    (callback : option (sample -> M (world A) unit))
    (interval : Z) (ticks : list env) : M (world A) unit :=
  for_each (_monitor_tick m callback interval) ticks.

(** [HardwareMonitor.start_monitoring]; [interval] is [None] when the
    caller leaves the default. *)
Definition start_monitoring {A} (running : bool) (m : monitor)
    (callback : option (sample -> M (world A) unit))
    (interval : option Z) (ticks : list env) : M (world A) unit :=
  if running then ret tt
  else _monitor_loop m callback
         (match interval with
          | Some i => i
          | None => config.DEFAULT_POLLING_INTERVAL
          end) ticks.

(** The sum of the ["power"] values of a [component_data]. *)
Definition entry_power (d : entry) : Q :=
  match power d with
  | PyNum q => q
  | PyNone => 0
  end.

Definition sum_power (cd : component_data) : Q :=
  py_sum (map (fun kv => entry_power (snd kv)) cd).

(** *** [HardwareMonitor.__init__]: the flag is what [_initialize_lhm]
    left, the components are what [detect_hardware] returns. *)
Definition __init__ (w : machine) : result monitor :=
  rbind (detect_hardware w) (fun components =>
  Ok (mk_monitor (lhm_initialized w) components)).

End HardwareMonitor.

(** ** ui.py: the two handlers that reach the store *)

Module UI.

Import DataStorage HardwareMonitor.
Local Open Scope py_scope.

(** [kwh_cost] is the outcome of [self.kwh_cost.get()] on the Tk variable
    bound to the entry field; [tz] is the local time zone. *)
Record app_state : Type := mk_app {
  tz : Z;
  kwh_cost : result Q;
  data_storage : db
}.

Inductive dialog : Type :=
| showerror (msg : string)
| showinfo (msg : string).

Definition on_store {A} (c : M db A) : M app_state A :=
  fun a => let (r, s) := c (data_storage a) in
           (r, mk_app (tz a) (kwh_cost a) s).

Definition on_app {A} (c : M app_state A) : M (world app_state) A :=
  fun w => let (r, a) := c (app w) in (r, mk_world (clock w) a).

(** *** [PowerMonitorUI._save_settings] *)
Definition _save_settings : M app_state dialog :=
  try_except
    (a <- get_state ;;
     v <- lift (kwh_cost a) ;;
     if Qle_bool v 0
     then ret (showerror "Cost per kWh must be greater than zero")
     else on_store (set_kwh_cost v) ;;;
          ret (showinfo "Settings saved successfully"))
    any_Exception
    (fun _ => ret (showerror "Failed to save settings")).

(** *** [PowerMonitorUI._on_power_reading] *)
Definition _on_power_reading (s : sample) : M (world app_state) unit :=
  swallow
    (w <- get_state ;;
     k <- lift (kwh_cost (app w)) ;;
     on_app (on_store (save_power_reading (clock w) (tz (app w))
                                          (fst s) (snd s) (Some k)))).

End UI.

(** ** data_storage.py: the [components] table *)

Module Components.

Import HardwareMonitor.
Local Open Scope py_scope.

(** A component dictionary as [save_components] reads it: the two keys it
    subscripts and the two it reads with [get]. *)
Record component_dict : Type := mk_component_dict {
  key_type : option string;
  key_name : option string;
  key_details : option (dict dval);
  key_max_power : option pyval
}.

(** The dictionary a detector builds. *)
Definition as_dict (c : component) : component_dict :=
  mk_component_dict (Some (c_type c)) (c_name c) (Some (c_details c))
                    (Some (c_max_power c)).

(** A row of [components].  [details] holds [json.dumps] of a dictionary
    and is read back with [json.loads]; the text is represented by the
    dictionary it encodes. *)
Record component_row : Type := mk_component_row {
  row_id : Z;
  row_type : string;
  row_name : string;
  row_details : dict dval;
  row_max_power : pyval;
  row_created_at : Z
}.

(** The table and the counter of its [AUTOINCREMENT] key, which a
    [DELETE] does not reset. *)
Record table : Type := mk_table {
  rows : option (list component_row);
  last_id : Z
}.

Definition no_table {A} : M table A :=
  raise (sqlite3_Error "no such table: components").

(** [DELETE FROM components] *)
Definition delete_components : M table unit :=
  fun t => match rows t with
           | None => no_table t
           | Some _ => (Ok tt, mk_table (Some []) (last_id t))
           end.

(** [INSERT INTO components (type, name, details, max_power)] *)
Definition insert_component (now : Z) (ty name : string)
                            (details : dict dval) (max_power : pyval)
  : M table unit :=
  fun t => match rows t with
           | None => no_table t
           | Some rs =>
               let id := (last_id t + 1)%Z in
               (Ok tt,
                mk_table (Some (rs ++ [mk_component_row id ty name details
                                                        max_power now]))
                         id)
           end.

(** [component[k]] *)
Definition subscript {A} (v : option A) (k : string) : result A :=
  match v with
  | Some a => Ok a
  | None => Raise (KeyError k)
  end.

(** [component.get(k, default)] *)
Definition get_or {A} (v : option A) (default : A) : A :=
  match v with
  | Some a => a
  | None => default
  end.

Definition save_component (now : Z) (c : component_dict) : M table unit :=
  ty <- lift (subscript (key_type c) "type") ;;
  name <- lift (subscript (key_name c) "name") ;;
  insert_component now ty name (get_or (key_details c) [])
                   (get_or (key_max_power c) (PyNum 0)).

(** *** [DataStorage.save_components] *)
Definition save_components (now : Z) (components : list component_dict)
  : M table unit :=
  delete_components ;;;
  for_each (save_component now) components.

(** *** [DataStorage.get_components] *)
Definition get_components : M table (list component_row) :=
  fun t => match rows t with
           | None => no_table t
           | Some rs => (Ok rs, t)
           end.

(** What [save_components] stores of a dictionary. *)
Definition stored_fields (c : component_dict)
  : option (string * string * dict dval * pyval) :=
  match key_type c, key_name c with
  | Some ty, Some name =>
      Some (ty, name, get_or (key_details c) [], get_or (key_max_power c) (PyNum 0))
  | _, _ => None
  end.

Definition row_fields (r : component_row)
  : string * string * dict dval * pyval :=
  (row_type r, row_name r, row_details r, row_max_power r).

End Components.

(** ** Vocabulary of the specification

    The notions the specification uses to describe aggregates, written
    from its words, to be compared with what the code computes. *)

(** The sum of a finite family of numbers. *)
Definition sum_list (xs : list Q) : Q := fold_right Qplus 0 xs.

(** The arithmetic mean: the sum divided by the number of values. *)
Definition arithmetic_mean (xs : list Q) : Q :=
  sum_list xs / inject_Z (Z.of_nat (List.length xs)).

(** [m] is the maximum of [xs]: one of the values, and no value exceeds
    it. *)
Definition is_maximum (m : Q) (xs : list Q) : Prop :=
  In m xs /\ forall x, In x xs -> x <= m.

(** Two daily records are identical: the same date and the same numbers. *)
Definition daily_eq (a b : DataStorage.daily) : Prop :=
  DataStorage.d_date a = DataStorage.d_date b /\
  DataStorage.avg_power a == DataStorage.avg_power b /\
  DataStorage.max_power a == DataStorage.max_power b /\
  DataStorage.total_energy a == DataStorage.total_energy b /\
  DataStorage.d_cost a == DataStorage.d_cost b /\
  DataStorage.usage_hours a == DataStorage.usage_hours b.

(** A delivery: the time of the call of [save_power_reading] and its
    arguments. *)
Definition delivery : Type := (Z * (Q * component_data * option Q))%type.

Definition record_all (tz : Z) (calls : list delivery) : M DataStorage.db unit :=
  for_each (fun c : delivery =>
              let '(now, (p, cd, k)) := c in
              DataStorage.save_power_reading now tz p cd k) calls.

(** The [settings] table holds a [kwh_cost] row that reads as a number. *)
Definition stored_price (s : DataStorage.db) : option Q :=
  match DataStorage.settings s with
  | None => None
  | Some rows =>
      match find (fun r => String.eqb (fst r) "kwh_cost") rows with
      | Some (_, t) =>
          match DataStorage.float_of_text t with
          | Ok q => Some q
          | Raise _ => None
          end
      | None => None
      end
  end.

(** The row [save_power_reading] inserts. *)
Definition new_reading (now : Z) (p : Q) (cd : component_data) (k : Q)
  : DataStorage.reading :=
  DataStorage.mk_reading now p cd (DataStorage.reading_cost p k).

(** The price a call works with: its argument, or the stored one. *)
Definition price_for (s : DataStorage.db) (kwh_cost : option Q) : option Q :=
  match kwh_cost with
  | Some k => Some k
  | None => stored_price s
  end.

(** The store of a first start: no file, so [_initialize_db] creates the
    tables. *)
Definition fresh_store : DataStorage.db := snd (DataStorage._initialize_db None).

(** The duration the aggregation gives each reading, in hours. *)
Definition hours_per_poll : Q :=
  inject_Z config.DEFAULT_POLLING_INTERVAL / 3600.

(** The row a delivery leaves in [power_readings] of a store [s]. *)
Definition row_of (s : DataStorage.db) (c : delivery) : DataStorage.reading :=
  let '(now, (p, cd, kopt)) := c in
  new_reading now p cd (match price_for s kopt with
                        | Some k => k
                        | None => 0
                        end).

(** A delivery made on the calendar day [d], in UTC and in local time
    alike, with a price at hand. *)
Definition delivered_on (s : DataStorage.db) (tz : Z) (d : DataStorage.date)
                        (c : delivery) : bool :=
  let '(now, (_, _, kopt)) := c in
  Z.eqb (DataStorage.date_of now) d
  && Z.eqb (DataStorage.today now tz) d
  && match price_for s kopt with
     | Some _ => true
     | None => false
     end.

(** The path a call of [get_power_readings] takes. *)
Definition is_ok {A S} (r : result A * S) : bool :=
  match fst r with
  | Ok _ => true
  | Raise _ => false
  end.

Definition direct_path (m : HardwareMonitor.monitor) (e : HardwareMonitor.env)
  : bool :=
  HardwareMonitor.self_lhm_initialized m
  && is_ok (HardwareMonitor.lhm_body m e HardwareMonitor.empty_sample).

Definition estimation_succeeds (m : HardwareMonitor.monitor)
                               (e : HardwareMonitor.env) : bool :=
  is_ok (HardwareMonitor.estimate_body m e HardwareMonitor.empty_sample).

(** A well-formed sample: every component has a number as its power, and
    no component is listed twice. *)
Definition numeric (d : entry) : Prop := exists q, power d = PyNum q.

Definition well_formed (s : HardwareMonitor.sample) : Prop :=
  Forall (fun kv => numeric (snd kv)) (snd s) /\
  NoDup (map fst (snd s)) /\
  snd s <> [].

(** *** The direct-sensor rule for CPU and GPU *)

(** The sensors of the hardware of type [ty], in the order of the loops. *)
Definition sensors_of (ty : Z) (hs : list HardwareMonitor.hardware)
  : list HardwareMonitor.sensor :=
  flat_map (fun h => if (HardwareMonitor.HardwareType h =? ty)%Z
                     then HardwareMonitor.Sensors h else []) hs.

(** The value of the last sensor of type [sty] whose name contains [tag]. *)
Definition last_reading (sty : Z) (tag : string)
                        (ss : list HardwareMonitor.sensor) : option pyval :=
  fold_left (fun acc s =>
               if (HardwareMonitor.SensorType s =? sty)%Z
                  && HardwareMonitor.contains tag (HardwareMonitor.sensor_Name s)
               then Some (HardwareMonitor.Value s) else acc) ss None.

(** A Package power sensor that reads a number other than 0. *)
Definition direct_power (ty : Z) (hs : list HardwareMonitor.hardware)
  : option Q :=
  match last_reading 1 "Package" (sensors_of ty hs) with
  | Some (PyNum q) => if Qeq_bool q 0 then None else Some q
  | _ => None
  end.

(** The load sensor, [0] when there is none. *)
Definition load_sensor (ty : Z) (tag : string)
                       (hs : list HardwareMonitor.hardware) : Q :=
  match last_reading 3 tag (sensors_of ty hs) with
  | Some (PyNum u) => u
  | _ => 0
  end.

(** What the vendor tool answers, if it answers. *)
Definition tool_answer (r : result HardwareMonitor.completed) : option Q :=
  match r with
  | Ok c => if (HardwareMonitor.returncode c =? 0)%Z
            then match HardwareMonitor.stdout_float c with
                 | Ok q => Some q
                 | Raise _ => None
                 end
            else None
  | Raise _ => None
  end.

Definition cpu_power_rule (tdp : Q) (hs : list HardwareMonitor.hardware)
                          (os_util : Q) : Q :=
  match direct_power 0 hs with
  | Some q => q
  | None =>
      let u := if Qle_bool (load_sensor 0 "Total" hs) 0
               then os_util else load_sensor 0 "Total" hs in
      tdp * (u / 100) * config.CPU_UTILIZATION_SCALING
  end.

Definition gpu_power_rule (tdp : Q) (hs : list HardwareMonitor.hardware)
                          (tool : option Q) : Q :=
  match direct_power 1 hs with
  | Some q => q
  | None =>
      let u0 := match tool with
                | Some x => x
                | None => load_sensor 1 "Core" hs
                end in
      let u := if Qeq_bool u0 0 then 30 else u0 in
      tdp * (u / 100) * config.GPU_UTILIZATION_SCALING
  end.

(** Every sensor of the hardware of type [ty] reads a number. *)
Definition all_numeric (ty : Z) (hs : list HardwareMonitor.hardware) : bool :=
  forallb (fun s => match HardwareMonitor.Value s with
                    | PyNum _ => true
                    | PyNone => false
                    end) (sensors_of ty hs).

(** *** A machine to evaluate the sampling on: a CPU whose Package power
    sensor reads 0 W while its Total load sensor reads 50 percent, and a
    GPU without a power sensor whose Core load sensor reads 50 percent
    while nvidia-smi answers 80. *)
Definition plain_component (ty : string) (max_power : Q)
  : HardwareMonitor.component :=
  HardwareMonitor.mk_component ty (Some ty) (PyNum max_power) [] [] [].

Definition example_monitor : HardwareMonitor.monitor :=
  HardwareMonitor.mk_monitor true
    [("cpu", plain_component "cpu" 100);
     ("gpu", plain_component "gpu" 150);
     ("motherboard", plain_component "motherboard" 30);
     ("memory", plain_component "memory" 10);
     ("storage", plain_component "storage" 3)].

Definition example_cpu : list HardwareMonitor.hardware :=
  [HardwareMonitor.mk_hardware 0 "CPU" (Ok tt)
     [HardwareMonitor.mk_sensor 1 "CPU Package" (PyNum 0);
      HardwareMonitor.mk_sensor 3 "CPU Total" (PyNum 50)]].

Definition example_gpu : list HardwareMonitor.hardware :=
  [HardwareMonitor.mk_hardware 1 "GPU" (Ok tt)
     [HardwareMonitor.mk_sensor 3 "GPU Core" (PyNum 50)]].

Definition example_env : HardwareMonitor.env :=
  HardwareMonitor.mk_env
    (Ok (example_cpu ++ example_gpu)) (Ok example_cpu) (Ok example_gpu)
    (Ok 25) (Ok 25)
    (Ok (HardwareMonitor.mk_completed 0 (Some "80") (Ok 80)))
    (Ok 25)
    (Ok (HardwareMonitor.mk_completed 0 (Some "80") (Ok 80))).

(** The two tables the aggregation works on exist. *)
Definition tables_exist (s : DataStorage.db) : bool :=
  match DataStorage.power_readings s, DataStorage.daily_power s with
  | Some _, Some _ => true
  | _, _ => false
  end.

(** A monitoring session of the application: [start_monitoring] with the
    UI's callback, from a monitor that is not running. *)
Definition session (m : HardwareMonitor.monitor) (interval : option Z)
                   (ticks : list HardwareMonitor.env)
  : M (HardwareMonitor.world UI.app_state) unit :=
  HardwareMonitor.start_monitoring false m (Some UI._on_power_reading)
                                   interval ticks.

Definition store_of (w : HardwareMonitor.world UI.app_state) : DataStorage.db :=
  UI.data_storage (HardwareMonitor.app w).

(** *** A machine to evaluate the detection on: nvidia-smi names the GPU
    and reports a default power limit of 250 W, lspci is not installed,
    and LibreHardwareMonitor fails when the GPU detector asks it for the
    hardware. *)
Definition example_machine : HardwareMonitor.machine :=
  HardwareMonitor.mk_machine true true
    (HardwareMonitor.mk_cpu_probe
       (HardwareMonitor.DInt 4) (HardwareMonitor.DInt 8)
       (Ok (Some (3600, 4200))) (Ok "Example CPU") (Ok None) (Ok []))
    (HardwareMonitor.mk_gpu_probe
       (Ok (HardwareMonitor.mk_completed 0 (Some "NVIDIA Example")
              (Raise (ValueError "could not convert string to float"))))
       (Ok (HardwareMonitor.mk_completed 0 (Some "250.00") (Ok 250)))
       (Ok None)
       (Raise (Exception_ "lspci: file not found"))
       (Raise (Exception_ "not reached"))
       (Ok [])
       (Raise (Exception_ "LibreHardwareMonitor failure")))
    (HardwareMonitor.mk_mb_probe (Ok None) (Ok ("Unknown", "Unknown")) (Ok []))
    (HardwareMonitor.mk_mem_probe (Ok (16, 8)%Z) (Ok (2, 16)%Z) (Ok (1, 0)%Z)
                                  (Ok None))
    (HardwareMonitor.mk_storage_probe (Ok []) (Ok [])).

(** ** Invariants of stateful code

    [keeps P c]: from a state that satisfies [P], the computation [c]
    leaves one that satisfies [P], whether it returns or raises. *)
Definition keeps {S A} (P : S -> Prop) (c : M S A) : Prop :=
  forall s, P s -> P (snd (c s)).

(** *** The partitions [_detect_storage] counts: those with a device name
    whose [disk_usage] answers. *)
Definition counted (d : HardwareMonitor.partition) : bool :=
  negb (String.eqb (HardwareMonitor.p_device d) "")
  && match HardwareMonitor.p_disk_usage d with
     | Ok _ => true
     | Raise _ => false
     end.

Definition partition_power (d : HardwareMonitor.partition) : Q :=
  if HardwareMonitor.p_is_ssd d then config.DEFAULT_SSD_POWER
  else config.DEFAULT_HDD_POWER.

Definition device_of (d : HardwareMonitor.partition)
  : HardwareMonitor.device_info :=
  HardwareMonitor.mk_device_info
    (HardwareMonitor.p_device d) (HardwareMonitor.p_mountpoint d)
    (HardwareMonitor.p_is_ssd d) (partition_power d).

(** The number of memory sticks the wattage of the memory is computed
    from: the sticks WMI lists on Windows, the "Memory Device" lines of a
    successful dmidecode elsewhere, and 2 when that count is not
    positive or cannot be had. *)
Definition counted_sticks (w : HardwareMonitor.machine) : Z :=
  match HardwareMonitor.virtual_memory (HardwareMonitor.memory w) with
  | Raise _ => 2
  | Ok _ =>
      if HardwareMonitor.os_is_nt w
      then match HardwareMonitor.wmi_PhysicalMemory (HardwareMonitor.memory w) with
           | Ok (n, _) => if (0 <? n)%Z then n else 2
           | Raise _ => 2
           end
      else match HardwareMonitor.dmidecode (HardwareMonitor.memory w) with
           | Ok (rc, n) => if (rc =? 0)%Z && (0 <? n)%Z then n else 2
           | Raise _ => 2
           end
  end%Z.

(** The first call of nvidia-smi returns code 0 and a name. *)
Definition nvidia_smi_names_gpu (w : HardwareMonitor.machine) : bool :=
  match HardwareMonitor.nvidia_smi_name (HardwareMonitor.gpu w) with
  | Ok r => match HardwareMonitor.succeeded r with
            | Some _ => true
            | None => false
            end
  | Raise _ => false
  end.

(** The records of [detect_hardware], in its order, as the list of
    dictionaries [save_components] takes. *)
Definition component_dicts (cs : dict HardwareMonitor.component)
  : list Components.component_dict :=
  map (fun kv => Components.as_dict (snd kv)) cs.

(** * Properties *)

(** ** Sums and maxima *)

Lemma fold_left_Qplus_acc (xs : list Q) (a : Q) :
  fold_left Qplus xs a == a + fold_left Qplus xs 0.
Proof.
  revert a; induction xs as [|x xs IH]; intro a; simpl.
  - ring.
  - rewrite IH, (IH (0 + x)). ring.
Qed.

Lemma py_sum_cons (x : Q) (xs : list Q) : py_sum (x :: xs) == x + py_sum xs.
Proof.
  unfold py_sum; simpl. rewrite fold_left_Qplus_acc. ring.
Qed.

Lemma py_sum_sum_list (xs : list Q) : py_sum xs == sum_list xs.
Proof.
  induction xs as [|x xs IH].
  - reflexivity.
  - rewrite py_sum_cons. simpl. rewrite IH. reflexivity.
Qed.

Lemma sum_list_perm (xs ys : list Q) :
  Permutation xs ys -> sum_list xs == sum_list ys.
Proof.
  induction 1; simpl.
  - reflexivity.
  - rewrite IHPermutation. reflexivity.
  - ring.
  - etransitivity; eassumption.
Qed.

Lemma py_sum_perm (xs ys : list Q) :
  Permutation xs ys -> py_sum xs == py_sum ys.
Proof.
  intro H. rewrite !py_sum_sum_list. apply sum_list_perm, H.
Qed.

Lemma sum_list_scale {A} (f : A -> Q) (c : Q) (xs : list A) :
  sum_list (map (fun x => f x * c) xs) == sum_list (map f xs) * c.
Proof.
  induction xs as [|x xs IH]; simpl.
  - ring.
  - rewrite IH. ring.
Qed.

Lemma sum_list_ext {A} (f g : A -> Q) (xs : list A) :
  Forall (fun x => f x == g x) xs ->
  sum_list (map f xs) == sum_list (map g xs).
Proof.
  induction 1 as [|x xs Hx _ IH]; simpl.
  - reflexivity.
  - rewrite Hx, IH. reflexivity.
Qed.

Lemma py_max_from_spec (xs : list Q) (cur : Q) :
  is_maximum (py_max_from cur xs) (cur :: xs).
Proof.
  unfold py_max_from. revert cur.
  induction xs as [|x xs IH]; intro cur; simpl.
  - split; [now left | intros y [<- | []]; apply Qle_refl].
  - destruct (Qlt_le_dec cur x) as [Hlt | Hle].
    + destruct (IH x) as [Hin Hub]. split.
      * destruct Hin as [<- | Hin]; [right; now left | right; now right].
      * intros y [<- | [<- | Hy]].
        -- apply Qle_trans with x; [apply Qlt_le_weak, Hlt | apply Hub; now left].
        -- apply Hub; now left.
        -- apply Hub; now right.
    + destruct (IH cur) as [Hin Hub]. split.
      * destruct Hin as [<- | Hin]; [now left | right; now right].
      * intros y [<- | [<- | Hy]].
        -- apply Hub; now left.
        -- apply Qle_trans with cur; [exact Hle | apply Hub; now left].
        -- apply Hub; now right.
Qed.

Lemma py_max_spec (xs : list Q) (m : Q) :
  py_max xs = Ok m -> is_maximum m xs.
Proof.
  destruct xs as [|x xs]; simpl; intro H; [discriminate|].
  injection H as <-. apply py_max_from_spec.
Qed.

Lemma py_max_nonempty (xs : list Q) :
  xs <> [] -> exists m, py_max xs = Ok m.
Proof.
  destruct xs as [|x xs]; [congruence | intros _; eexists; reflexivity].
Qed.

Lemma is_maximum_perm (m m' : Q) (xs ys : list Q) :
  Permutation xs ys -> is_maximum m xs -> is_maximum m' ys -> m == m'.
Proof.
  intros P [Hin Hub] [Hin' Hub']. apply Qle_antisym.
  - apply Hub'. apply (Permutation_in _ P), Hin.
  - apply Hub. apply (Permutation_in _ (Permutation_sym P)), Hin'.
Qed.

(** ** The store *)

Section Store.

Import DataStorage.

Lemma on_date_app (d : date) (xs ys : list reading) :
  on_date d (xs ++ ys) = on_date d xs ++ on_date d ys.
Proof. apply filter_app. Qed.

Lemma aggregate_ok (i : Q) (d : date) (rs : list reading) :
  rs <> [] -> exists row, aggregate i d rs = Ok row.
Proof.
  intro H. unfold aggregate.
  destruct (py_max_nonempty (map total_power rs)) as [m ->].
  - destruct rs; [congruence | discriminate].
  - eexists; reflexivity.
Qed.

Lemma aggregate_fields (i : Q) (d : date) (rs : list reading) (row : daily) :
  aggregate i d rs = Ok row ->
  d_date row = d /\
  avg_power row = py_sum (map total_power rs) / py_len rs /\
  py_max (map total_power rs) = Ok (max_power row) /\
  total_energy row =
    py_sum (map (fun r => (total_power r / 1000) * (i / 3600)) rs) /\
  d_cost row = py_sum (map cost rs) /\
  usage_hours row = py_len rs * (i / 3600).
Proof.
  unfold aggregate. destruct (py_max (map total_power rs)) as [m|e]; [|discriminate].
  intro H; injection H as <-. simpl. repeat split; reflexivity.
Qed.

Lemma replace_daily_on (row : daily) (ds : list daily) :
  filter (fun r => Z.eqb (d_date r) (d_date row)) (replace_daily row ds) = [row].
Proof.
  unfold replace_daily. rewrite filter_app. simpl. rewrite Z.eqb_refl.
  replace (filter _ (filter _ ds)) with (@nil daily); [reflexivity|].
  induction ds as [|r ds IH]; simpl; [reflexivity|].
  destruct (Z.eqb (d_date r) (d_date row)) eqn:E; simpl; [exact IH|].
  rewrite E. exact IH.
Qed.

Lemma replace_daily_NoDup (row : daily) (ds : list daily) :
  NoDup (map d_date ds) -> NoDup (map d_date (replace_daily row ds)).
Proof.
  intro H. unfold replace_daily. rewrite map_app. simpl.
  apply NoDup_app.
  - induction ds as [|r ds IH]; simpl; [constructor|].
    inversion H as [|? ? Hnin Hnd]; subst.
    destruct (Z.eqb (d_date r) (d_date row)); simpl; [now apply IH|].
    constructor; [|now apply IH].
    intro Hin; apply Hnin. apply in_map_iff in Hin as (x & Hx & Hin).
    apply filter_In in Hin as [Hin _]. apply in_map_iff. now exists x.
  - constructor; [intros [] | constructor].
  - intros x Hin [<- | []]. apply in_map_iff in Hin as (r & Hr & Hin).
    apply filter_In in Hin as [_ Hne].
    rewrite Hr, Z.eqb_refl in Hne. discriminate.
Qed.

Lemma select_price (st : list (string * text)) rs ds (k : Q) :
  stored_price (mk_db (Some st) rs ds) = Some k ->
  exists t, select_setting "kwh_cost" (mk_db (Some st) rs ds)
            = (Ok (Some t), mk_db (Some st) rs ds)
            /\ float_of_text t = Ok k.
Proof.
  unfold stored_price, select_setting. simpl.
  destruct (find _ st) as [[key t]|]; [|discriminate]. simpl.
  destruct (float_of_text t) as [q|e] eqn:E; [|discriminate].
  intro H; injection H as <-. exists t. split; [reflexivity | exact E].
Qed.

(** Once the price is known, a call is the insertion followed by the
    aggregation. *)
Lemma save_with_price s now tz p cd kopt k :
  price_for s kopt = Some k ->
  save_power_reading now tz p cd kopt s =
  (insert_reading now p cd (reading_cost p k) ;;;
   _update_daily_aggregation now tz)%py s.
Proof.
  intro Hk. unfold save_power_reading. destruct kopt as [k'|]; simpl in Hk.
  - injection Hk as ->. reflexivity.
  - destruct s as [[st|] rs ds]; [|discriminate].
    destruct (select_price st rs ds k Hk) as (t & Hs & Ht).
    unfold bind at 1. unfold bind at 1. rewrite Hs, Ht. reflexivity.
Qed.

(** One call of [save_power_reading] on a store whose tables exist: the
    row is appended, and when the day has readings their aggregate is the
    day's only record. *)
Lemma save_any s rs ds now tz p cd kopt k :
  power_readings s = Some rs ->
  daily_power s = Some ds ->
  price_for s kopt = Some k ->
  let d := today now tz in
  exists s',
    save_power_reading now tz p cd kopt s = (Ok tt, s') /\
    power_readings s' = Some (rs ++ [new_reading now p cd k]) /\
    (readings_on d s' <> [] ->
     exists row,
       aggregate (inject_Z config.DEFAULT_POLLING_INTERVAL) d (readings_on d s')
       = Ok row /\
       daily_on d s' = [row]).
Proof.
  intros Hr Hd Hk d. rewrite (save_with_price s now tz p cd kopt k Hk).
  destruct s as [sto prs dps]; simpl in Hr, Hd; subst prs dps.
  unfold bind, insert_reading, _update_daily_aggregation,
    _update_daily_aggregation_at, bind, select_readings. simpl.
  fold (new_reading now p cd k). fold d.
  destruct (on_date d (rs ++ [new_reading now p cd k])) as [|r L] eqn:E.
  - eexists. split; [reflexivity|]. split; [reflexivity|].
    unfold readings_on; simpl. rewrite E. congruence.
  - destruct (aggregate_ok (inject_Z config.DEFAULT_POLLING_INTERVAL) d (r :: L))
      as [row Hrow]; [discriminate|].
    rewrite Hrow. eexists. split; [reflexivity|]. split; [reflexivity|].
    intros _. exists row. unfold readings_on, daily_on; simpl. rewrite E.
    split; [exact Hrow|].
    destruct (aggregate_fields _ _ _ _ Hrow) as (Hdt & _).
    rewrite <- Hdt. apply replace_daily_on.
Qed.

(** One call of [save_power_reading] on a store whose tables exist, at a
    moment when the UTC day and the local day agree. *)
Lemma save_one s rs ds now tz p cd kopt k :
  power_readings s = Some rs ->
  daily_power s = Some ds ->
  price_for s kopt = Some k ->
  date_of now = today now tz ->
  exists row,
    aggregate (inject_Z config.DEFAULT_POLLING_INTERVAL) (today now tz)
              (on_date (today now tz) rs ++ [new_reading now p cd k]) = Ok row /\
    save_power_reading now tz p cd kopt s =
    (Ok tt, mk_db (settings s) (Some (rs ++ [new_reading now p cd k]))
                  (Some (replace_daily row ds))).
Proof.
  destruct s as [sto prs dps]; simpl. intros -> -> Hk Hday.
  destruct (aggregate_ok (inject_Z config.DEFAULT_POLLING_INTERVAL) (today now tz)
              (on_date (today now tz) rs ++ [new_reading now p cd k]))
    as [row Hrow].
  { destruct (on_date (today now tz) rs); discriminate. }
  exists row. split; [exact Hrow|].
  assert (Hsel : on_date (today now tz) (rs ++ [new_reading now p cd k])
                 = on_date (today now tz) rs ++ [new_reading now p cd k]).
  { rewrite on_date_app. f_equal. unfold on_date. simpl.
    rewrite Hday, Z.eqb_refl. reflexivity. }
  assert (Htail :
    (insert_reading now p cd (reading_cost p k) ;;;
     _update_daily_aggregation now tz)%py (mk_db sto (Some rs) (Some ds)) =
    (Ok tt, mk_db sto (Some (rs ++ [new_reading now p cd k]))
                  (Some (replace_daily row ds)))).
  { unfold bind, insert_reading, _update_daily_aggregation,
      _update_daily_aggregation_at, bind, select_readings. simpl.
    fold (new_reading now p cd k). rewrite Hsel.
    destruct (on_date (today now tz) rs ++ [new_reading now p cd k]) eqn:E.
    - destruct (on_date (today now tz) rs); discriminate.
    - rewrite Hrow. reflexivity. }
  unfold save_power_reading. destruct kopt as [k'|]; simpl in Hk.
  - injection Hk as ->. exact Htail.
  - destruct sto as [st|]; [|discriminate].
    destruct (select_price st (Some rs) (Some ds) k Hk) as (t & Hs & Ht).
    unfold bind at 1. unfold bind at 1. rewrite Hs, Ht. exact Htail.
Qed.

(** What the store holds for the day after such a call. *)
Lemma save_day s rs ds now tz p cd kopt k :
  power_readings s = Some rs ->
  daily_power s = Some ds ->
  price_for s kopt = Some k ->
  date_of now = today now tz ->
  let d := today now tz in
  let L := on_date d rs ++ [new_reading now p cd k] in
  exists row s',
    save_power_reading now tz p cd kopt s = (Ok tt, s') /\
    settings s' = settings s /\
    power_readings s' = Some (rs ++ [new_reading now p cd k]) /\
    daily_power s' = Some (replace_daily row ds) /\
    readings_on d s' = L /\
    daily_on d s' = [row] /\
    aggregate (inject_Z config.DEFAULT_POLLING_INTERVAL) d L = Ok row.
Proof.
  intros Hr Hd Hk Hday d L.
  destruct (save_one s rs ds now tz p cd kopt k Hr Hd Hk Hday) as (row & Hrow & Hs).
  exists row. eexists. split; [exact Hs|]. simpl.
  repeat split; try reflexivity.
  - unfold readings_on; simpl. rewrite on_date_app. unfold L. f_equal.
    unfold on_date; simpl. fold d. unfold d at 1. rewrite Hday, Z.eqb_refl.
    reflexivity.
  - unfold daily_on; simpl.
    destruct (aggregate_fields _ _ _ _ Hrow) as (Hdt & _).
    fold d in Hdt. rewrite <- Hdt. apply replace_daily_on.
  - exact Hrow.
Qed.

End Store.

(** ** Daily aggregates *)

Section Aggregates.

Import DataStorage.





(** What a day costs and what it consumed when every reading of the day
    was priced at [k], for an aggregation that gives each reading
    [i] seconds. *)
Lemma cost_and_energy (i k : Q) (d : date) (L : list reading) (row : daily) :
  Forall (fun r => cost r == (total_power r / 1000) * k) L ->
  aggregate i d L = Ok row ->
  d_cost row == sum_list (map total_power L) / 1000 * k /\
  total_energy row == sum_list (map total_power L) / 1000 * (i / 3600).
Proof.
  intros Hc Hagg.
  destruct (aggregate_fields _ _ _ _ Hagg) as (_ & _ & _ & Hen & Hco & _).
  rewrite Hen, Hco, !py_sum_sum_list. split.
  - rewrite (sum_list_ext cost (fun r => total_power r * (/ 1000 * k))).
    + rewrite sum_list_scale. unfold Qdiv. ring.
    + eapply Forall_impl; [|exact Hc]. intros r Hr. simpl in Hr.
      rewrite Hr. unfold Qdiv. ring.
  - rewrite (sum_list_ext _ (fun r => total_power r * (/ 1000 * (i / 3600)))).
    + rewrite sum_list_scale. unfold Qdiv. ring.
    + apply Forall_forall. intros r _. unfold Qdiv. ring.
Qed.



End Aggregates.

(** ** Order of delivery *)

Section Delivery.

Import DataStorage.

Lemma price_for_settings (s s' : db) (kopt : option Q) :
  settings s' = settings s -> price_for s' kopt = price_for s kopt.
Proof.
  intro H. destruct kopt; simpl; [reflexivity|].
  unfold stored_price. rewrite H. reflexivity.
Qed.

Lemma row_of_settings (s s' : db) (c : delivery) :
  settings s' = settings s -> row_of s' c = row_of s c.
Proof.
  intro H. destruct c as [now [[p cd] kopt]]. simpl.
  rewrite (price_for_settings s s' kopt H). reflexivity.
Qed.

(** A run of deliveries on the day [d]: every call succeeds, the rows
    are appended in the order of delivery, and the day has exactly the
    record computed from all its readings. *)
Lemma record_all_day tz d calls : forall c s rs ds,
  power_readings s = Some rs ->
  daily_power s = Some ds ->
  Forall (fun c => delivered_on s tz d c = true) (c :: calls) ->
  exists row s' ds',
    record_all tz (c :: calls) s = (Ok tt, s') /\
    settings s' = settings s /\
    power_readings s' = Some (rs ++ map (row_of s) (c :: calls)) /\
    daily_power s' = Some ds' /\
    (NoDup (map d_date ds) -> NoDup (map d_date ds')) /\
    daily_on d s' = [row] /\
    aggregate (inject_Z config.DEFAULT_POLLING_INTERVAL) d
              (on_date d rs ++ map (row_of s) (c :: calls)) = Ok row.
Proof.
  induction calls as [|c' calls IH]; intros c s rs ds Hr Hd Hall.
  - inversion Hall as [|? ? Hc _]; subst.
    destruct c as [now [[p cd] kopt]]. simpl in Hc.
    apply andb_prop in Hc as [Hc Hp]. apply andb_prop in Hc as [Hu Hl].
    apply Z.eqb_eq in Hu, Hl.
    destruct (price_for s kopt) as [k|] eqn:Hk; [|discriminate].
    assert (Hday : date_of now = today now tz) by congruence.
    destruct (save_day s rs ds now tz p cd kopt k Hr Hd Hk Hday)
      as (row & s1 & Hs & Hst & Hrs & Hds & _ & Hrow & Hagg).
    rewrite Hl in Hrow, Hagg.
    exists row, s1, (replace_daily row ds).
    unfold record_all. simpl. unfold bind. rewrite Hs. simpl. rewrite Hk.
    repeat split; try assumption. apply replace_daily_NoDup.
  - inversion Hall as [|? ? Hc Hrest]; subst.
    destruct c as [now [[p cd] kopt]]. simpl in Hc.
    apply andb_prop in Hc as [Hc Hp]. apply andb_prop in Hc as [Hu Hl].
    apply Z.eqb_eq in Hu, Hl.
    destruct (price_for s kopt) as [k|] eqn:Hk; [|discriminate].
    assert (Hday : date_of now = today now tz) by congruence.
    destruct (save_day s rs ds now tz p cd kopt k Hr Hd Hk Hday)
      as (row0 & s1 & Hs & Hst & Hrs & Hds & _ & _ & _).
    assert (Hall' : Forall (fun c => delivered_on s1 tz d c = true) (c' :: calls)).
    { eapply Forall_impl; [|exact Hrest]. intros [n [[q e] ko]]. simpl.
      rewrite (price_for_settings s s1 ko Hst). auto. }
    destruct (IH c' s1 _ _ Hrs Hds Hall')
      as (row & s2 & ds2 & Hrun & Hst2 & Hrs2 & Hds2 & Hnd & Hrow & Hagg).
    exists row, s2, ds2.
    assert (Hrows : map (row_of s1) (c' :: calls) = map (row_of s) (c' :: calls)).
    { apply map_ext. intro x. apply row_of_settings, Hst. }
    rewrite Hrows in Hrs2, Hagg.
    assert (Hfirst : row_of s (now, (p, cd, kopt)) = new_reading now p cd k).
    { simpl. rewrite Hk. reflexivity. }
    repeat split.
    + unfold record_all in *. simpl. unfold bind at 1. rewrite Hs. exact Hrun.
    + congruence.
    + rewrite Hrs2. change (map (row_of s) ((now, (p, cd, kopt)) :: c' :: calls))
        with (row_of s (now, (p, cd, kopt)) :: map (row_of s) (c' :: calls)).
      rewrite Hfirst, <- app_assoc. reflexivity.
    + exact Hds2.
    + intro H. apply Hnd. apply replace_daily_NoDup, H.
    + exact Hrow.
    + change (map (row_of s) ((now, (p, cd, kopt)) :: c' :: calls))
        with (row_of s (now, (p, cd, kopt)) :: map (row_of s) (c' :: calls)).
      rewrite Hfirst.
      rewrite on_date_app, <- app_assoc in Hagg.
      replace (on_date d [new_reading now p cd k]) with [new_reading now p cd k] in Hagg.
      * exact Hagg.
      * unfold on_date. simpl. rewrite Hu, Z.eqb_refl. reflexivity.
Qed.

(** The aggregate depends on the day's readings only through the
    multisets of their powers and costs. *)
Lemma aggregate_perm (i : Q) (d : date) (L1 L2 : list reading) (r1 r2 : daily) :
  Permutation (map total_power L1) (map total_power L2) ->
  Permutation (map cost L1) (map cost L2) ->
  aggregate i d L1 = Ok r1 -> aggregate i d L2 = Ok r2 ->
  daily_eq r1 r2.
Proof.
  intros Hp Hc H1 H2.
  destruct (aggregate_fields _ _ _ _ H1) as (D1 & A1 & M1 & E1 & C1 & U1).
  destruct (aggregate_fields _ _ _ _ H2) as (D2 & A2 & M2 & E2 & C2 & U2).
  assert (Hlen : py_len L1 = py_len L2).
  { unfold py_len. f_equal. f_equal.
    rewrite <- (length_map total_power L1), <- (length_map total_power L2).
    apply Permutation_length, Hp. }
  unfold daily_eq. repeat split.
  - congruence.
  - rewrite A1, A2, Hlen. rewrite (py_sum_perm _ _ Hp). reflexivity.
  - eapply is_maximum_perm; [exact Hp | apply py_max_spec, M1 | apply py_max_spec, M2].
  - rewrite E1, E2.
    rewrite <- (map_map total_power (fun x => x / 1000 * (i / 3600)) L1).
    rewrite <- (map_map total_power (fun x => x / 1000 * (i / 3600)) L2).
    apply py_sum_perm, Permutation_map, Hp.
  - rewrite C1, C2. apply py_sum_perm, Hc.
  - rewrite U1, U2, Hlen. reflexivity.
Qed.

Lemma rows_perm {B} (f : reading -> B) (g : Q * component_data * option Q -> B)
      (s : db) (calls1 calls2 : list delivery) :
  (forall c, f (row_of s c) = g (snd c)) ->
  Permutation (map snd calls1) (map snd calls2) ->
  Permutation (map f (map (row_of s) calls1)) (map f (map (row_of s) calls2)).
Proof.
  intros Hfg Hp.
  assert (E : forall calls : list delivery,
             map f (map (row_of s) calls) = map g (map snd calls)).
  { intro calls. rewrite !map_map. apply map_ext. intro c. apply Hfg. }
  rewrite !E. apply Permutation_map, Hp.
Qed.



End Delivery.

(** ** The price setting *)

Section Price.

Import DataStorage UI.

Lemma find_updated (k : string) (v : text) (rows : list (string * text)) :
  has_key k rows = true ->
  option_map snd
    (find (fun r => String.eqb (fst r) k)
          (map (fun r => if String.eqb (fst r) k then (fst r, v) else r) rows))
  = Some v.
Proof.
  induction rows as [|[k' t] rows IH]; simpl; [discriminate|].
  destruct (String.eqb k' k) eqn:E; simpl.
  - rewrite E. reflexivity.
  - rewrite E. exact IH.
Qed.

(** [set_kwh_cost] on a store that holds the [kwh_cost] row: any value is
    written, none is refused, and [get_kwh_cost] reads it back. *)
Lemma set_then_get (s : db) (rows : list (string * text)) (v : Q) :
  settings s = Some rows ->
  has_key "kwh_cost" rows = true ->
  exists s',
    set_kwh_cost v s = (Ok tt, s') /\
    get_kwh_cost s' = (Ok v, s') /\
    power_readings s' = power_readings s /\
    daily_power s' = daily_power s.
Proof.
  intros Hs Hk. destruct s as [st rs ds]. simpl in Hs. subst st.
  eexists. split; [reflexivity|]. split; [|split; reflexivity].
  unfold get_kwh_cost, try_except, bind, select_setting. simpl.
  rewrite (find_updated "kwh_cost" (str_float v) rows Hk). reflexivity.
Qed.

(** The claim of C1 fails for the store: [set_kwh_cost(0)] on the store
    of a first start is carried out without an error and replaces the
    stored price 0.15 by 0. *)
Lemma set_kwh_cost_accepts_zero :
  get_kwh_cost fresh_store = (Ok (15 # 100), fresh_store) /\
  fst (set_kwh_cost 0 fresh_store) = Ok tt /\
  fst (get_kwh_cost (snd (set_kwh_cost 0 fresh_store))) = Ok 0.
Proof. repeat split. Qed.

(** C1, amended.  The store validates nothing: on a store that holds the
    [kwh_cost] row, [set_kwh_cost v] succeeds for every [v] and
    [get_kwh_cost] then returns [v].  Values [v <= 0] are refused one
    level up, by [_save_settings], which shows an error and leaves the
    store as it was; for [v > 0] it stores [v], and [get_kwh_cost]
    returns [v]. *)
Theorem price_is_validated_by_the_settings_handler
        (s : db) (rows : list (string * text)) (z : Z) (v : Q) :
  settings s = Some rows ->
  has_key "kwh_cost" rows = true ->
  let a := mk_app z (Ok v) s in
  (exists s', set_kwh_cost v s = (Ok tt, s') /\
              fst (get_kwh_cost s') = Ok v) /\
  (v <= 0 ->
   exists msg, _save_settings a = (Ok (showerror msg), a)) /\
  (0 < v ->
   exists msg a', _save_settings a = (Ok (showinfo msg), a') /\
                  fst (get_kwh_cost (data_storage a')) = Ok v).
Proof.
  intros Hs Hk a.
  destruct (set_then_get s rows v Hs Hk) as (s' & Hset & Hget & _).
  split; [|split].
  - exists s'. rewrite Hget. split; [exact Hset | reflexivity].
  - intro Hle. apply Qle_bool_iff in Hle.
    unfold _save_settings, try_except, bind, get_state. simpl.
    rewrite Hle. eexists. reflexivity.
  - intro Hlt.
    assert (Hb : Qle_bool v 0 = false).
    { destruct (Qle_bool v 0) eqn:E; [|reflexivity].
      apply Qle_bool_iff in E. lra. }
    unfold _save_settings, try_except, bind, get_state. simpl.
    rewrite Hb. unfold on_store. simpl. rewrite Hset. simpl.
    eexists. eexists. split; [reflexivity|]. simpl. rewrite Hget. reflexivity.
Qed.

Lemma price_is_validated_by_the_settings_handler_witness :
  let a := mk_app 0 (Ok (1 # 5)) fresh_store in
  (exists s', set_kwh_cost (1 # 5) fresh_store = (Ok tt, s') /\
              fst (get_kwh_cost s') = Ok (1 # 5)) /\
  (1 # 5 <= 0 ->
   exists msg, _save_settings a = (Ok (showerror msg), a)) /\
  (0 < 1 # 5 ->
   exists msg a', _save_settings a = (Ok (showinfo msg), a') /\
                  fst (get_kwh_cost (data_storage a')) = Ok (1 # 5)).
Proof.
  apply (price_is_validated_by_the_settings_handler
           fresh_store
           [("db_version", str_int 1); ("kwh_cost", str_float (15 # 100))]
           0 (1 # 5)); reflexivity.
Defined.

End Price.

(** ** Sampling *)

Section Sampling.

Import HardwareMonitor.

Lemma update_all_state (hs : list hardware) (s : sample) :
  snd (update_all hs s) = s.
Proof.
  unfold update_all. induction hs as [|h hs IH]; simpl; [reflexivity|].
  unfold bind, lift. destruct (Update h); simpl; [exact IH | reflexivity].
Qed.

(** The sample the direct-sensor path builds when nothing raises. *)
Lemma lhm_body_shape m e u s :
  lhm_body m e empty_sample = (Ok u, s) ->
  exists c g qc qg qm qr qs,
    _get_cpu_power_lhm m e = Ok c /\ power c = PyNum qc /\
    _get_gpu_power_lhm m e = Ok g /\ power g = PyNum qg /\
    max_power_of m "motherboard" = Ok (PyNum qm) /\
    max_power_of m "memory" = Ok (PyNum qr) /\
    max_power_of m "storage" = Ok (PyNum qs) /\
    s = (0 + qc + qg + qm + qr + qs,
         [("cpu", c); ("gpu", g);
          ("motherboard", mk_entry (PyNum qm) None None);
          ("memory", mk_entry (PyNum qr) None None);
          ("storage", mk_entry (PyNum qs) None None)]).
Proof.
  unfold lhm_body, bind, lift. intro H.
  destruct (Hardware_update e) as [hs|x]; [|discriminate]. simpl in H.
  pose proof (update_all_state hs empty_sample) as Hu.
  destruct (update_all hs empty_sample) as [[v|x] s0]; [|discriminate].
  simpl in Hu. subst s0.
  destruct (_get_cpu_power_lhm m e) as [c|x]; [|discriminate].
  destruct (_get_gpu_power_lhm m e) as [g|x] eqn:Eg.
  2:{ simpl in H. destruct (power c); discriminate. }
  unfold add_static, add, put, modify, bind, lift, get_state, put_state, py_num in H.
  simpl in H.
  destruct (power c) as [|qc] eqn:Ec; [discriminate|]. simpl in H.
  destruct (power g) as [|qg] eqn:Egp; [discriminate|]. simpl in H.
  destruct (max_power_of m "motherboard") as [[|qm]|x]; try discriminate. simpl in H.
  destruct (max_power_of m "memory") as [[|qr]|x]; try discriminate. simpl in H.
  destruct (max_power_of m "storage") as [[|qs]|x]; try discriminate. simpl in H.
  injection H as _ <-.
  exists c, g, qc, qg, qm, qr, qs. repeat split; try reflexivity; assumption.
Qed.

(** The sample the estimation path builds when nothing raises. *)
Lemma estimate_body_shape m e u s :
  estimate_body m e empty_sample = (Ok u, s) ->
  exists cu tc tg qm qr qs,
    cpu_percent_estimate e = Ok cu /\
    max_power_of m "cpu" = Ok (PyNum tc) /\
    max_power_of m "gpu" = Ok (PyNum tg) /\
    max_power_of m "motherboard" = Ok (PyNum qm) /\
    max_power_of m "memory" = Ok (PyNum qr) /\
    max_power_of m "storage" = Ok (PyNum qs) /\
    let pc := tc * (cu / 100) * config.CPU_UTILIZATION_SCALING in
    let gu := estimate_gpu_util e in
    let pg := tg * (gu / 100) * config.GPU_UTILIZATION_SCALING in
    s = (0 + pc + pg + qm + qr + qs + config.DEFAULT_IDLE_POWER,
         [("cpu", mk_entry (PyNum pc) (Some (PyNum cu)) (Some (PyNum 0)));
          ("gpu", mk_entry (PyNum pg) (Some (PyNum gu)) (Some (PyNum 0)));
          ("motherboard", mk_entry (PyNum qm) None None);
          ("memory", mk_entry (PyNum qr) None None);
          ("storage", mk_entry (PyNum qs) None None);
          ("idle", power_only config.DEFAULT_IDLE_POWER)]).
Proof.
  unfold estimate_body.
  generalize (estimate_gpu_util e) as gu. intro gu.
  unfold bind, lift, scaled, rbind, py_num. intro H.
  destruct (cpu_percent_estimate e) as [cu|x]; [|discriminate]. simpl in H.
  destruct (max_power_of m "cpu") as [[|tc]|x]; try discriminate. simpl in H.
  destruct (max_power_of m "gpu") as [[|tg]|x]; try discriminate. simpl in H.
  unfold add_static, add, put, modify, bind, lift, get_state, put_state, py_num in H.
  simpl in H.
  destruct (max_power_of m "motherboard") as [[|qm]|x]; try discriminate. simpl in H.
  destruct (max_power_of m "memory") as [[|qr]|x]; try discriminate. simpl in H.
  destruct (max_power_of m "storage") as [[|qs]|x]; try discriminate. simpl in H.
  injection H as _ <-.
  exists cu, tc, tg, qm, qr, qs. repeat split; reflexivity.
Qed.

(** Every call returns, and what it returns has one of three shapes. *)
Lemma sample_cases m e :
  exists smp,
    get_power_readings m e = Ok smp /\
    ((direct_path m e = true /\
      exists u, lhm_body m e empty_sample = (Ok u, smp)) \/
     (direct_path m e = false /\ estimation_succeeds m e = true /\
      exists u, estimate_body m e empty_sample = (Ok u, smp)) \/
     (direct_path m e = false /\ estimation_succeeds m e = false /\
      smp = default_sample)).
Proof.
  assert (Hest : exists smp,
    _estimate_power_consumption m e = Ok smp /\
    ((estimation_succeeds m e = true /\
      exists u, estimate_body m e empty_sample = (Ok u, smp)) \/
     (estimation_succeeds m e = false /\ smp = default_sample))).
  { unfold _estimate_power_consumption, estimation_succeeds, is_ok.
    destruct (estimate_body m e empty_sample) as [[u|x] s]; simpl.
    - exists s. split; [reflexivity|]. left. split; [reflexivity|]. now exists u.
    - exists default_sample. split; [reflexivity|]. right. now split. }
  destruct Hest as (smp & Hsmp & Hcase).
  unfold get_power_readings, direct_path, is_ok.
  destruct (self_lhm_initialized m); simpl.
  - destruct (lhm_body m e empty_sample) as [[u|x] s]; simpl.
    + exists s. split; [reflexivity|]. left. split; [reflexivity|]. now exists u.
    + exists smp. split; [exact Hsmp|]. right.
      destruct Hcase as [[H1 H2]|[H1 H2]]; [left | right]; auto.
  - exists smp. split; [exact Hsmp|]. right.
    destruct Hcase as [[H1 H2]|[H1 H2]]; [left | right]; auto.
Qed.

Lemma default_sample_well_formed : well_formed default_sample.
Proof.
  unfold well_formed, default_sample, numeric; simpl. split; [|split].
  - repeat constructor; eexists; reflexivity.
  - repeat constructor; simpl; intuition discriminate.
  - discriminate.
Qed.

(** C2.  [get_power_readings] returns a sample on every input: a
    failure of the direct-sensor path leads to the estimation path, and
    a failure there to the fixed sample of 100 W, split 50, 30 and 20.
    The sample returned is well formed in all cases. *)
Theorem get_power_readings_never_raises m e :
  (exists smp, get_power_readings m e = Ok smp /\ well_formed smp) /\
  (estimation_succeeds m e = false ->
   _estimate_power_consumption m e
   = Ok (100, [("cpu", power_only 50); ("gpu", power_only 30);
               ("other", power_only 20)])) /\
  (direct_path m e = false -> estimation_succeeds m e = false ->
   get_power_readings m e
   = Ok (100, [("cpu", power_only 50); ("gpu", power_only 30);
               ("other", power_only 20)])).
Proof.
  split; [|split].
  - destruct (sample_cases m e) as (smp & Hs & [[_ [u H]]|[[_ [_ [u H]]]|[_ [_ ->]]]]).
    + exists smp. split; [exact Hs|].
      destruct (lhm_body_shape m e u smp H)
        as (c & g & qc & qg & qm & qr & qs & _ & Hc & _ & Hg & _ & _ & _ & ->).
      unfold well_formed, numeric; simpl. split; [|split].
      * repeat constructor; simpl; eauto.
      * repeat constructor; simpl; intuition discriminate.
      * discriminate.
    + exists smp. split; [exact Hs|].
      destruct (estimate_body_shape m e u smp H)
        as (cu & tc & tg & qm & qr & qs & _ & _ & _ & _ & _ & _ & ->).
      unfold well_formed, numeric; simpl. split; [|split].
      * repeat constructor; simpl; eauto.
      * repeat constructor; simpl; intuition discriminate.
      * discriminate.
    + exists default_sample. split; [exact Hs | apply default_sample_well_formed].
  - unfold estimation_succeeds, is_ok, _estimate_power_consumption.
    destruct (estimate_body m e empty_sample) as [[u|x] s]; simpl;
      [discriminate | reflexivity].
  - intros Hd He.
    destruct (sample_cases m e) as (smp & Hs & [[H _]|[[_ [H _]]|[_ [_ ->]]]]);
      [congruence | congruence | exact Hs].
Qed.

(** C3.  The total of a sample is the sum of the powers listed in its
    [component_data].  The direct-sensor path lists the five components.
    The estimation path lists them and, last, the idle power, so that its
    total is the sum of the five component powers plus
    [DEFAULT_IDLE_POWER]; no other path adds the idle power.  The fixed
    sample lists its three parts. *)
Theorem total_power_is_sum_of_component_powers m e :
  exists smp,
    get_power_readings m e = Ok smp /\
    fst smp == sum_power (snd smp) /\
    (direct_path m e = true ->
     map fst (snd smp) = ["cpu"; "gpu"; "motherboard"; "memory"; "storage"]) /\
    (direct_path m e = false -> estimation_succeeds m e = true ->
     exists five,
       map fst five = ["cpu"; "gpu"; "motherboard"; "memory"; "storage"] /\
       snd smp = five ++ [("idle", power_only config.DEFAULT_IDLE_POWER)] /\
       fst smp == sum_power five + config.DEFAULT_IDLE_POWER) /\
    (direct_path m e = false -> estimation_succeeds m e = false ->
     map fst (snd smp) = ["cpu"; "gpu"; "other"]).
Proof.
  destruct (sample_cases m e) as (smp & Hs & Hcase).
  exists smp. split; [exact Hs|].
  destruct Hcase as [[Hd [u H]]|[[Hd [He [u H]]]|[Hd [He ->]]]].
  - destruct (lhm_body_shape m e u smp H)
      as (c & g & qc & qg & qm & qr & qs & _ & Hc & _ & Hg & _ & _ & _ & ->).
    split; [|split; [|split]].
    + unfold sum_power, entry_power, py_sum. simpl. rewrite Hc, Hg. reflexivity.
    + reflexivity.
    + congruence.
    + congruence.
  - destruct (estimate_body_shape m e u smp H)
      as (cu & tc & tg & qm & qr & qs & _ & _ & _ & _ & _ & _ & ->).
    split; [|split; [|split]].
    + reflexivity.
    + congruence.
    + intros _ _.
      match goal with
      | |- context [snd (_, ?l)] => exists (firstn 5 l)
      end.
      split; [reflexivity|]. split; reflexivity.
    + congruence.
  - split; [|split; [|split]].
    + reflexivity.
    + congruence.
    + congruence.
    + reflexivity.
Qed.

End Sampling.

(** ** The direct-sensor path for CPU and GPU *)

Section Sensors.

Import HardwareMonitor.

Lemma read_sensors_fold ty tt lt hs d :
  read_sensors ty tt lt hs d = fold_left (read_sensor tt lt) (sensors_of ty hs) d.
Proof.
  unfold read_sensors, sensors_of. revert d.
  induction hs as [|h hs IH]; intro d; simpl; [reflexivity|].
  rewrite fold_left_app. destruct (HardwareType h =? ty)%Z; simpl; apply IH.
Qed.

Lemma last_reading_snoc sty tag ss s :
  last_reading sty tag (ss ++ [s]) =
  if (SensorType s =? sty)%Z && contains tag (sensor_Name s)
  then Some (Value s) else last_reading sty tag ss.
Proof. unfold last_reading. rewrite fold_left_app. reflexivity. Qed.

Lemma fold_power tt lt ss d :
  power (fold_left (read_sensor tt lt) ss d) =
  match last_reading 1 "Package" ss with
  | Some v => v
  | None => power d
  end.
Proof.
  induction ss as [|s ss IH] using rev_ind; [reflexivity|].
  rewrite fold_left_app, last_reading_snoc. simpl.
  unfold read_sensor at 1.
  destruct (SensorType s =? 1)%Z eqn:E1; simpl.
  - destruct (contains "Package" (sensor_Name s)); simpl; [reflexivity | exact IH].
  - destruct (SensorType s =? 2)%Z.
    + destruct (contains tt (sensor_Name s)); exact IH.
    + destruct (SensorType s =? 3)%Z; [|exact IH].
      destruct (contains lt (sensor_Name s)); exact IH.
Qed.

Lemma fold_utilization tt lt ss d :
  utilization (fold_left (read_sensor tt lt) ss d) =
  match last_reading 3 lt ss with
  | Some v => Some v
  | None => utilization d
  end.
Proof.
  induction ss as [|s ss IH] using rev_ind; [reflexivity|].
  rewrite fold_left_app, last_reading_snoc. simpl.
  unfold read_sensor at 1.
  destruct (SensorType s =? 1)%Z eqn:E1.
  - apply Z.eqb_eq in E1. rewrite E1. simpl.
    destruct (contains "Package" (sensor_Name s)); exact IH.
  - destruct (SensorType s =? 2)%Z eqn:E2.
    + apply Z.eqb_eq in E2. rewrite E2. simpl.
      destruct (contains tt (sensor_Name s)); exact IH.
    + destruct (SensorType s =? 3)%Z; simpl; [|exact IH].
      destruct (contains lt (sensor_Name s)); simpl; [reflexivity | exact IH].
Qed.

Lemma last_reading_numeric sty tag ss v :
  forallb (fun s => match Value s with PyNum _ => true | PyNone => false end) ss
  = true ->
  last_reading sty tag ss = Some v -> exists q, v = PyNum q.
Proof.
  induction ss as [|s ss IH] using rev_ind; [discriminate|].
  rewrite forallb_app, last_reading_snoc. simpl. intro H.
  apply andb_prop in H as [Hss Hs].
  destruct ((SensorType s =? sty)%Z && contains tag (sensor_Name s)).
  - intro E; injection E as <-. destruct (Value s); [discriminate | eauto].
  - now apply IH.
Qed.

(** What the sensor loop leaves in the entry, for numeric sensors. *)
Lemma sensors_read ty tt lt hs :
  all_numeric ty hs = true ->
  let d := read_sensors ty tt lt hs zero_entry in
  utilization d = Some (PyNum (load_sensor ty lt hs)) /\
  match direct_power ty hs with
  | Some q => power d = PyNum q /\ py_eq0 (power d) = false
  | None => py_eq0 (power d) = true
  end.
Proof.
  intros Hn d. subst d. rewrite read_sensors_fold. split.
  - rewrite fold_utilization. unfold load_sensor.
    destruct (last_reading 3 lt (sensors_of ty hs)) as [v|] eqn:E; [|reflexivity].
    destruct (last_reading_numeric _ _ _ _ Hn E) as [q ->]. reflexivity.
  - rewrite fold_power. unfold direct_power.
    destruct (last_reading 1 "Package" (sensors_of ty hs)) as [v|] eqn:E;
      [|reflexivity].
    destruct (last_reading_numeric _ _ _ _ Hn E) as [q ->]. simpl.
    destruct (Qeq_bool q 0); [reflexivity | split; reflexivity].
Qed.

Lemma cpu_power_by_rule m e hs tdp os_util :
  Hardware_cpu e = Ok hs ->
  all_numeric 0 hs = true ->
  max_power_of m "cpu" = Ok (PyNum tdp) ->
  cpu_percent_lhm e = Ok os_util ->
  exists c, _get_cpu_power_lhm m e = Ok c /\
            power c = PyNum (cpu_power_rule tdp hs os_util).
Proof.
  intros Hhs Hn Htdp Hos.
  destruct (sensors_read 0 "Package" "Total" hs Hn) as [Hu Hp].
  unfold _get_cpu_power_lhm, returning, try_except, cpu_lhm_body, bind,
    lift, modify, get_state, ret, cpu_power_rule.
  rewrite Hhs. simpl.
  set (d := read_sensors 0 "Package" "Total" hs zero_entry) in *.
  destruct (direct_power 0 hs) as [q|].
  - destruct Hp as [Hq Hz]. rewrite Hz. exists d. split; [reflexivity | exact Hq].
  - rewrite Hp, Htdp. simpl. unfold get_utilization. rewrite Hu. simpl.
    destruct (Qle_bool (load_sensor 0 "Total" hs) 0); simpl.
    + rewrite Hos. simpl. eexists. split; reflexivity.
    + eexists. split; reflexivity.
Qed.

Lemma gpu_power_by_rule m e hs tdp :
  Hardware_gpu e = Ok hs ->
  all_numeric 1 hs = true ->
  max_power_of m "gpu" = Ok (PyNum tdp) ->
  exists g, _get_gpu_power_lhm m e = Ok g /\
            power g = PyNum (gpu_power_rule tdp hs (tool_answer (nvidia_smi_lhm e))).
Proof.
  intros Hhs Hn Htdp.
  destruct (sensors_read 1 "Core" "Core" hs Hn) as [Hu Hp].
  unfold _get_gpu_power_lhm, returning, try_except, gpu_lhm_body, bind,
    lift, modify, get_state, ret, gpu_power_rule.
  rewrite Hhs. simpl.
  set (d := read_sensors 1 "Core" "Core" hs zero_entry) in *.
  destruct (direct_power 1 hs) as [q|].
  - destruct Hp as [Hq Hz]. rewrite Hz. exists d. split; [reflexivity | exact Hq].
  - rewrite Hp. unfold query_utilization, swallow, try_except, bind, lift,
      tool_answer.
    destruct (nvidia_smi_lhm e) as [c|x]; simpl.
    + destruct (returncode c =? 0)%Z; simpl.
      * destruct (stdout_float c) as [x|x]; simpl.
        -- destruct (Qeq_bool x 0); simpl; rewrite Htdp; simpl;
             eexists; split; reflexivity.
        -- unfold get_utilization. rewrite Hu. simpl.
           destruct (Qeq_bool (load_sensor 1 "Core" hs) 0); simpl;
             rewrite Htdp; simpl; [|rewrite Hu; simpl];
             eexists; split; reflexivity.
      * unfold get_utilization. rewrite Hu. simpl.
        destruct (Qeq_bool (load_sensor 1 "Core" hs) 0); simpl;
          rewrite Htdp; simpl; [|rewrite Hu; simpl];
          eexists; split; reflexivity.
    + unfold get_utilization. rewrite Hu. simpl.
      destruct (Qeq_bool (load_sensor 1 "Core" hs) 0); simpl;
        rewrite Htdp; simpl; [|rewrite Hu; simpl];
        eexists; split; reflexivity.
Qed.

(** The claim of C8 fails twice on the example machine.  The CPU has a
    Package power sensor, reading 0 W, and its power is not that value
    but the estimate from the load sensor, 35 W.  The GPU has no power
    sensor and a load sensor reading 50 percent, and its power is not
    [150 * (50/100) * 0.8 = 60] but the estimate from the answer of
    nvidia-smi, 96 W. *)
Lemma zero_reading_is_estimated_and_vendor_tool_comes_first :
  last_reading 1 "Package" (sensors_of 0 example_cpu) = Some (PyNum 0) /\
  (exists c q, _get_cpu_power_lhm example_monitor example_env = Ok c /\
               power c = PyNum q /\ q == 35 /\ ~ q == 0) /\
  last_reading 1 "Package" (sensors_of 1 example_gpu) = None /\
  last_reading 3 "Core" (sensors_of 1 example_gpu) = Some (PyNum 50) /\
  (exists g q, _get_gpu_power_lhm example_monitor example_env = Ok g /\
               power g = PyNum q /\ q == 96 /\
               ~ q == 150 * (50 / 100) * config.GPU_UTILIZATION_SCALING).
Proof.
  split; [reflexivity|]. split; [|split; [reflexivity|split; [reflexivity|]]].
  - eexists. eexists. split; [vm_compute; reflexivity|].
    split; [reflexivity|]. split; [reflexivity | discriminate].
  - eexists. eexists. split; [vm_compute; reflexivity|].
    split; [reflexivity|]. split; [reflexivity | discriminate].
Qed.

(** C8, amended.  In the direct-sensor path, with sensors that read
    numbers: a Package power sensor reading other than 0 gives the
    component's power directly; without one, or when it reads 0, the
    power is [rated * (u / 100) * scaling], where for the CPU [u] is the
    Total load sensor when it reads above 0 and the OS query otherwise,
    and for the GPU [u] is the answer of the vendor tool when it
    answers, the Core load sensor otherwise, and 30 when that is 0. *)
Theorem direct_sensor_power_rule m e hc hg tc tg os_util :
  Hardware_cpu e = Ok hc ->
  Hardware_gpu e = Ok hg ->
  all_numeric 0 hc = true ->
  all_numeric 1 hg = true ->
  max_power_of m "cpu" = Ok (PyNum tc) ->
  max_power_of m "gpu" = Ok (PyNum tg) ->
  cpu_percent_lhm e = Ok os_util ->
  exists c g,
    _get_cpu_power_lhm m e = Ok c /\
    power c = PyNum (cpu_power_rule tc hc os_util) /\
    _get_gpu_power_lhm m e = Ok g /\
    power g = PyNum (gpu_power_rule tg hg (tool_answer (nvidia_smi_lhm e))).
Proof.
  intros Hc Hg Hnc Hng Htc Htg Hos.
  destruct (cpu_power_by_rule m e hc tc os_util Hc Hnc Htc Hos) as (c & H1 & H2).
  destruct (gpu_power_by_rule m e hg tg Hg Hng Htg) as (g & H3 & H4).
  exists c, g. auto.
Qed.

Lemma direct_sensor_power_rule_witness :
  exists c g,
    _get_cpu_power_lhm example_monitor example_env = Ok c /\
    power c = PyNum (cpu_power_rule 100 example_cpu 25) /\
    _get_gpu_power_lhm example_monitor example_env = Ok g /\
    power g = PyNum (gpu_power_rule 150 example_gpu
                       (tool_answer (nvidia_smi_lhm example_env))).
Proof.
  apply (direct_sensor_power_rule example_monitor example_env
           example_cpu example_gpu 100 150 25); reflexivity.
Defined.

End Sensors.

(** ** The polling loop and the aggregation *)

Section Polling.

Import DataStorage HardwareMonitor UI.

Lemma save_keeps_tables now tz p cd k s :
  tables_exist s = true ->
  tables_exist (snd (save_power_reading now tz p cd (Some k) s)) = true.
Proof.
  unfold tables_exist. destruct s as [st [rs|] [ds|]]; simpl; try discriminate.
  intros _.
  unfold save_power_reading, bind, ret, insert_reading,
    _update_daily_aggregation, _update_daily_aggregation_at, bind,
    select_readings. simpl.
  destruct (on_date (today now tz) (rs ++ [mk_reading now p cd (reading_cost p k)]))
    as [|r L] eqn:E; [reflexivity|].
  destruct (aggregate_ok (inject_Z config.DEFAULT_POLLING_INTERVAL)
              (today now tz) (r :: L)) as [row ->]; [discriminate|].
  reflexivity.
Qed.

(** The callback: the reading is saved at the price shown in the entry
    field, at the time of the call; nothing else changes. *)
Lemma callback_effect (smp : sample) (w : world app_state) :
  exists a',
    _on_power_reading smp w = (Ok tt, mk_world (clock w) a') /\
    tz a' = tz (app w) /\ kwh_cost a' = kwh_cost (app w) /\
    data_storage a' =
    match kwh_cost (app w) with
    | Ok k => snd (save_power_reading (clock w) (tz (app w)) (fst smp) (snd smp)
                                      (Some k) (store_of w))
    | Raise _ => store_of w
    end.
Proof.
  unfold _on_power_reading, swallow, try_except, bind, get_state, lift,
    on_app, on_store, store_of.
  destruct w as [clk [z kc st]]. simpl.
  destruct kc as [k|x]; simpl.
  - destruct (save_power_reading clk z (fst smp) (snd smp) (Some k) st)
      as [[u|x] st']; simpl.
    + destruct u. eexists. split; [reflexivity|]. simpl. auto.
    + eexists. split; [reflexivity|]. simpl. auto.
  - eexists. split; [reflexivity|]. simpl. auto.
Qed.

(** One iteration: a sample is taken and handed to the callback; the
    interval only moves the clock. *)
Lemma tick_effect m interval e (w : world app_state) :
  exists smp a',
    get_power_readings m e = Ok smp /\
    _on_power_reading smp w = (Ok tt, mk_world (clock w) a') /\
    _monitor_tick m (Some _on_power_reading) interval e w =
    (Ok tt, mk_world (clock w + (if (interval <? 0)%Z then 1 else interval))%Z a').
Proof.
  destruct (sample_cases m e) as (smp & Hs & _).
  destruct (callback_effect smp w) as (a' & Hcb & _).
  exists smp, a'. split; [exact Hs|]. split; [exact Hcb|].
  unfold _monitor_tick, try_except, bind, lift. rewrite Hs. simpl.
  rewrite Hcb. unfold sleep.
  destruct (interval <? 0)%Z; reflexivity.
Qed.

Lemma tick_keeps m interval e (w : world app_state) :
  let w' := snd (_monitor_tick m (Some _on_power_reading) interval e w) in
  fst (_monitor_tick m (Some _on_power_reading) interval e w) = Ok tt /\
  tz (app w') = tz (app w) /\
  kwh_cost (app w') = kwh_cost (app w) /\
  (tables_exist (store_of w) = true -> tables_exist (store_of w') = true).
Proof.
  destruct (tick_effect m interval e w) as (smp & a' & _ & Hcb & Ht).
  destruct (callback_effect smp w) as (a'' & Hcb' & Htz & Hk & Hst).
  rewrite Hcb in Hcb'. injection Hcb' as <-.
  simpl. rewrite Ht. simpl. repeat split; try assumption.
  unfold store_of at 2. simpl. rewrite Hst.
  destruct (kwh_cost (app w)); [apply save_keeps_tables | auto].
Qed.

Lemma loop_snoc m interval ticks e (w : world app_state) :
  snd (_monitor_loop m (Some _on_power_reading) interval (ticks ++ [e]) w) =
  snd (_monitor_tick m (Some _on_power_reading) interval e
         (snd (_monitor_loop m (Some _on_power_reading) interval ticks w))).
Proof.
  unfold _monitor_loop. revert w.
  induction ticks as [|t ticks IH]; intro w.
  - change (snd (bind (_monitor_tick m (Some _on_power_reading) interval e)
                      (fun _ => ret tt) w)
            = snd (_monitor_tick m (Some _on_power_reading) interval e w)).
    unfold bind.
    destruct (_monitor_tick m (Some _on_power_reading) interval e w)
      as [[u|x] w']; reflexivity.
  - change (snd (bind (_monitor_tick m (Some _on_power_reading) interval t)
                      (fun _ => for_each (_monitor_tick m (Some _on_power_reading) interval)
                                         (ticks ++ [e])) w)
            = snd (_monitor_tick m (Some _on_power_reading) interval e
                     (snd (bind (_monitor_tick m (Some _on_power_reading) interval t)
                                (fun _ => for_each (_monitor_tick m (Some _on_power_reading) interval)
                                                   ticks) w)))).
    unfold bind.
    destruct (tick_keeps m interval t w) as (Hok & _).
    destruct (_monitor_tick m (Some _on_power_reading) interval t w)
      as [[u|x] w']; simpl in Hok; [|discriminate].
    apply IH.
Qed.

Lemma loop_keeps m interval ticks (w : world app_state) :
  let w' := snd (_monitor_loop m (Some _on_power_reading) interval ticks w) in
  tz (app w') = tz (app w) /\
  kwh_cost (app w') = kwh_cost (app w) /\
  (tables_exist (store_of w) = true -> tables_exist (store_of w') = true).
Proof.
  unfold _monitor_loop. revert w.
  induction ticks as [|t ticks IH]; intro w; [simpl; auto|].
  change (for_each (_monitor_tick m (Some _on_power_reading) interval) (t :: ticks))
    with (bind (_monitor_tick m (Some _on_power_reading) interval t)
               (fun _ => for_each (_monitor_tick m (Some _on_power_reading) interval)
                                  ticks)).
  unfold bind.
  destruct (tick_keeps m interval t w) as (Hok & Htz & Hk & Hex).
  destruct (_monitor_tick m (Some _on_power_reading) interval t w)
    as [[u|x] w1]; simpl in *; [|discriminate].
  destruct (IH w1) as (Htz' & Hk' & Hex').
  repeat split; [congruence | congruence | auto].
Qed.



End Polling.

(** ** Detection *)

Section Detection.

Import HardwareMonitor.

Lemma swallow_ok {S} (body : M S unit) (s : S) :
  fst (swallow body s) = Ok tt.
Proof.
  unfold swallow, try_except. destruct (body s) as [[[]|x] s']; reflexivity.
Qed.

(** A detector returns, with the record as its [try] block left it. *)
Lemma detector_returns (init : component) (body : M component unit) :
  detector init body = Ok (snd (body init)).
Proof.
  unfold detector, swallow, try_except.
  destruct (body init) as [[u|x] c]; reflexivity.
Qed.

(** The LibreHardwareMonitor loop sets [max_power] last: when it raises,
    [max_power] is as before. *)
Lemma lhm_raise_keeps_power ty hs c x c' :
  lhm_name_and_tdp ty hs c = (Raise x, c') -> c_max_power c' = c_max_power c.
Proof.
  induction hs as [|h hs IH]; simpl; [discriminate|].
  destruct (HardwareType h =? ty)%Z; [|exact IH].
  unfold bind, modify, lift. simpl.
  destruct (Update h) as [u|y]; simpl.
  - destruct (first_tdp_sensor (Sensors h)); discriminate.
  - intro H; injection H as _ <-. reflexivity.
Qed.

Ltac after_lhm w :=
  (destruct (lhm_initialized w); simpl; [|discriminate]);
  (destruct (cpu_Hardware (cpu w)) as [hs|y]; simpl; [|reflexivity]);
  match goal with
  | |- context [lhm_name_and_tdp 0 hs ?c] =>
      let E := fresh "E" in
      destruct (lhm_name_and_tdp 0 hs c) as [[u|z] c'] eqn:E; simpl;
      [discriminate | intros _; apply (lhm_raise_keeps_power _ _ _ _ _ E)]
  end.

(** An error in the CPU detector leaves the wattage at the default. *)
Lemma cpu_error_keeps_default_power w :
  is_ok (cpu_body w (cpu_default w)) = false ->
  c_max_power (snd (cpu_body w (cpu_default w))) = PyNum config.DEFAULT_CPU_TDP.
Proof.
  unfold is_ok, cpu_body, bind, lift, modify.
  destruct (cpu_freq (cpu w)) as [[[cur mx]|]|x]; simpl; try reflexivity;
    (destruct (os_is_nt w);
     [ destruct (winreg_ProcessorNameString (cpu w)) as [n|x]
     | destruct (proc_cpuinfo_model_name (cpu w)) as [[n|]|x] ]);
    simpl; after_lhm w.
Qed.

(** The memory detector fails only at its first step. *)
Lemma mem_error_gives_default w :
  is_ok (mem_body w mem_default) = false ->
  snd (mem_body w mem_default) = mem_default.
Proof.
  unfold is_ok, mem_body, bind, lift, modify.
  destruct (virtual_memory (memory w)) as [vm|x]; simpl; [|reflexivity].
  destruct (os_is_nt w).
  - match goal with
    | |- context [swallow ?b ?c] =>
        pose proof (swallow_ok b c) as H; destruct (swallow b c) as [r c']
    end.
    simpl in H. subst r. discriminate.
  - match goal with
    | |- context [swallow ?b ?c] =>
        pose proof (swallow_ok b c) as H; destruct (swallow b c) as [r c']
    end.
    simpl in H. subst r. discriminate.
Qed.

Lemma cpu_first_probe_fails w x :
  cpu_freq (cpu w) = Raise x -> snd (cpu_body w (cpu_default w)) = cpu_default w.
Proof. intro H. unfold cpu_body, bind, lift. rewrite H. reflexivity. Qed.

Lemma storage_first_probe_fails w x :
  disk_partitions (storage w) = Raise x ->
  snd (storage_body w storage_default) = storage_default.
Proof. intro H. unfold storage_body, bind, lift. rewrite H. reflexivity. Qed.

(** Each detector reads the platform, the LibreHardwareMonitor flag and
    its own probes, and nothing else. *)
Lemma detectors_local w w' :
  os_is_nt w' = os_is_nt w ->
  lhm_initialized w' = lhm_initialized w ->
  (cpu w' = cpu w -> _detect_cpu w' = _detect_cpu w) /\
  (gpu w' = gpu w -> _detect_gpu w' = _detect_gpu w) /\
  (motherboard w' = motherboard w ->
   _detect_motherboard w' = _detect_motherboard w) /\
  (memory w' = memory w -> _detect_memory w' = _detect_memory w) /\
  (storage w' = storage w -> _detect_storage w' = _detect_storage w).
Proof.
  intros Hos Hlhm. repeat split; intro H.
  - unfold _detect_cpu, cpu_default, cpu_body. rewrite Hos, Hlhm, H. reflexivity.
  - unfold _detect_gpu, gpu_body. rewrite Hos, Hlhm, H. reflexivity.
  - unfold _detect_motherboard, mb_body. rewrite Hos, Hlhm, H. reflexivity.
  - unfold _detect_memory, mem_body. rewrite Hos, H. reflexivity.
  - unfold _detect_storage, storage_body. rewrite Hlhm, H. reflexivity.
Qed.

Lemma detect_hardware_returns w :
  detect_hardware w =
  Ok [("cpu", snd (cpu_body w (cpu_default w)));
      ("gpu", snd (gpu_body w gpu_default));
      ("motherboard", snd (mb_body w mb_default));
      ("memory", snd (mem_body w mem_default));
      ("storage", snd (storage_body w storage_default))].
Proof.
  unfold detect_hardware, _detect_cpu, _detect_gpu, _detect_motherboard,
    _detect_memory, _detect_storage.
  rewrite !detector_returns. reflexivity.
Qed.



End Detection.

(** * Further properties of the code *)

(** ** The settings table *)

Section Settings.

Import DataStorage.

Lemma update_absent_key (k : string) (v : text) (rows : list (string * text)) :
  has_key k rows = false ->
  map (fun r => if String.eqb (fst r) k then (fst r, v) else r) rows = rows.
Proof.
  induction rows as [|[k' t] rows IH]; simpl; [reflexivity|].
  destruct (String.eqb k' k); simpl; [discriminate|].
  intro H. rewrite (IH H). reflexivity.
Qed.

Lemma find_absent_key (k : string) (rows : list (string * text)) :
  has_key k rows = false <-> find (fun r => String.eqb (fst r) k) rows = None.
Proof.
  induction rows as [|[k' t] rows IH]; simpl; [tauto|].
  destruct (String.eqb k' k); simpl; [split; discriminate | exact IH].
Qed.

Lemma update_twice (k : string) (a b : text) (rows : list (string * text)) :
  map (fun r => if String.eqb (fst r) k then (fst r, b) else r)
      (map (fun r => if String.eqb (fst r) k then (fst r, a) else r) rows)
  = map (fun r => if String.eqb (fst r) k then (fst r, b) else r) rows.
Proof.
  rewrite map_map. apply map_ext. intros [k' t]. simpl.
  destruct (String.eqb k' k) eqn:E; simpl; rewrite E; reflexivity.
Qed.

Lemma find_other_key (k k' : string) (v : text) (rows : list (string * text)) :
  String.eqb k' k = false ->
  find (fun r => String.eqb (fst r) k)
       (map (fun r => if String.eqb (fst r) k' then (fst r, v) else r) rows)
  = find (fun r => String.eqb (fst r) k) rows.
Proof.
  intro Hne. induction rows as [|[k0 t] rows IH]; simpl; [reflexivity|].
  destruct (String.eqb k0 k') eqn:E; simpl.
  - apply String.eqb_eq in E. subst k0. rewrite Hne. exact IH.
  - destruct (String.eqb k0 k); [reflexivity | exact IH].
Qed.

(** X1.  [set_kwh_cost] returns normally on every store, also on one
    without a [settings] table; it leaves the readings and the daily
    records alone; and of two calls in a row the second one decides. *)
Theorem set_kwh_cost_last_write_wins (s : db) (a b : Q) :
  fst (set_kwh_cost a s) = Ok tt /\
  power_readings (snd (set_kwh_cost a s)) = power_readings s /\
  daily_power (snd (set_kwh_cost a s)) = daily_power s /\
  snd (set_kwh_cost b (snd (set_kwh_cost a s))) = snd (set_kwh_cost b s).
Proof.
  destruct s as [[rows|] rs ds]; unfold set_kwh_cost, try_except,
    update_setting, insert_or_replace_setting; simpl.
  - repeat split. rewrite update_twice. reflexivity.
  - repeat split.
Qed.

(** The price [get_kwh_cost] finds in the [settings] table. *)
Lemma get_kwh_cost_cases (s : db) :
  snd (get_kwh_cost s) = s /\
  fst (get_kwh_cost s) =
  match settings s with
  | None => Ok config.DEFAULT_KWH_COST
  | Some rows =>
      match find (fun r => String.eqb (fst r) "kwh_cost") rows with
      | Some (_, t) => float_of_text t
      | None => Ok config.DEFAULT_KWH_COST
      end
  end.
Proof.
  destruct s as [[rows|] rs ds]; unfold get_kwh_cost, try_except, bind,
    select_setting; simpl; [|split; reflexivity].
  destruct (find (fun r => String.eqb (fst r) "kwh_cost") rows) as [[k t]|] eqn:E;
    simpl.
  - destruct (float_of_text t) as [q|e] eqn:Ef; simpl.
    + split; reflexivity.
    + destruct t; simpl in Ef; try discriminate.
      injection Ef as <-. split; reflexivity.
  - unfold set_kwh_cost, try_except, update_setting. simpl.
    apply find_absent_key in E. rewrite (update_absent_key _ _ _ E).
    split; reflexivity.
Qed.

(** X2.  [get_kwh_cost] only reads: the store is the same afterwards, so
    a missing [kwh_cost] row is not inserted.  It answers the default when
    the table or the row is missing, the stored number when the row holds
    one, and raises [ValueError] when the row holds other text. *)
Theorem get_kwh_cost_only_reads (s : db) :
  snd (get_kwh_cost s) = s /\
  (settings s = None -> fst (get_kwh_cost s) = Ok config.DEFAULT_KWH_COST) /\
  (forall rows, settings s = Some rows ->
     has_key "kwh_cost" rows = false ->
     fst (get_kwh_cost s) = Ok config.DEFAULT_KWH_COST) /\
  (forall q, stored_price s = Some q -> fst (get_kwh_cost s) = Ok q) /\
  (forall rows txt, settings s = Some rows ->
     find (fun r => String.eqb (fst r) "kwh_cost") rows
     = Some ("kwh_cost", str_raw txt) ->
     exists msg, fst (get_kwh_cost s) = Raise (ValueError msg)).
Proof.
  destruct (get_kwh_cost_cases s) as [Hs Hr]. split; [exact Hs|].
  rewrite Hr. repeat split.
  - intros ->. reflexivity.
  - intros rows -> Hk. apply find_absent_key in Hk. rewrite Hk. reflexivity.
  - intro q. unfold stored_price. destruct (settings s) as [rows|]; [|discriminate].
    destruct (find _ rows) as [[k t]|]; [|discriminate].
    destruct (float_of_text t); [|discriminate]. congruence.
  - intros rows txt -> ->. simpl. eexists. reflexivity.
Qed.

(** X3.  On a store whose [settings] table has no [kwh_cost] row,
    [set_kwh_cost] changes nothing, since its [UPDATE] matches no row and
    raises no error: the value is lost and [get_kwh_cost] still answers the
    default. *)
Theorem set_kwh_cost_without_row_is_lost
        (s : db) (rows : list (string * text)) (v : Q) :
  settings s = Some rows ->
  has_key "kwh_cost" rows = false ->
  set_kwh_cost v s = (Ok tt, s) /\
  fst (get_kwh_cost (snd (set_kwh_cost v s))) = Ok config.DEFAULT_KWH_COST.
Proof.
  intros Hs Hk.
  assert (H : set_kwh_cost v s = (Ok tt, s)).
  { destruct s as [st rs ds]. simpl in Hs. subst st.
    unfold set_kwh_cost, try_except, update_setting. simpl.
    rewrite (update_absent_key _ _ _ Hk). reflexivity. }
  split; [exact H|]. rewrite H. simpl.
  destruct (get_kwh_cost_cases s) as [_ Hr]. rewrite Hr, Hs.
  apply find_absent_key in Hk. rewrite Hk. reflexivity.
Qed.

Lemma set_kwh_cost_without_row_is_lost_witness :
  let s := mk_db (Some [("db_version", str_int 1)]) (Some []) (Some []) in
  set_kwh_cost (1 # 5) s = (Ok tt, s) /\
  fst (get_kwh_cost (snd (set_kwh_cost (1 # 5) s))) = Ok config.DEFAULT_KWH_COST.
Proof.
  apply (set_kwh_cost_without_row_is_lost
           (mk_db (Some [("db_version", str_int 1)]) (Some []) (Some []))
           [("db_version", str_int 1)] (1 # 5)); reflexivity.
Defined.

End Settings.

(** ** Opening the database *)

Section Opening.

Import DataStorage.

Lemma stored_price_other_key (st : list (string * text)) rs ds (v : text) :
  stored_price
    (mk_db (Some (map (fun r => if String.eqb (fst r) "db_version"
                                then (fst r, v) else r) st)) rs ds)
  = stored_price (mk_db (Some st) rs ds).
Proof.
  unfold stored_price. simpl.
  rewrite (find_other_key "kwh_cost" "db_version" v st eq_refl). reflexivity.
Qed.


End Opening.

(** ** Saving a reading *)

Section Saving.

Import DataStorage.

Lemma replace_daily_other (row : daily) (ds : list daily) (d : date) :
  d <> d_date row ->
  filter (fun r => Z.eqb (d_date r) d) (replace_daily row ds) =
  filter (fun r => Z.eqb (d_date r) d) ds.
Proof.
  intro Hd. unfold replace_daily. rewrite filter_app. simpl.
  destruct (Z.eqb_spec (d_date row) d) as [E|_]; [congruence|].
  rewrite app_nil_r.
  induction ds as [|r ds IH]; simpl; [reflexivity|].
  destruct (Z.eqb_spec (d_date r) (d_date row)) as [E|E]; simpl.
  - destruct (Z.eqb_spec (d_date r) d) as [E'|_]; [congruence | exact IH].
  - rewrite IH. reflexivity.
Qed.

Lemma replace_daily_idempotent (row : daily) (ds : list daily) :
  replace_daily row (replace_daily row ds) = replace_daily row ds.
Proof.
  unfold replace_daily at 1. f_equal.
  unfold replace_daily. rewrite filter_app. simpl.
  rewrite Z.eqb_refl. simpl. rewrite app_nil_r.
  induction ds as [|r ds IH]; simpl; [reflexivity|].
  destruct (Z.eqb (d_date r) (d_date row)) eqn:E; simpl; [exact IH|].
  rewrite E. simpl. rewrite IH. reflexivity.
Qed.

(** The store after a call that found its price, in terms of the day's
    readings. *)
Lemma save_result s rs ds now tz p cd kopt k :
  power_readings s = Some rs ->
  daily_power s = Some ds ->
  price_for s kopt = Some k ->
  let rs' := rs ++ [new_reading now p cd k] in
  save_power_reading now tz p cd kopt s =
  (Ok tt,
   mk_db (settings s) (Some rs')
         (Some match aggregate (inject_Z config.DEFAULT_POLLING_INTERVAL)
                               (today now tz) (on_date (today now tz) rs') with
               | Ok row => match on_date (today now tz) rs' with
                           | [] => ds
                           | _ :: _ => replace_daily row ds
                           end
               | Raise _ => ds
               end)).
Proof.
  intros Hr Hd Hk rs'. rewrite (save_with_price s now tz p cd kopt k Hk).
  destruct s as [sto prs dps]; simpl in Hr, Hd; subst prs dps.
  unfold bind, insert_reading, _update_daily_aggregation,
    _update_daily_aggregation_at, bind, select_readings. simpl.
  fold (new_reading now p cd k). fold rs'.
  destruct (on_date (today now tz) rs') as [|r L] eqn:E.
  - simpl. reflexivity.
  - destruct (aggregate_ok (inject_Z config.DEFAULT_POLLING_INTERVAL)
                (today now tz) (r :: L)) as [row Hrow]; [discriminate|].
    rewrite Hrow. reflexivity.
Qed.

(** X5.  A call without a price works with the stored one: it does what
    the call with that price does.  When no price can be read from the
    store, the call raises before it writes anything. *)
Theorem save_without_price_uses_the_stored_one s now tz p cd :
  match stored_price s with
  | Some k => save_power_reading now tz p cd None s
              = save_power_reading now tz p cd (Some k) s
  | None => exists e, save_power_reading now tz p cd None s = (Raise e, s)
  end.
Proof.
  destruct (stored_price s) as [k|] eqn:E.
  - rewrite (save_with_price s now tz p cd None k E).
    rewrite (save_with_price s now tz p cd (Some k) k eq_refl). reflexivity.
  - unfold stored_price in E. destruct s as [[st|] rs ds]; simpl in E.
    + unfold save_power_reading, bind, select_setting. simpl.
      destruct (find (fun r => String.eqb (fst r) "kwh_cost") st) as [[key t]|];
        simpl; [|eexists; reflexivity].
      destruct (float_of_text t) as [q|x]; [discriminate|].
      eexists. reflexivity.
    + eexists. reflexivity.
Qed.



(** X7.  A successful call appends one reading and rewrites at most the
    record of the current local day: the settings, the earlier readings
    and the records of all other days stay as they are, and the dates of
    the records stay distinct. *)
Theorem save_touches_only_today s rs ds now tz p cd kopt k :
  power_readings s = Some rs ->
  daily_power s = Some ds ->
  price_for s kopt = Some k ->
  let s' := snd (save_power_reading now tz p cd kopt s) in
  fst (save_power_reading now tz p cd kopt s) = Ok tt /\
  settings s' = settings s /\
  power_readings s' = Some (rs ++ [new_reading now p cd k]) /\
  (forall d, d <> today now tz -> daily_on d s' = daily_on d s) /\
  exists ds', daily_power s' = Some ds' /\
              (NoDup (map d_date ds) -> NoDup (map d_date ds')).
Proof.
  intros Hr Hd Hk s'. subst s'.
  rewrite (save_result s rs ds now tz p cd kopt k Hr Hd Hk). simpl.
  split; [reflexivity|]. split; [reflexivity|]. split; [reflexivity|].
  set (L := on_date (today now tz) (rs ++ [new_reading now p cd k])).
  destruct (aggregate (inject_Z config.DEFAULT_POLLING_INTERVAL) (today now tz) L)
    as [row|x] eqn:Ea.
  - destruct (aggregate_fields _ _ _ _ Ea) as (Hdt & _).
    destruct L as [|r L'].
    + split; [|exists ds; auto].
      intros d _. unfold daily_on. simpl. rewrite Hd. reflexivity.
    + split; [|exists (replace_daily row ds); split;
                 [reflexivity | apply replace_daily_NoDup]].
      intros d Hne. unfold daily_on. simpl. rewrite Hd.
      apply replace_daily_other. congruence.
  - split; [|exists ds; auto].
    intros d _. unfold daily_on. simpl. rewrite Hd. reflexivity.
Qed.

Lemma save_touches_only_today_witness :
  let s' := snd (save_power_reading 0 0 120 [] None fresh_store) in
  fst (save_power_reading 0 0 120 [] None fresh_store) = Ok tt /\
  settings s' = settings fresh_store /\
  power_readings s' = Some ([] ++ [new_reading 0 120 [] (15 # 100)]) /\
  (forall d, d <> today 0 0 -> daily_on d s' = daily_on d fresh_store) /\
  exists ds', daily_power s' = Some ds' /\
              (NoDup (map d_date (@nil daily)) -> NoDup (map d_date ds')).
Proof.
  apply (save_touches_only_today fresh_store [] [] 0 0 120 [] None (15 # 100));
    reflexivity.
Defined.

(** X8.  The row is stamped with the UTC day while the aggregation works
    on the local day.  At a moment when the two differ, the reading just
    saved is not among those the aggregation reads, and the record of the
    UTC day it is stamped with is not recomputed. *)
Theorem reading_misses_its_day_when_utc_and_local_differ
        s rs ds now tz p cd kopt k :
  power_readings s = Some rs ->
  daily_power s = Some ds ->
  price_for s kopt = Some k ->
  date_of now <> today now tz ->
  let s' := snd (save_power_reading now tz p cd kopt s) in
  In (new_reading now p cd k) (readings_on (date_of now) s') /\
  readings_on (today now tz) s' = readings_on (today now tz) s /\
  daily_on (date_of now) s' = daily_on (date_of now) s /\
  (readings_on (today now tz) s = [] -> daily_power s' = daily_power s).
Proof.
  intros Hr Hd Hk Hne s'. subst s'.
  rewrite (save_result s rs ds now tz p cd kopt k Hr Hd Hk). simpl.
  assert (Hsel : on_date (today now tz) (rs ++ [new_reading now p cd k])
                 = on_date (today now tz) rs).
  { rewrite on_date_app. unfold on_date at 2. simpl.
    destruct (Z.eqb_spec (date_of now) (today now tz)); [congruence|].
    apply app_nil_r. }
  rewrite Hsel. unfold readings_on, daily_on. simpl. rewrite Hr, Hd.
  split; [|split; [|split]].
  - rewrite on_date_app. apply in_or_app. right. unfold on_date. simpl.
    rewrite Z.eqb_refl. now left.
  - exact Hsel.
  - destruct (aggregate _ _ (on_date (today now tz) rs)) as [row|x] eqn:Ea;
      [|reflexivity].
    destruct (on_date (today now tz) rs); [reflexivity|].
    destruct (aggregate_fields _ _ _ _ Ea) as (Hdt & _).
    apply replace_daily_other. congruence.
  - intros ->. destruct (aggregate _ _ []); reflexivity.
Qed.

Lemma reading_misses_its_day_when_utc_and_local_differ_witness :
  let s' := snd (save_power_reading 0 (-3600) 120 [] None fresh_store) in
  In (new_reading 0 120 [] (15 # 100)) (readings_on (date_of 0) s') /\
  readings_on (today 0 (-3600)) s' = readings_on (today 0 (-3600)) fresh_store /\
  daily_on (date_of 0) s' = daily_on (date_of 0) fresh_store /\
  (readings_on (today 0 (-3600)) fresh_store = [] ->
   daily_power s' = daily_power fresh_store).
Proof.
  apply (reading_misses_its_day_when_utc_and_local_differ
           fresh_store [] [] 0 (-3600) 120 [] None (15 # 100));
    try reflexivity.
  discriminate.
Defined.

(** The aggregation as a function of the day's readings. *)
Lemma update_result (s : db) (rs : list reading) (now tz : Z) :
  power_readings s = Some rs ->
  _update_daily_aggregation now tz s =
  match on_date (today now tz) rs with
  | [] => (Ok tt, s)
  | _ :: _ =>
      match aggregate (inject_Z config.DEFAULT_POLLING_INTERVAL) (today now tz)
                      (on_date (today now tz) rs) with
      | Ok row => insert_or_replace_daily row s
      | Raise e => (Raise e, s)
      end
  end.
Proof.
  intro Hr. unfold _update_daily_aggregation, _update_daily_aggregation_at,
    bind, select_readings. rewrite Hr.
  destruct (on_date (today now tz) rs); reflexivity.
Qed.

(** X9.  Recomputing the day's record is idempotent, and a day without
    readings gets no record: a second [_update_daily_aggregation] at the
    same moment changes nothing, and neither does a first one when no
    reading carries the current day. *)
Theorem update_daily_aggregation_idempotent (s : db) (now tz : Z) :
  let s1 := snd (_update_daily_aggregation now tz s) in
  snd (_update_daily_aggregation now tz s1) = s1 /\
  (readings_on (today now tz) s = [] -> s1 = s).
Proof.
  intro s1. subst s1.
  destruct (power_readings s) as [rs|] eqn:Hr.
  - rewrite (update_result s rs now tz Hr). unfold readings_on. rewrite Hr.
    destruct (on_date (today now tz) rs) as [|r L] eqn:E.
    + simpl. rewrite (update_result s rs now tz Hr), E. split; reflexivity.
    + destruct (aggregate_ok (inject_Z config.DEFAULT_POLLING_INTERVAL)
                  (today now tz) (r :: L)) as [row Hrow]; [discriminate|].
      rewrite Hrow. split; [|discriminate].
      destruct s as [sto prs dso]. simpl in Hr. subst prs.
      unfold insert_or_replace_daily.
      destruct dso as [ds|];
        cbv beta iota delta [daily_power settings power_readings snd fst
                             no_such_table raise].
      * rewrite (update_result (mk_db sto (Some rs) (Some (replace_daily row ds)))
                               rs now tz eq_refl), E, Hrow.
        unfold insert_or_replace_daily.
        cbv beta iota delta [daily_power settings power_readings snd].
        rewrite replace_daily_idempotent. reflexivity.
      * rewrite (update_result (mk_db sto (Some rs) None) rs now tz eq_refl),
          E, Hrow. reflexivity.
  - assert (H : _update_daily_aggregation now tz s
                = no_such_table "power_readings" s).
    { unfold _update_daily_aggregation, _update_daily_aggregation_at, bind,
        select_readings. rewrite Hr. reflexivity. }
    rewrite H. simpl. rewrite H. split; reflexivity.
Qed.

End Saving.

(** ** What every daily record satisfies *)

Section Records.

Import DataStorage.

Lemma inject_succ (n : nat) :
  inject_Z (Z.of_nat (S n)) == inject_Z (Z.of_nat n) + 1.
Proof. rewrite Nat2Z.inj_succ. unfold Z.succ. rewrite inject_Z_plus. reflexivity. Qed.

Lemma sum_list_lower (xs : list Q) (lo : Q) :
  (forall x, In x xs -> lo <= x) ->
  inject_Z (Z.of_nat (List.length xs)) * lo <= sum_list xs.
Proof.
  induction xs as [|x xs IH]; intro H.
  - change (0 * lo <= 0). lra.
  - cbn [List.length sum_list fold_right]. rewrite inject_succ.
    assert (lo <= x) by (apply H; now left).
    assert (inject_Z (Z.of_nat (List.length xs)) * lo <= sum_list xs)
      by (apply IH; intros y Hy; apply H; now right).
    unfold sum_list in *. lra.
Qed.

Lemma sum_list_upper (xs : list Q) (hi : Q) :
  (forall x, In x xs -> x <= hi) ->
  sum_list xs <= inject_Z (Z.of_nat (List.length xs)) * hi.
Proof.
  induction xs as [|x xs IH]; intro H.
  - change (0 <= 0 * hi). lra.
  - cbn [List.length sum_list fold_right]. rewrite inject_succ.
    assert (x <= hi) by (apply H; now left).
    assert (sum_list xs <= inject_Z (Z.of_nat (List.length xs)) * hi)
      by (apply IH; intros y Hy; apply H; now right).
    unfold sum_list in *. lra.
Qed.

Lemma py_len_pos {A} (xs : list A) : xs <> [] -> 0 < py_len xs.
Proof.
  destruct xs as [|x xs]; [congruence|]. intros _. unfold py_len.
  cbn [List.length]. rewrite inject_succ.
  assert (0 <= inject_Z (Z.of_nat (List.length xs))).
  { unfold Qle. simpl. lia. }
  lra.
Qed.



End Records.

(** ** Reading the daily records back *)

Section Range.

Import DataStorage.

Local Abbreviation by_date := (fun a b : daily => (d_date a <= d_date b)%Z).

Lemma insert_by_date_perm (r : daily) (rows : list daily) :
  Permutation (insert_by_date r rows) (r :: rows).
Proof.
  induction rows as [|r' rows IH]; simpl; [reflexivity|].
  destruct (d_date r <=? d_date r')%Z; [reflexivity|].
  rewrite IH. apply perm_swap.
Qed.

Lemma order_by_date_perm (rows : list daily) :
  Permutation (order_by_date rows) rows.
Proof.
  induction rows as [|r rows IH]; simpl; [reflexivity|].
  rewrite insert_by_date_perm. now apply perm_skip.
Qed.

Lemma insert_by_date_sorted (r : daily) (rows : list daily) :
  StronglySorted by_date rows -> StronglySorted by_date (insert_by_date r rows).
Proof.
  induction 1 as [|r' rows Hs IH Hall]; simpl.
  - repeat constructor.
  - destruct (Z.leb_spec (d_date r) (d_date r')) as [Hle|Hgt].
    + constructor; [constructor; assumption|].
      constructor; [exact Hle|].
      eapply Forall_impl; [|exact Hall]. simpl. intros; lia.
    + constructor; [exact IH|].
      apply Forall_forall. intros x Hx.
      apply (Permutation_in _ (insert_by_date_perm r rows)) in Hx.
      destruct Hx as [<- | Hx]; [lia|].
      rewrite Forall_forall in Hall. now apply Hall.
Qed.

Lemma order_by_date_sorted (rows : list daily) :
  StronglySorted by_date (order_by_date rows).
Proof.
  induction rows as [|r rows IH]; simpl; [constructor|].
  now apply insert_by_date_sorted.
Qed.

Lemma NoDup_dates_filter (f : daily -> bool) (rows : list daily) :
  NoDup (map d_date rows) -> NoDup (map d_date (filter f rows)).
Proof.
  induction rows as [|r rows IH]; simpl; intro Hnd; [constructor|].
  inversion Hnd as [|? ? Hnin Hnd']; subst.
  destruct (f r); simpl; [|now apply IH].
  constructor; [|now apply IH].
  intro Hx. apply Hnin. apply in_map_iff in Hx as (y & Hy & Hx).
  apply filter_In in Hx as [Hx _]. apply in_map_iff. now exists y.
Qed.

(** Distinct integers between [a] and [a + n - 1] are at most [n]. *)
Lemma distinct_in_interval (l : list Z) (a n : Z) :
  NoDup l ->
  (forall x, In x l -> a <= x <= a + n - 1)%Z ->
  (List.length l <= Z.to_nat n)%nat.
Proof.
  intros Hnd Hin.
  rewrite <- (length_seq (Z.to_nat n) 0).
  rewrite <- (length_map (fun k => (a + Z.of_nat k)%Z)).
  apply NoDup_incl_length; [exact Hnd|].
  intros x Hx. specialize (Hin x Hx).
  apply in_map_iff. exists (Z.to_nat (x - a)). split; [lia|].
  apply in_seq. lia.
Qed.



End Range.

(** ** The components table *)

Section ComponentsTable.

Import HardwareMonitor Components.

Lemma save_component_ok now (c : component_dict) ty nm rs n :
  key_type c = Some ty -> key_name c = Some nm ->
  save_component now c (mk_table (Some rs) n)
  = (Ok tt,
     mk_table (Some (rs ++ [mk_component_row (n + 1) ty nm
                              (get_or (key_details c) [])
                              (get_or (key_max_power c) (PyNum 0)) now]))
              (n + 1)).
Proof.
  intros Et En. unfold save_component, bind, lift, subscript.
  rewrite Et, En. reflexivity.
Qed.

Lemma save_component_fails now (c : component_dict) (t : table) :
  stored_fields c = None ->
  exists key, save_component now c t = (Raise (KeyError key), t).
Proof.
  unfold stored_fields, save_component, bind, lift, subscript.
  destruct (key_type c) as [ty|]; simpl.
  - destruct (key_name c) as [nm|]; [discriminate|]. intros _.
    exists "name". reflexivity.
  - intros _. exists "type". reflexivity.
Qed.

(** Saving dictionaries that have both keys: the rows are appended in
    order, with consecutive fresh ids. *)
Lemma save_each now (cs : list component_dict) : forall rs n,
  Forall (fun c => stored_fields c <> None) cs ->
  exists new,
    for_each (save_component now) cs (mk_table (Some rs) n)
    = (Ok tt, mk_table (Some (rs ++ new)) (n + Z.of_nat (List.length cs))) /\
    map Some (map row_fields new) = map stored_fields cs /\
    map row_id new = map (fun k => (n + Z.of_nat k)%Z) (seq 1 (List.length cs)) /\
    Forall (fun r => row_created_at r = now) new.
Proof.
  induction cs as [|c cs IH]; intros rs n Hall.
  - exists []. simpl. rewrite app_nil_r, Z.add_0_r. repeat split. constructor.
  - inversion Hall as [|? ? Hc Hrest]; subst.
    unfold stored_fields in Hc.
    destruct (key_type c) as [ty|] eqn:Et; [|congruence].
    destruct (key_name c) as [nm|] eqn:En; [|congruence].
    destruct (IH (rs ++ [mk_component_row (n + 1) ty nm (get_or (key_details c) [])
                           (get_or (key_max_power c) (PyNum 0)) now])
                 (n + 1)%Z Hrest) as (new & Hrun & Hf & Hid & Hts).
    exists (mk_component_row (n + 1) ty nm (get_or (key_details c) [])
              (get_or (key_max_power c) (PyNum 0)) now :: new).
    split; [|split; [|split]].
    + cbn [for_each]. unfold bind at 1.
      rewrite (save_component_ok now c ty nm rs n Et En), Hrun.
      rewrite <- app_assoc. cbn [List.app List.length].
      f_equal. f_equal. lia.
    + simpl. unfold stored_fields at 1. rewrite Et, En, Hf. reflexivity.
    + cbn [map List.length seq]. rewrite Hid. f_equal; try lia.
      rewrite <- (seq_shift (List.length cs) 1), map_map.
      apply map_ext. intro k. lia.
    + constructor; [reflexivity | exact Hts].
Qed.

(** X12.  [save_components] followed by [get_components] gives back what
    was saved: the previous rows are gone, and the table holds one row
    per dictionary, in order, with its type, its name, its details (an
    empty dictionary when the key is absent) and its rated power (0 when
    the key is absent).  The ids continue after the last id ever used. *)
Theorem save_then_get_components now (t : table) (old : list component_row)
        (cs : list component_dict) :
  rows t = Some old ->
  Forall (fun c => stored_fields c <> None) cs ->
  exists t' out,
    save_components now cs t = (Ok tt, t') /\
    get_components t' = (Ok out, t') /\
    map Some (map row_fields out) = map stored_fields cs /\
    map row_id out
    = map (fun k => (last_id t + Z.of_nat k)%Z) (seq 1 (List.length cs)) /\
    last_id t' = (last_id t + Z.of_nat (List.length cs))%Z.
Proof.
  intros Hr Hall. destruct t as [r n]. simpl in Hr. subst r.
  destruct (save_each now cs [] n Hall) as (new & Hrun & Hf & Hid & _).
  exists (mk_table (Some new) (n + Z.of_nat (List.length cs))), new.
  split; [|repeat split; assumption].
  unfold save_components, bind, delete_components. simpl. exact Hrun.
Qed.

Lemma save_then_get_components_witness :
  let cs := [mk_component_dict (Some "cpu") (Some "Example CPU") None None;
             mk_component_dict (Some "gpu") (Some "Example GPU")
                               (Some [("driver_version", DStr "1.0")])
                               (Some (PyNum 150))] in
  let t := mk_table (Some [mk_component_row 7 "cpu" "Old CPU" [] (PyNum 65) 0]) 7 in
  exists t' out,
    save_components 100 cs t = (Ok tt, t') /\
    get_components t' = (Ok out, t') /\
    map Some (map row_fields out) = map stored_fields cs /\
    map row_id out
    = map (fun k => (last_id t + Z.of_nat k)%Z) (seq 1 (List.length cs)) /\
    last_id t' = (last_id t + Z.of_nat (List.length cs))%Z.
Proof.
  intros cs t.
  apply (save_then_get_components 100 t
           [mk_component_row 7 "cpu" "Old CPU" [] (PyNum 65) 0] cs).
  - reflexivity.
  - repeat constructor; discriminate.
Defined.

(** X13.  [save_components] is not all or nothing: at the first
    dictionary without a ["type"] or a ["name"] it raises [KeyError], and
    the table then holds the rows of the dictionaries before it, the
    previous rows being deleted already. *)
Theorem save_components_stops_at_missing_key
        now (t : table) (old : list component_row)
        (before after : list component_dict) (c : component_dict) :
  rows t = Some old ->
  Forall (fun c => stored_fields c <> None) before ->
  stored_fields c = None ->
  exists key t' out,
    save_components now (before ++ c :: after) t = (Raise (KeyError key), t') /\
    rows t' = Some out /\
    map Some (map row_fields out) = map stored_fields before.
Proof.
  intros Hr Hall Hc. destruct t as [r n]. simpl in Hr. subst r.
  assert (H : forall rs m,
    exists key new,
      for_each (save_component now) (before ++ c :: after) (mk_table (Some rs) m)
      = (Raise (KeyError key),
         mk_table (Some (rs ++ new)) (m + Z.of_nat (List.length before))) /\
      map Some (map row_fields new) = map stored_fields before).
  { induction before as [|b before IH]; intros rs m.
    - destruct (save_component_fails now c (mk_table (Some rs) m) Hc)
        as [key Hfail].
      exists key, []. cbn [List.app for_each]. unfold bind at 1. rewrite Hfail.
      rewrite app_nil_r. simpl. rewrite Z.add_0_r. split; reflexivity.
    - inversion Hall as [|? ? Hb Hrest]; subst.
      unfold stored_fields in Hb.
      destruct (key_type b) as [ty|] eqn:Et; [|congruence].
      destruct (key_name b) as [nm|] eqn:En; [|congruence].
      destruct (IH Hrest
                  (rs ++ [mk_component_row (m + 1) ty nm (get_or (key_details b) [])
                            (get_or (key_max_power b) (PyNum 0)) now])
                  (m + 1)%Z) as (key & new & Hrun & Hf).
      exists key, (mk_component_row (m + 1) ty nm (get_or (key_details b) [])
                     (get_or (key_max_power b) (PyNum 0)) now :: new).
      split.
      + cbn [List.app for_each]. unfold bind at 1.
        rewrite (save_component_ok now b ty nm rs m Et En), Hrun.
        rewrite <- app_assoc. cbn [List.app List.length].
        f_equal. f_equal. lia.
      + simpl. unfold stored_fields at 1. rewrite Et, En, Hf. reflexivity. }
  destruct (H [] n) as (key & new & Hrun & Hf).
  exists key, (mk_table (Some new) (n + Z.of_nat (List.length before))), new.
  split; [|split; [reflexivity | exact Hf]].
  unfold save_components, bind, delete_components. simpl. exact Hrun.
Qed.

Lemma save_components_stops_at_missing_key_witness :
  let before := [mk_component_dict (Some "cpu") (Some "Example CPU") None None] in
  let c := mk_component_dict (Some "storage") None None (Some (PyNum 3)) in
  let t := mk_table (Some [mk_component_row 7 "cpu" "Old CPU" [] (PyNum 65) 0]) 7 in
  exists key t' out,
    save_components 100 (before ++ c :: []) t = (Raise (KeyError key), t') /\
    rows t' = Some out /\
    map Some (map row_fields out) = map stored_fields before.
Proof.
  intros before c t.
  apply (save_components_stops_at_missing_key 100 t
           [mk_component_row 7 "cpu" "Old CPU" [] (PyNum 65) 0] before [] c).
  - reflexivity.
  - repeat constructor; discriminate.
  - reflexivity.
Defined.

End ComponentsTable.

(** ** The polling loop with any callback *)

Section Loop.

Import HardwareMonitor.

Context {A : Type}.

(** One iteration with any callback and any interval. *)
Lemma tick_any m (cb : option (sample -> M (world A) unit)) interval e
               (w : world A) :
  exists smp,
    get_power_readings m e = Ok smp /\
    let r := match cb with
             | Some f => f smp w
             | None => (Ok tt, w)
             end in
    _monitor_tick m cb interval e w =
    (Ok tt,
     mk_world (clock (snd r) +
               match fst r with
               | Ok _ => if (interval <? 0)%Z then 1 else interval
               | Raise _ => 1
               end)%Z
              (app (snd r))).
Proof.
  destruct (sample_cases m e) as (smp & Hs & _).
  exists smp. split; [exact Hs|].
  unfold _monitor_tick, try_except, bind, lift. rewrite Hs. simpl.
  destruct cb as [f|]; simpl.
  - destruct (f smp w) as [[u|x] w']; simpl; [|reflexivity].
    unfold sleep. destruct (interval <? 0)%Z; reflexivity.
  - unfold sleep. destruct (interval <? 0)%Z; reflexivity.
Qed.

(** X14.  The polling loop outlives its callback and its interval.  No
    iteration raises, whatever the callback does and whatever the
    interval is.  An iteration whose callback raises keeps what the
    callback did before it raised and waits one second; a negative
    interval makes [time.sleep] raise, so the loop then polls once per
    second. *)
Theorem monitor_loop_survives_callback_and_interval
        m (cb : option (sample -> M (world A) unit)) interval ticks
        (w : world A) :
  fst (_monitor_loop m cb interval ticks w) = Ok tt /\
  forall e w0,
    exists smp,
      get_power_readings m e = Ok smp /\
      let r := match cb with
               | Some f => f smp w0
               | None => (Ok tt, w0)
               end in
      _monitor_tick m cb interval e w0 =
      (Ok tt,
       mk_world (clock (snd r) +
                 match fst r with
                 | Ok _ => if (interval <? 0)%Z then 1 else interval
                 | Raise _ => 1
                 end)%Z
                (app (snd r))).
Proof.
  split; [|intros e w0; apply tick_any].
  unfold _monitor_loop. revert w.
  induction ticks as [|t ticks IH]; intro w; [reflexivity|].
  change (for_each (_monitor_tick m cb interval) (t :: ticks))
    with (bind (_monitor_tick m cb interval t)
               (fun _ => for_each (_monitor_tick m cb interval) ticks)).
  unfold bind.
  destruct (tick_any m cb interval t w) as (smp & _ & Ht).
  cbv zeta in Ht. rewrite Ht. apply IH.
Qed.

End Loop.

(** ** What a monitoring session stores *)

Section Sessions.

Import DataStorage HardwareMonitor UI.

(** One iteration of a session whose price field holds a number. *)
Lemma tick_stores_one m interval e (w : world app_state) rs k :
  tables_exist (store_of w) = true ->
  power_readings (store_of w) = Some rs ->
  kwh_cost (app w) = Ok k ->
  exists smp w1,
    get_power_readings m e = Ok smp /\
    _monitor_tick m (Some _on_power_reading) interval e w = (Ok tt, w1) /\
    clock w1 = (clock w + (if (interval <? 0)%Z then 1 else interval))%Z /\
    tz (app w1) = tz (app w) /\
    kwh_cost (app w1) = Ok k /\
    tables_exist (store_of w1) = true /\
    settings (store_of w1) = settings (store_of w) /\
    power_readings (store_of w1) =
    Some (rs ++ [new_reading (clock w) (fst smp) (snd smp) k]).
Proof.
  intros Hex Hrs Hk.
  destruct (tick_effect m interval e w) as (smp & a' & Hs & Hcb & Ht).
  destruct (callback_effect smp w) as (a'' & Hcb' & Htz & Hk' & Hst).
  rewrite Hcb in Hcb'. injection Hcb' as <-.
  rewrite Hk in Hst, Hk'.
  exists smp. eexists. split; [exact Hs|]. split; [exact Ht|].
  unfold store_of in *. simpl.
  split; [reflexivity|]. split; [exact Htz|]. split; [exact Hk'|].
  rewrite Hst.
  split; [apply save_keeps_tables; exact Hex|].
  unfold tables_exist in Hex. rewrite Hrs in Hex.
  destruct (daily_power (data_storage (app w))) as [ds|] eqn:Eds;
    [|discriminate].
  rewrite (save_result (data_storage (app w)) rs ds (clock w) (tz (app w))
             (fst smp) (snd smp) (Some k) k Hrs Eds eq_refl).
  simpl. split; reflexivity.
Qed.

Lemma loop_cons {B} m (cb : option (sample -> M (world B) unit)) interval
                t ticks (w w1 : world B) :
  _monitor_tick m cb interval t w = (Ok tt, w1) ->
  _monitor_loop m cb interval (t :: ticks) w =
  _monitor_loop m cb interval ticks w1.
Proof.
  intro H. unfold _monitor_loop.
  change (for_each (_monitor_tick m cb interval) (t :: ticks))
    with (bind (_monitor_tick m cb interval t)
               (fun _ => for_each (_monitor_tick m cb interval) ticks)).
  unfold bind. rewrite H. reflexivity.
Qed.

Lemma stamps_shift (c step : Z) (n : nat) :
  map (fun i => (c + step + Z.of_nat i * step)%Z) (seq 0 n) =
  map (fun i => (c + Z.of_nat i * step)%Z) (seq 1 n).
Proof.
  rewrite <- (seq_shift n 0), map_map. apply map_ext. intro i.
  rewrite Nat2Z.inj_succ. ring.
Qed.



(** X16.  While the price field does not hold a number, a session drops
    every sample: each iteration ends normally after the interval, and
    the store is left as it was. *)
Theorem session_without_price_stores_nothing
        m interval ticks (w : world app_state) x :
  kwh_cost (app w) = Raise x ->
  let step := if (interval <? 0)%Z then 1%Z else interval in
  session m (Some interval) ticks w =
  (Ok tt, mk_world (clock w + Z.of_nat (List.length ticks) * step)%Z (app w)).
Proof.
  intros Hk step. unfold session, start_monitoring.
  revert w Hk. induction ticks as [|t ticks IH]; intros w Hk.
  - destruct w as [c a]. unfold _monitor_loop, for_each, ret.
    change (Z.of_nat (List.length (@nil env)) * step)%Z with 0%Z.
    simpl clock. simpl app. rewrite Z.add_0_r. reflexivity.
  - destruct (tick_effect m interval t w) as (smp & a' & _ & Hcb & Ht).
    destruct (callback_effect smp w) as (a'' & Hcb' & Htz & Hk' & Hst).
    rewrite Hcb in Hcb'. injection Hcb' as <-.
    rewrite Hk in Hst, Hk'.
    assert (Ha : a' = app w).
    { destruct a' as [z kc st], w as [c [z0 kc0 st0]].
      unfold store_of in Hst. simpl in *. congruence. }
    subst a'. rewrite (loop_cons _ _ _ _ _ _ _ Ht).
    rewrite IH by exact Hk. fold step. simpl clock. simpl app.
    f_equal. f_equal. simpl List.length. rewrite Nat2Z.inj_succ. ring.
Qed.

Lemma session_without_price_stores_nothing_witness :
  let w := mk_world 0 (mk_app 0 (Raise (ValueError "could not convert"))
                              fresh_store) in
  session example_monitor (Some 5%Z) [example_env; example_env] w =
  (Ok tt, mk_world (clock w + Z.of_nat 2 * 5)%Z (app w)).
Proof.
  apply (session_without_price_stores_nothing
           example_monitor 5%Z [example_env; example_env]
           (mk_world 0 (mk_app 0 (Raise (ValueError "could not convert"))
                               fresh_store))
           (ValueError "could not convert")).
  reflexivity.
Defined.

End Sessions.

(** ** Sensors without a reading, and the range of the estimate *)

Section Fallback.

Import HardwareMonitor.

Lemma cpu_null_reading m e hs :
  Hardware_cpu e = Ok hs ->
  last_reading 1 "Package" (sensors_of 0 hs) = Some PyNone ->
  exists c, _get_cpu_power_lhm m e = Ok c /\ power c = PyNone.
Proof.
  intros Hhs Hl.
  assert (Hp : power (read_sensors 0 "Package" "Total" hs zero_entry) = PyNone).
  { rewrite read_sensors_fold, fold_power, Hl. reflexivity. }
  unfold _get_cpu_power_lhm, returning, try_except, cpu_lhm_body, bind,
    lift, modify, get_state, ret.
  rewrite Hhs. simpl. rewrite Hp. simpl.
  eexists. split; [reflexivity | exact Hp].
Qed.

Lemma gpu_null_reading m e hs :
  Hardware_gpu e = Ok hs ->
  last_reading 1 "Package" (sensors_of 1 hs) = Some PyNone ->
  exists g, _get_gpu_power_lhm m e = Ok g /\ power g = PyNone.
Proof.
  intros Hhs Hl.
  assert (Hp : power (read_sensors 1 "Core" "Core" hs zero_entry) = PyNone).
  { rewrite read_sensors_fold, fold_power, Hl. reflexivity. }
  unfold _get_gpu_power_lhm, returning, try_except, gpu_lhm_body, bind,
    lift, modify, get_state, ret.
  rewrite Hhs. simpl. rewrite Hp. simpl.
  eexists. split; [reflexivity | exact Hp].
Qed.

(** X17.  A Package power sensor that is present but has no reading
    ([Value] is [None]) is not replaced by an estimate of that component:
    the [None] reaches the total, the addition raises, and the whole
    sample is the one of [_estimate_power_consumption], which reads no
    sensor at all.  This holds for the CPU sensor and for the GPU sensor,
    whatever the other sensors read. *)
Theorem null_power_sensor_discards_direct_readings m e hs :
  (Hardware_cpu e = Ok hs /\
   last_reading 1 "Package" (sensors_of 0 hs) = Some PyNone) \/
  (Hardware_gpu e = Ok hs /\
   last_reading 1 "Package" (sensors_of 1 hs) = Some PyNone) ->
  direct_path m e = false /\
  get_power_readings m e = _estimate_power_consumption m e.
Proof.
  intro H.
  assert (Hfail : is_ok (lhm_body m e empty_sample) = false).
  { unfold is_ok.
    destruct (lhm_body m e empty_sample) as [[u|x] s] eqn:E; [|reflexivity].
    destruct (lhm_body_shape m e u s E)
      as (c & g & qc & qg & _ & _ & _ & Hc & Hpc & Hg & Hpg & _).
    destruct H as [[Hhs Hl]|[Hhs Hl]].
    - destruct (cpu_null_reading m e hs Hhs Hl) as (c' & Hc' & Hp').
      congruence.
    - destruct (gpu_null_reading m e hs Hhs Hl) as (g' & Hg' & Hp').
      congruence. }
  split.
  - unfold direct_path. rewrite Hfail. apply andb_false_r.
  - unfold get_power_readings. destruct (self_lhm_initialized m); [|reflexivity].
    unfold is_ok in Hfail.
    destruct (lhm_body m e empty_sample) as [[u|x] s]; simpl in Hfail;
      [discriminate | reflexivity].
Qed.

Lemma null_power_sensor_discards_direct_readings_witness :
  let hs := [mk_hardware 0 "CPU" (Ok tt)
               [mk_sensor 1 "CPU Package" PyNone;
                mk_sensor 3 "CPU Total" (PyNum 50)]] in
  let e := mk_env (Ok (hs ++ example_gpu)) (Ok hs) (Ok example_gpu)
                  (Ok 25) (Ok 25)
                  (Ok (mk_completed 0 (Some "80") (Ok 80)))
                  (Ok 25)
                  (Ok (mk_completed 0 (Some "80") (Ok 80))) in
  direct_path example_monitor e = false /\
  get_power_readings example_monitor e =
  _estimate_power_consumption example_monitor e.
Proof.
  apply (null_power_sensor_discards_direct_readings example_monitor
           (mk_env (Ok ([mk_hardware 0 "CPU" (Ok tt)
                           [mk_sensor 1 "CPU Package" PyNone;
                            mk_sensor 3 "CPU Total" (PyNum 50)]]
                        ++ example_gpu))
                   (Ok [mk_hardware 0 "CPU" (Ok tt)
                          [mk_sensor 1 "CPU Package" PyNone;
                           mk_sensor 3 "CPU Total" (PyNum 50)]])
                   (Ok example_gpu)
                   (Ok 25) (Ok 25)
                   (Ok (mk_completed 0 (Some "80") (Ok 80)))
                   (Ok 25)
                   (Ok (mk_completed 0 (Some "80") (Ok 80))))
           [mk_hardware 0 "CPU" (Ok tt)
              [mk_sensor 1 "CPU Package" PyNone;
               mk_sensor 3 "CPU Total" (PyNum 50)]]).
  left. split; reflexivity.
Defined.

End Fallback.

(** ** Invariants of the detectors *)

Section Keeps.

Context {S : Type} (P : S -> Prop).

Lemma keeps_ret {A} (a : A) : keeps P (@ret S A a).
Proof. intros s H. exact H. Qed.

Lemma keeps_lift {A} (r : result A) : keeps P (@lift S A r).
Proof. intros s H. destruct r; exact H. Qed.

Lemma keeps_get_state : keeps P (@get_state S).
Proof. intros s H. exact H. Qed.

Lemma keeps_modify (f : S -> S) :
  (forall s, P s -> P (f s)) -> keeps P (modify f).
Proof. intros Hf s H. apply Hf, H. Qed.

Lemma keeps_bind {A B} (c : M S A) (k : A -> M S B) :
  keeps P c -> (forall a, keeps P (k a)) -> keeps P (bind c k).
Proof.
  intros Hc Hk s H. unfold bind. specialize (Hc s H).
  destruct (c s) as [[a|x] s']; simpl in Hc; [apply Hk, Hc | exact Hc].
Qed.

Lemma keeps_try_except {A} (body : M S A) sel handler :
  keeps P body -> (forall x, keeps P (handler x)) ->
  keeps P (try_except body sel handler).
Proof.
  intros Hb Hh s H. unfold try_except. specialize (Hb s H).
  destruct (body s) as [[a|x] s']; simpl in Hb; [exact Hb|].
  destruct (sel x); [apply Hh, Hb | exact Hb].
Qed.

Lemma keeps_swallow (body : M S unit) : keeps P body -> keeps P (swallow body).
Proof.
  intro Hb. apply keeps_try_except; [exact Hb | intro; apply keeps_ret].
Qed.

Lemma keeps_for_each {A} (f : A -> M S unit) (xs : list A) :
  (forall x, keeps P (f x)) -> keeps P (for_each f xs).
Proof.
  intro Hf. induction xs as [|x xs IH]; [apply keeps_ret|].
  apply keeps_bind; [apply Hf | intro; exact IH].
Qed.

Lemma keeps_if {A} (b : bool) (c1 c2 : M S A) :
  (b = true -> keeps P c1) -> (b = false -> keeps P c2) ->
  keeps P (if b then c1 else c2).
Proof. destruct b; auto. Qed.

End Keeps.

Ltac keeps_step fin :=
  match goal with
  | |- keeps _ (bind _ _) => apply keeps_bind; [|intro]
  | |- keeps _ (swallow _) => apply keeps_swallow
  | |- keeps _ (try_except _ _ _) => apply keeps_try_except; [|intro]
  | |- keeps _ (lift _) => apply keeps_lift
  | |- keeps _ (ret _) => apply keeps_ret
  | |- keeps _ get_state => apply keeps_get_state
  | |- keeps _ (for_each _ _) => apply keeps_for_each; intro
  | |- keeps _ (modify _) => apply keeps_modify; fin
  | |- keeps _ (if _ then _ else _) => apply keeps_if; intro
  | |- keeps _ (match ?x with _ => _ end) => destruct x
  end.

Section Stable.

Import HardwareMonitor.

Variable w : machine.
Variable P : component -> Prop.
Hypothesis Hname : forall n c, P c -> P (set_name n c).
Hypothesis Hdetail : forall k v c, P c -> P (set_detail k v c).
Hypothesis Hnum : forall q c, P c -> P (set_max_power (PyNum q) c).
Hypothesis Hlhm :
  lhm_initialized w = true -> forall v c, P c -> P (set_max_power v c).

Lemma lhm_name_keeps ty hs : keeps P (lhm_name ty hs).
Proof.
  induction hs as [|h hs IH]; simpl; [apply keeps_ret|].
  destruct (HardwareType h =? ty)%Z; [|exact IH].
  apply keeps_modify, Hname.
Qed.

Lemma lhm_name_and_tdp_keeps ty hs :
  lhm_initialized w = true -> keeps P (lhm_name_and_tdp ty hs).
Proof.
  intro Hon. induction hs as [|h hs IH]; simpl; [apply keeps_ret|].
  destruct (HardwareType h =? ty)%Z; [|exact IH].
  repeat keeps_step ltac:(first [apply Hname | apply (Hlhm Hon)]).
Qed.

Lemma cpu_body_keeps : keeps P (cpu_body w).
Proof.
  unfold cpu_body.
  repeat keeps_step ltac:(first [apply Hname | apply Hdetail]).
  apply lhm_name_and_tdp_keeps; assumption.
Qed.

Lemma gpu_body_keeps : keeps P (gpu_body w).
Proof.
  unfold gpu_body.
  repeat keeps_step ltac:(first [apply Hname | apply Hdetail | apply Hnum]).
  apply lhm_name_and_tdp_keeps; assumption.
Qed.

Lemma mb_body_keeps : keeps P (mb_body w).
Proof.
  unfold mb_body, set_board.
  repeat keeps_step ltac:(first [apply Hname | apply Hdetail]);
    apply lhm_name_keeps.
Qed.

Lemma mem_body_keeps : keeps P (mem_body w).
Proof.
  unfold mem_body, set_sticks.
  repeat keeps_step ltac:(first [apply Hdetail | apply Hnum]).
Qed.

End Stable.

(** ** The wattages detection assigns *)

Section Wattage.

Import HardwareMonitor.

Lemma py_len_cons {B} (x : B) (xs : list B) : py_len (x :: xs) == 1 + py_len xs.
Proof. unfold py_len. cbn [List.length]. rewrite inject_succ. ring. Qed.

Lemma partition_power_sum (cs : list partition) :
  sum_list (map partition_power cs) ==
  config.DEFAULT_SSD_POWER * py_len (filter p_is_ssd cs) +
  config.DEFAULT_HDD_POWER * py_len (filter (fun d => negb (p_is_ssd d)) cs).
Proof.
  induction cs as [|d cs IH].
  - reflexivity.
  - cbn [map sum_list fold_right filter]. fold (sum_list (map partition_power cs)).
    rewrite IH. unfold partition_power.
    destruct (p_is_ssd d); cbn [negb]; rewrite py_len_cons; ring.
Qed.

(** One partition: a counted one appends its device and adds its
    wattage, any other leaves the record as it is. *)
Lemma detect_partition_step d c q :
  c_max_power c = PyNum q ->
  detect_partition d c =
  (Ok tt,
   if counted d
   then mk_component (c_type c) (c_name c) (PyNum (q + partition_power d))
                     (c_details c) (c_extra c) (c_devices c ++ [device_of d])
   else c).
Proof.
  intro Hc. unfold detect_partition, counted.
  destruct (String.eqb (p_device d) ""); cbn [negb andb]; [reflexivity|].
  unfold swallow, add_power, try_except, bind, lift, get_state, modify, py_num.
  destruct (p_disk_usage d) as [u|x]; [|reflexivity].
  cbn [ret]. rewrite Hc. reflexivity.
Qed.

Lemma detect_partitions_result ds : forall c q,
  c_max_power c = PyNum q ->
  exists q',
    for_each detect_partition ds c =
    (Ok tt,
     mk_component (c_type c) (c_name c) (PyNum q') (c_details c) (c_extra c)
                  (c_devices c ++ map device_of (filter counted ds))) /\
    q' == q + sum_list (map partition_power (filter counted ds)).
Proof.
  induction ds as [|d ds IH]; intros c q Hc.
  - exists q. split.
    + destruct c; simpl in *. rewrite Hc, app_nil_r. reflexivity.
    + simpl. ring.
  - change (for_each detect_partition (d :: ds))
      with (bind (detect_partition d) (fun _ => for_each detect_partition ds)).
    unfold bind. rewrite (detect_partition_step d c q Hc). cbn [filter].
    destruct (counted d).
    + match goal with
      | |- context [for_each detect_partition ds ?c1] =>
          destruct (IH c1 (q + partition_power d) eq_refl) as (q' & Hrun & Hq)
      end.
      exists q'. split.
      * rewrite Hrun.
        cbn [c_type c_name c_details c_extra c_devices map].
        rewrite <- app_assoc. reflexivity.
      * rewrite Hq. unfold sum_list. cbn [map fold_right]. ring.
    + apply IH, Hc.
Qed.

Lemma update_if_state ty hs (c : component) :
  snd (for_each (update_if ty) hs c) = c.
Proof.
  induction hs as [|h hs IH]; [reflexivity|].
  cbn [for_each]. unfold bind, update_if at 1.
  destruct (HardwareType h =? ty)%Z.
  - unfold lift. destruct (Update h); [exact IH | reflexivity].
  - exact IH.
Qed.

(** The record of the storage detector. *)
Lemma storage_record w :
  let ps := match disk_partitions (storage w) with
            | Ok ps => ps
            | Raise _ => []
            end in
  exists q,
    snd (storage_body w storage_default) =
    mk_component "storage" None (PyNum q) [] []
                 (map device_of (filter counted ps)) /\
    q == sum_list (map partition_power (filter counted ps)).
Proof.
  unfold storage_body, bind, lift.
  destruct (disk_partitions (storage w)) as [ps|x]; cbv zeta.
  - destruct (detect_partitions_result ps storage_default 0 eq_refl)
      as (q & Hrun & Hq).
    exists q. split; [|rewrite Hq; ring].
    unfold ret at 1. rewrite Hrun. cbn [c_type c_name c_details c_extra c_devices
                                          storage_default List.app].
    destruct (lhm_initialized w); [|reflexivity].
    destruct (storage_Hardware (storage w)) as [hs|x]; [|reflexivity].
    unfold ret. apply update_if_state.
  - exists 0. split; reflexivity.
Qed.

(** X18.  The wattage of the storage counts partitions, not drives:
    every partition that has a device name and whose [disk_usage] answers
    is listed as a device and adds 3 W when it is taken for an SSD and 7 W
    otherwise.  The record has no name, and LibreHardwareMonitor changes
    nothing in it. *)
Theorem storage_wattage_counts_partitions w :
  let ps := match disk_partitions (storage w) with
            | Ok ps => ps
            | Raise _ => []
            end in
  let cs := filter counted ps in
  exists st q,
    _detect_storage w = Ok st /\
    c_name st = None /\
    c_devices st = map device_of cs /\
    c_max_power st = PyNum q /\
    q == config.DEFAULT_SSD_POWER * py_len (filter p_is_ssd cs) +
         config.DEFAULT_HDD_POWER * py_len (filter (fun d => negb (p_is_ssd d)) cs).
Proof.
  intros ps cs. destruct (storage_record w) as (q & Hst & Hq).
  fold ps in Hst, Hq. fold cs in Hst, Hq.
  exists (snd (storage_body w storage_default)), q.
  split; [apply detector_returns|]. rewrite Hst.
  repeat split. rewrite Hq. apply partition_power_sum.
Qed.

(** The wattage of the motherboard is a constant of the detector. *)
Lemma motherboard_power w :
  c_max_power (snd (mb_body w mb_default)) = PyNum config.DEFAULT_MOTHERBOARD_POWER.
Proof.
  apply (mb_body_keeps w
           (fun c => c_max_power c = PyNum config.DEFAULT_MOTHERBOARD_POWER));
    auto.
Qed.

Lemma memory_power w :
  c_max_power (snd (mem_body w mem_default)) =
  PyNum (config.DEFAULT_RAM_PER_STICK * inject_Z (counted_sticks w)) /\
  (1 <= counted_sticks w)%Z.
Proof.
  unfold counted_sticks, mem_body, bind, lift, modify, set_sticks.
  destruct (virtual_memory (memory w)) as [[total avail]|x];
    [|split; [reflexivity | lia]].
  cbn [ret raise].
  destruct (os_is_nt w).
  - unfold swallow, try_except, bind, lift, modify.
    destruct (wmi_PhysicalMemory (memory w)) as [[n cap]|x];
      [|split; [reflexivity | lia]].
    cbn [ret]. destruct (0 <? n)%Z eqn:E; [|split; [reflexivity | lia]].
    apply Z.ltb_lt in E. split; [reflexivity | lia].
  - unfold swallow, try_except, bind, lift, modify.
    destruct (dmidecode (memory w)) as [[rc n]|x]; cbn [ret raise any_Exception].
    + destruct ((rc =? 0)%Z && (0 <? n)%Z) eqn:E.
      * apply andb_prop in E as [_ E]. apply Z.ltb_lt in E.
        destruct (proc_meminfo_total_kb (memory w)) as [[kb|]|y];
          (split; [reflexivity | lia]).
      * destruct (proc_meminfo_total_kb (memory w)) as [[kb|]|y];
          (split; [reflexivity | lia]).
    + destruct (proc_meminfo_total_kb (memory w)) as [[kb|]|y];
        (split; [reflexivity | lia]).
Qed.

(** X19.  The wattage of the motherboard is 30 W whatever board is found
    and whatever fails.  The wattage of the memory is 5 W per stick: the
    sticks WMI lists on Windows, the "Memory Device" lines of a
    successful dmidecode elsewhere, and two sticks when that count is not
    positive, when the query fails, or when [psutil.virtual_memory]
    fails before the sticks are counted; an error after the count (in
    reading /proc/meminfo) does not change it. *)
Theorem motherboard_and_memory_wattage w :
  exists b r,
    _detect_motherboard w = Ok b /\
    c_max_power b = PyNum config.DEFAULT_MOTHERBOARD_POWER /\
    _detect_memory w = Ok r /\
    c_max_power r =
    PyNum (config.DEFAULT_RAM_PER_STICK * inject_Z (counted_sticks w)) /\
    (1 <= counted_sticks w)%Z.
Proof.
  exists (snd (mb_body w mb_default)), (snd (mem_body w mem_default)).
  split; [apply detector_returns|]. split; [apply motherboard_power|].
  split; [apply detector_returns|]. apply memory_power.
Qed.

End Wattage.

(** ** From detection to samples and to the [components] table *)

Section Composition.

Import HardwareMonitor Components.

(** The estimation path with rated powers that are numbers. *)
Lemma estimate_body_runs m e cu tc tg qm qr qs :
  cpu_percent_estimate e = Ok cu ->
  max_power_of m "cpu" = Ok (PyNum tc) ->
  max_power_of m "gpu" = Ok (PyNum tg) ->
  max_power_of m "motherboard" = Ok (PyNum qm) ->
  max_power_of m "memory" = Ok (PyNum qr) ->
  max_power_of m "storage" = Ok (PyNum qs) ->
  let pc := tc * (cu / 100) * config.CPU_UTILIZATION_SCALING in
  let gu := estimate_gpu_util e in
  let pg := tg * (gu / 100) * config.GPU_UTILIZATION_SCALING in
  estimate_body m e empty_sample =
  (Ok tt,
   (0 + pc + pg + qm + qr + qs + config.DEFAULT_IDLE_POWER,
    [("cpu", mk_entry (PyNum pc) (Some (PyNum cu)) (Some (PyNum 0)));
     ("gpu", mk_entry (PyNum pg) (Some (PyNum gu)) (Some (PyNum 0)));
     ("motherboard", mk_entry (PyNum qm) None None);
     ("memory", mk_entry (PyNum qr) None None);
     ("storage", mk_entry (PyNum qs) None None);
     ("idle", power_only config.DEFAULT_IDLE_POWER)])).
Proof.
  intros Hcu Hc Hg Hm Hr Hs pc gu pg. subst pc pg gu.
  unfold estimate_body. generalize (estimate_gpu_util e) as gu. intro gu.
  unfold add_static, add, put, bind, lift, scaled, rbind, py_num, modify,
    get_state, put_state.
  rewrite Hcu, Hc, Hg, Hm, Hr, Hs. reflexivity.
Qed.

(** Without LibreHardwareMonitor the rated powers of CPU and GPU are
    numbers: the default of the CPU, and for the GPU the default or the
    limit nvidia-smi reports. *)
Lemma cpu_power_without_lhm w :
  lhm_initialized w = false ->
  c_max_power (snd (cpu_body w (cpu_default w))) = PyNum config.DEFAULT_CPU_TDP.
Proof.
  intro Hoff.
  apply (cpu_body_keeps w (fun c => c_max_power c = PyNum config.DEFAULT_CPU_TDP));
    auto.
  intro Hon. congruence.
Qed.

Lemma gpu_power_without_lhm w :
  lhm_initialized w = false ->
  exists q, c_max_power (snd (gpu_body w gpu_default)) = PyNum q.
Proof.
  intro Hoff.
  apply (gpu_body_keeps w (fun c => exists q, c_max_power c = PyNum q)); auto.
  - intros q c _. exists q. reflexivity.
  - intro Hon. congruence.
  - eexists. reflexivity.
Qed.

(** X20.  A monitor created on a machine without LibreHardwareMonitor
    rates the CPU at the default 65 W, whatever CPU is found, and every
    sample it takes is an estimate from [psutil.cpu_percent]: the six
    entries with the idle power, and a total of
    [65 * (u/100) * 0.7 + gpu_tdp * (g/100) * 0.8 + 30 + memory + storage + 20].
    The fixed sample of 100 W is returned exactly when
    [psutil.cpu_percent] raises. *)
Theorem monitor_without_lhm_estimates w e :
  lhm_initialized w = false ->
  exists m tg qr qs,
    __init__ w = Ok m /\
    direct_path m e = false /\
    max_power_of m "cpu" = Ok (PyNum config.DEFAULT_CPU_TDP) /\
    max_power_of m "gpu" = Ok (PyNum tg) /\
    max_power_of m "motherboard" = Ok (PyNum config.DEFAULT_MOTHERBOARD_POWER) /\
    max_power_of m "memory" = Ok (PyNum qr) /\
    max_power_of m "storage" = Ok (PyNum qs) /\
    match cpu_percent_estimate e with
    | Ok cu =>
        exists smp,
          get_power_readings m e = Ok smp /\
          map fst (snd smp) =
          ["cpu"; "gpu"; "motherboard"; "memory"; "storage"; "idle"] /\
          fst smp ==
          65 * (cu / 100) * (7 # 10)
          + tg * (estimate_gpu_util e / 100) * (8 # 10)
          + 30 + qr + qs + 20
    | Raise _ => get_power_readings m e = Ok default_sample
    end.
Proof.
  intro Hoff.
  destruct (gpu_power_without_lhm w Hoff) as [tg Hg].
  destruct (memory_power w) as [Hr _].
  destruct (storage_record w) as (qs & Hs & _).
  pose proof (cpu_power_without_lhm w Hoff) as Hc.
  pose proof (motherboard_power w) as Hb.
  set (m := mk_monitor (lhm_initialized w)
              [("cpu", snd (cpu_body w (cpu_default w)));
               ("gpu", snd (gpu_body w gpu_default));
               ("motherboard", snd (mb_body w mb_default));
               ("memory", snd (mem_body w mem_default));
               ("storage", snd (storage_body w storage_default))]).
  assert (Hm : __init__ w = Ok m).
  { unfold __init__. rewrite detect_hardware_returns. reflexivity. }
  assert (Mc : max_power_of m "cpu" = Ok (PyNum config.DEFAULT_CPU_TDP)).
  { unfold max_power_of, m. simpl. rewrite Hc. reflexivity. }
  assert (Mg : max_power_of m "gpu" = Ok (PyNum tg)).
  { unfold max_power_of, m. simpl. rewrite Hg. reflexivity. }
  assert (Mb : max_power_of m "motherboard"
               = Ok (PyNum config.DEFAULT_MOTHERBOARD_POWER)).
  { unfold max_power_of, m. simpl. rewrite Hb. reflexivity. }
  assert (Mr : max_power_of m "memory"
               = Ok (PyNum (config.DEFAULT_RAM_PER_STICK
                            * inject_Z (counted_sticks w)))).
  { unfold max_power_of, m. simpl. rewrite Hr. reflexivity. }
  assert (Ms : max_power_of m "storage" = Ok (PyNum qs)).
  { unfold max_power_of, m. simpl. rewrite Hs. reflexivity. }
  assert (Hflag : self_lhm_initialized m = false) by exact Hoff.
  exists m, tg, (config.DEFAULT_RAM_PER_STICK * inject_Z (counted_sticks w)), qs.
  split; [exact Hm|].
  split; [unfold direct_path; rewrite Hflag; reflexivity|].
  do 5 (split; [assumption|]).
  unfold get_power_readings. rewrite Hflag. unfold _estimate_power_consumption.
  destruct (cpu_percent_estimate e) as [cu|x] eqn:Ecu.
  - rewrite (estimate_body_runs m e cu _ _ _ _ _ Ecu Mc Mg Mb Mr Ms).
    eexists. split; [reflexivity|]. split; [reflexivity|].
    cbn [fst]. unfold config.DEFAULT_CPU_TDP, config.CPU_UTILIZATION_SCALING,
      config.GPU_UTILIZATION_SCALING, config.DEFAULT_MOTHERBOARD_POWER,
      config.DEFAULT_IDLE_POWER.
    ring.
  - unfold estimate_body, bind, lift. rewrite Ecu. reflexivity.
Qed.

Lemma monitor_without_lhm_estimates_witness :
  let w := mk_machine false false (cpu example_machine) (gpu example_machine)
                      (motherboard example_machine) (memory example_machine)
                      (storage example_machine) in
  exists m tg qr qs,
    __init__ w = Ok m /\
    direct_path m example_env = false /\
    max_power_of m "cpu" = Ok (PyNum config.DEFAULT_CPU_TDP) /\
    max_power_of m "gpu" = Ok (PyNum tg) /\
    max_power_of m "motherboard" = Ok (PyNum config.DEFAULT_MOTHERBOARD_POWER) /\
    max_power_of m "memory" = Ok (PyNum qr) /\
    max_power_of m "storage" = Ok (PyNum qs) /\
    match cpu_percent_estimate example_env with
    | Ok cu =>
        exists smp,
          get_power_readings m example_env = Ok smp /\
          map fst (snd smp) =
          ["cpu"; "gpu"; "motherboard"; "memory"; "storage"; "idle"] /\
          fst smp ==
          65 * (cu / 100) * (7 # 10)
          + tg * (estimate_gpu_util example_env / 100) * (8 # 10)
          + 30 + qr + qs + 20
    | Raise _ => get_power_readings m example_env = Ok default_sample
    end.
Proof.
  apply (monitor_without_lhm_estimates
           (mk_machine false false (cpu example_machine) (gpu example_machine)
                       (motherboard example_machine) (memory example_machine)
                       (storage example_machine))
           example_env).
  reflexivity.
Defined.

(** X21.  Away from Windows and without LibreHardwareMonitor, a GPU that
    the first call of nvidia-smi does not name stays "Unknown GPU" at the
    default 150 W: lspci and the AMD entries of /sys/class/drm are
    consulted only in the branch taken when the GPU already has a name,
    so what they would report plays no part. *)
Theorem gpu_stays_unknown_without_nvidia_smi w :
  os_is_nt w = false ->
  lhm_initialized w = false ->
  nvidia_smi_names_gpu w = false ->
  _detect_gpu w = Ok gpu_default.
Proof.
  intros Hos Hoff Hn. unfold _detect_gpu. rewrite detector_returns. f_equal.
  unfold nvidia_smi_names_gpu in Hn.
  unfold gpu_body, bind, swallow, try_except, lift, get_state.
  rewrite Hos, Hoff.
  destruct (nvidia_smi_name (gpu w)) as [r|x]; [|reflexivity].
  destruct (succeeded r) eqn:E; [discriminate|].
  cbv beta iota delta [ret]. rewrite E. reflexivity.
Qed.

Lemma gpu_stays_unknown_without_nvidia_smi_witness :
  _detect_gpu
    (mk_machine false false (cpu example_machine)
       (mk_gpu_probe
          (Raise (Exception_ "nvidia-smi: file not found"))
          (Raise (Exception_ "nvidia-smi: file not found"))
          (Ok None)
          (Ok (0%Z, Some "Advanced Micro Devices Navi 21"))
          (Raise (Exception_ "nvidia-smi: file not found"))
          (Ok ["AMD GPU 0x1002:0x73bf"])
          (Ok []))
       (motherboard example_machine) (memory example_machine)
       (storage example_machine))
  = Ok gpu_default.
Proof.
  apply gpu_stays_unknown_without_nvidia_smi; reflexivity.
Defined.

(** The records of the first four detectors keep their type and have a
    name; the storage record has none. *)
Lemma typed_and_named ty (body : M component unit) init :
  keeps (fun c => c_type c = ty /\ exists n, c_name c = Some n) body ->
  c_type init = ty -> (exists n, c_name init = Some n) ->
  exists n, as_dict (snd (body init))
            = mk_component_dict (Some ty) (Some n)
                                (Some (c_details (snd (body init))))
                                (Some (c_max_power (snd (body init)))).
Proof.
  intros Hk Ht Hn. destruct (Hk init (conj Ht Hn)) as [Ht' [n Hn']].
  exists n. unfold as_dict. rewrite Ht', Hn'. reflexivity.
Qed.

Ltac stable_type_name :=
  first [ intros ? ? [? ?]; split; [assumption | eexists; reflexivity]
        | intros ? ? ? [? ?]; split; assumption
        | intros ? ? [? ?]; split; assumption
        | intros _ ? ? [? ?]; split; assumption ].

(** X22.  The records that [detect_hardware] returns cannot be stored by
    [save_components] as they are: the storage record has no ["name"], so
    the call raises [KeyError] at the fifth record, after the previous
    rows were deleted and the rows of CPU, GPU, motherboard and memory
    were written. *)
Theorem detected_components_cannot_be_saved w now (t : table) old :
  rows t = Some old ->
  exists comps out,
    detect_hardware w = Ok comps /\
    save_components now (component_dicts comps) t =
    (Raise (KeyError "name"), mk_table (Some out) (last_id t + 4)) /\
    map row_type out = ["cpu"; "gpu"; "motherboard"; "memory"] /\
    map row_max_power out = map (fun kv => c_max_power (snd kv)) (firstn 4 comps).
Proof.
  intro Hr. destruct t as [r n]. simpl in Hr. subst r.
  destruct (typed_and_named "cpu" (cpu_body w) (cpu_default w)) as [nc Hc];
    [apply cpu_body_keeps; stable_type_name | reflexivity
     | eexists; reflexivity |].
  destruct (typed_and_named "gpu" (gpu_body w) gpu_default) as [ng Hg];
    [apply gpu_body_keeps; stable_type_name | reflexivity
     | eexists; reflexivity |].
  destruct (typed_and_named "motherboard" (mb_body w) mb_default) as [nb Hb];
    [apply mb_body_keeps; stable_type_name | reflexivity
     | eexists; reflexivity |].
  destruct (typed_and_named "memory" (mem_body w) mem_default) as [nm Hm];
    [apply mem_body_keeps; stable_type_name | reflexivity
     | eexists; reflexivity |].
  destruct (storage_record w) as (qs & Hs & _).
  eexists. eexists. split; [apply detect_hardware_returns|].
  unfold component_dicts. cbn [map snd firstn].
  rewrite Hc, Hg, Hb, Hm, Hs.
  unfold save_components, delete_components, for_each, save_component,
    insert_component, bind, lift, subscript, as_dict.
  cbn [rows last_id key_type key_name key_details key_max_power get_or
       c_type c_name c_details c_max_power ret raise List.app].
  replace (n + 1 + 1 + 1 + 1)%Z with (n + 4)%Z by lia.
  split; [reflexivity|]. split; reflexivity.
Qed.

Lemma detected_components_cannot_be_saved_witness :
  exists comps out,
    detect_hardware example_machine = Ok comps /\
    save_components 100 (component_dicts comps) (mk_table (Some []) 0) =
    (Raise (KeyError "name"), mk_table (Some out) (0 + 4)) /\
    map row_type out = ["cpu"; "gpu"; "motherboard"; "memory"] /\
    map row_max_power out = map (fun kv => c_max_power (snd kv)) (firstn 4 comps).
Proof.
  apply (detected_components_cannot_be_saved example_machine 100
           (mk_table (Some []) 0) []).
  reflexivity.
Defined.

End Composition.

(** ** The range of the estimate *)

Section Range_of_estimate.

Import HardwareMonitor.

Lemma scaled_bounds (tdp u k : Q) :
  0 <= tdp -> 0 <= u -> u <= 100 -> 0 <= k ->
  0 <= tdp * (u / 100) * k /\ tdp * (u / 100) * k <= k * tdp.
Proof.
  intros Ht Hu0 Hu1 Hk.
  assert (E : u / 100 == u * (1 # 100)) by (unfold Qdiv; reflexivity).
  set (f := u / 100) in *. clearbody f.
  assert (Hf0 : 0 <= f) by (rewrite E; lra).
  assert (Hf1 : f <= 1) by (rewrite E; lra).
  assert (Htf0 : 0 <= tdp * f) by (apply Qmult_le_0_compat; assumption).
  assert (Htf1 : tdp * f <= tdp).
  { rewrite <- (Qmult_1_r tdp) at 2.
    rewrite (Qmult_comm tdp f), (Qmult_comm tdp 1).
    apply Qmult_le_compat_r; assumption. }
  split.
  - apply Qmult_le_0_compat; assumption.
  - rewrite (Qmult_comm k tdp). apply Qmult_le_compat_r; assumption.
Qed.

(** X23.  With utilisations between 0 and 100 percent and rated powers
    that are not negative, the estimate lies between the static part
    (motherboard, memory, storage and the 20 W idle power) and the static
    part plus 70 percent of the rated CPU power plus 80 percent of the
    rated GPU power: the estimated CPU and GPU never reach their rated
    power. *)
Theorem estimate_stays_below_rated_power m e cu tc tg qm qr qs :
  cpu_percent_estimate e = Ok cu ->
  max_power_of m "cpu" = Ok (PyNum tc) ->
  max_power_of m "gpu" = Ok (PyNum tg) ->
  max_power_of m "motherboard" = Ok (PyNum qm) ->
  max_power_of m "memory" = Ok (PyNum qr) ->
  max_power_of m "storage" = Ok (PyNum qs) ->
  0 <= tc -> 0 <= tg ->
  0 <= cu -> cu <= 100 ->
  0 <= estimate_gpu_util e -> estimate_gpu_util e <= 100 ->
  exists smp,
    _estimate_power_consumption m e = Ok smp /\
    qm + qr + qs + config.DEFAULT_IDLE_POWER <= fst smp /\
    fst smp <= config.CPU_UTILIZATION_SCALING * tc
               + config.GPU_UTILIZATION_SCALING * tg
               + qm + qr + qs + config.DEFAULT_IDLE_POWER.
Proof.
  intros Hcu Hc Hg Hm Hr Hs Htc Htg Hu0 Hu1 Hg0 Hg1.
  unfold _estimate_power_consumption.
  rewrite (estimate_body_runs m e cu tc tg qm qr qs Hcu Hc Hg Hm Hr Hs).
  eexists. split; [reflexivity|]. cbn [fst].
  destruct (scaled_bounds tc cu config.CPU_UTILIZATION_SCALING Htc Hu0 Hu1)
    as [Hc0 Hc1]; [unfold config.CPU_UTILIZATION_SCALING; lra|].
  destruct (scaled_bounds tg (estimate_gpu_util e)
              config.GPU_UTILIZATION_SCALING Htg Hg0 Hg1)
    as [Hg0' Hg1']; [unfold config.GPU_UTILIZATION_SCALING; lra|].
  set (pc := tc * (cu / 100) * config.CPU_UTILIZATION_SCALING) in *.
  set (pg := tg * (estimate_gpu_util e / 100) * config.GPU_UTILIZATION_SCALING) in *.
  set (kc := config.CPU_UTILIZATION_SCALING * tc) in *.
  set (kg := config.GPU_UTILIZATION_SCALING * tg) in *.
  clearbody pc pg kc kg.
  unfold config.DEFAULT_IDLE_POWER. split; lra.
Qed.

Lemma estimate_stays_below_rated_power_witness :
  exists smp,
    _estimate_power_consumption example_monitor example_env = Ok smp /\
    30 + 10 + 3 + config.DEFAULT_IDLE_POWER <= fst smp /\
    fst smp <= config.CPU_UTILIZATION_SCALING * 100
               + config.GPU_UTILIZATION_SCALING * 150
               + 30 + 10 + 3 + config.DEFAULT_IDLE_POWER.
Proof.
  apply (estimate_stays_below_rated_power example_monitor example_env
           25 100 150 30 10 3);
    try reflexivity; vm_compute; discriminate.
Defined.

End Range_of_estimate.

(** ** From a saved reading to the daily data *)

Section Round_trip.

Import DataStorage.

Lemma insert_by_date_before (r row : daily) (xs : list daily) :
  (d_date r <= d_date row)%Z ->
  insert_by_date r (xs ++ [row]) = insert_by_date r xs ++ [row].
Proof.
  intro Hle. induction xs as [|x xs IH]; simpl.
  - destruct (Z.leb_spec (d_date r) (d_date row)); [reflexivity | lia].
  - destruct (d_date r <=? d_date x)%Z; [reflexivity|].
    rewrite IH. reflexivity.
Qed.

Lemma order_by_date_last (row : daily) (xs : list daily) :
  Forall (fun r => (d_date r <= d_date row)%Z) xs ->
  order_by_date (xs ++ [row]) = order_by_date xs ++ [row].
Proof.
  induction 1 as [|x xs Hx Hall IH]; [reflexivity|].
  cbn [List.app order_by_date fold_right].
  change (fold_right insert_by_date [] (xs ++ [row]))
    with (order_by_date (xs ++ [row])).
  rewrite IH. apply insert_by_date_before, Hx.
Qed.



End Round_trip.

(** ** When a sample comes from the sensors *)

Section Direct.

Import HardwareMonitor.

Lemma update_all_ok (hs : list hardware) (s : sample) :
  fst (update_all hs s) = Ok tt <-> Forall (fun h => Update h = Ok tt) hs.
Proof.
  unfold update_all. induction hs as [|h hs IH]; simpl.
  - split; [constructor | reflexivity].
  - unfold bind, lift. destruct (Update h) as [[]|x] eqn:E; simpl.
    + rewrite IH. split; [intro H; constructor; assumption|].
      intro H; inversion H; assumption.
    + split; [discriminate|]. intro H; inversion H; congruence.
Qed.

Lemma update_all_run (hs : list hardware) (s : sample) :
  Forall (fun h => Update h = Ok tt) hs -> update_all hs s = (Ok tt, s).
Proof.
  intro H. apply update_all_ok with (s := s) in H.
  pose proof (update_all_state hs s) as Hs.
  destruct (update_all hs s) as [r s']. simpl in *. congruence.
Qed.


(** X26.  [_detect_cpu] and [_detect_gpu] take the rated power from the
    first TDP or Package sensor as it is; when that sensor has no reading
    the rated power is [None].  With such a rated power the estimate
    cannot be computed: [_estimate_power_consumption] returns the fixed
    sample of 100 W for every observation, and so does
    [get_power_readings] whenever the sample does not come from the
    sensors. *)
Theorem rated_power_without_reading_gives_fixed_sample m e :
  max_power_of m "cpu" = Ok PyNone \/ max_power_of m "gpu" = Ok PyNone ->
  _estimate_power_consumption m e = Ok default_sample /\
  (direct_path m e = false -> get_power_readings m e = Ok default_sample).
Proof.
  intro H.
  assert (He : _estimate_power_consumption m e = Ok default_sample).
  { unfold _estimate_power_consumption, estimate_body.
    generalize (estimate_gpu_util e) as gu. intro gu.
    unfold bind, lift, scaled, rbind, py_num.
    destruct (cpu_percent_estimate e) as [cu|x]; [|reflexivity]. cbn [ret].
    destruct H as [H|H].
    - rewrite H. reflexivity.
    - destruct (max_power_of m "cpu") as [[|tc]|x]; try reflexivity.
      cbn [ret]. unfold put, add, modify, bind, lift, get_state, put_state, py_num.
      cbn [ret]. rewrite H. reflexivity. }
  split; [exact He|].
  unfold direct_path, is_ok, get_power_readings.
  destruct (self_lhm_initialized m); [|intros _; exact He].
  destruct (lhm_body m e empty_sample) as [[u|x] s]; cbn [andb fst];
    [discriminate | intros _; exact He].
Qed.

Lemma rated_power_without_reading_gives_fixed_sample_witness :
  let w := mk_machine true true
             (mk_cpu_probe (DInt 4) (DInt 8) (Ok None) (Ok "Example CPU")
                (Ok None)
                (Ok [mk_hardware 0 "Example CPU" (Ok tt)
                       [mk_sensor 1 "CPU Package" PyNone]]))
             (gpu example_machine) (motherboard example_machine)
             (memory example_machine) (storage example_machine) in
  let e := mk_env (Raise (Exception_ "LibreHardwareMonitor failure"))
                  (Ok []) (Ok []) (Ok 25) (Ok 25)
                  (Raise (Exception_ "nvidia-smi: file not found"))
                  (Ok 25)
                  (Raise (Exception_ "nvidia-smi: file not found")) in
  exists m,
    __init__ w = Ok m /\
    max_power_of m "cpu" = Ok PyNone /\
    _estimate_power_consumption m e = Ok default_sample /\
    (direct_path m e = false -> get_power_readings m e = Ok default_sample).
Proof.
  intros w e. eexists. split; [vm_compute; reflexivity|].
  split; [reflexivity|].
  apply rated_power_without_reading_gives_fixed_sample.
  left. reflexivity.
Defined.

End Direct.
